(** * zabbix-threat-control-go: shallow embedding and verified properties

    The development follows the Go packages of the repository:
    [scanner] (aggregator.go, osutil.go, hostmatrix.go, extract.go,
    scanner.go, lld.go, types) and [fixer] (sanitize.go, executor.go,
    fixer.go, types).  The pieces of the Go standard
    library the code calls ([strings], [sort], [net], float64 arithmetic)
    are modelled in the [Go*] modules that come first, after the release
    the repository requires (Go 1.25).

    Part I holds the definitions, Part II the lemmas and theorems. *)

From Stdlib Require Import ZArith Lia Bool Ascii List.
From Stdlib Require String.
From Stdlib Require Import Sorting.Sorted Sorting.Permutation.
From Stdlib Require Import Floats Uint63.
From stdpp Require Import gmap strings list.

Local Open Scope Z_scope.

(* ===================================================================== *)
(** * Part I: definitions                                                 *)
(* ===================================================================== *)

(** ** float64

    Go's [float64] is IEEE-754 binary64, which is what Rocq's primitive
    [float] is.  Comparisons are the primitive ones ([a > b] in Go is
    [PrimFloat.ltb b a]); they are false as soon as one side is NaN. *)
Module GoFloat.

Definition gt (a b : float) : bool := PrimFloat.ltb b a.
Definition lt (a b : float) : bool := PrimFloat.ltb a b.
Definition le (a b : float) : bool := PrimFloat.leb a b.
Definition ge (a b : float) : bool := PrimFloat.leb b a.

(** [x != x], the test behind [math.IsNaN]. *)
Definition isNaN (x : float) : bool := negb (PrimFloat.eqb x x).

(** [float64(n)] for an [int] [n] with [0 <= n < 2^63] (a slice length). *)
Definition ofInt (n : Z) : float := PrimFloat.of_uint63 (Uint63.of_Z n).

Definition signedZ (s : bool) (m : positive) : Z :=
  if s then Z.neg m else Z.pos m.

(** The value of a finite float is [signedZ s m * 2^e].  [truncSF] is its
    integer part (rounded toward zero) and [floorSF] its floor. *)
Definition truncSF (x : spec_float) : option Z :=
  match x with
  | S754_zero _ => Some 0
  | S754_finite s m e =>
      Some (if 0 <=? e then signedZ s m * 2 ^ e
            else Z.quot (signedZ s m) (2 ^ (- e)))
  | S754_infinity _ | S754_nan => None
  end.

Definition floorSF (x : spec_float) : option Z :=
  match x with
  | S754_zero _ => Some 0
  | S754_finite s m e =>
      Some (if 0 <=? e then signedZ s m * 2 ^ e
            else Z.div (signedZ s m) (2 ^ (- e)))
  | S754_infinity _ | S754_nan => None
  end.

Definition trunc (x : float) : option Z := truncSF (Prim2SF x).
Definition floor (x : float) : option Z := floorSF (Prim2SF x).

Definition fitsInt (z : Z) : bool := (- 2 ^ 63 <=? z) && (z <? 2 ^ 63).

(** The scores on which the conversion [int(x)] is defined by the
    language: finite, with an integer part that fits [int] (64 bits). *)
Definition convertible (x : float) : bool :=
  match trunc x with
  | Some z => fitsInt z
  | None => false
  end.

(** An order-preserving image of the floats other than NaN in triples
    of integers ordered lexicographically: class (infinities, negative,
    zero, positive), then exponent, then mantissa.  Used to reason about
    the comparisons. *)
Definition rankSF (x : spec_float) : option (Z * Z * Z) :=
  match x with
  | S754_nan => None
  | S754_infinity true => Some (-2, 0, 0)
  | S754_infinity false => Some (2, 0, 0)
  | S754_zero _ => Some (0, 0, 0)
  | S754_finite true m e => Some (-1, - e, Z.neg m)
  | S754_finite false m e => Some (1, e, Z.pos m)
  end.

Definition rank (x : float) : option (Z * Z * Z) := rankSF (Prim2SF x).

Definition lexlt (a b : Z * Z * Z) : Prop :=
  let '(a1, a2, a3) := a in
  let '(b1, b2, b3) := b in
  a1 < b1 \/ (a1 = b1 /\ (a2 < b2 \/ (a2 = b2 /\ a3 < b3))).

Definition lexle (a b : Z * Z * Z) : Prop := lexlt a b \/ a = b.

Section Conversion.
(** The Go specification leaves [int(x)] implementation-dependent when
    the integer part of [x] is not representable (NaN, infinities,
    magnitude of 2^63 and more): [archInt] is what the target
    architecture produces there. *)
Variable archInt : float -> Z.

Definition toInt (x : float) : Z :=
  match trunc x with
  | Some z => if fitsInt z then z else archInt x
  | None => archInt x
  end.
End Conversion.

End GoFloat.

(** ** package sort *)
Module GoSort.

Section Insertion.
Context {A : Type}.
Variable less : A -> A -> bool.

(** One pass of the inner loop of [insertionSort]:
    [for j := i; j > a && less(data[j], data[j-1]); j-- { swap }].
    The sorted prefix is held last-element-first. *)
Fixpoint sift (x : A) (rprefix : list A) : list A :=
  match rprefix with
  | [] => [x]
  | y :: r => if less x y then y :: sift x r else x :: y :: r
  end.

(** [sort.Slice(data, less)] and friends.  The library sorts slices of
    up to 12 elements by this insertion sort and longer ones by
    pattern-defeating quicksort; when [less] is a strict weak ordering
    both return a permutation ordered by [less], and they differ at most
    in the order of elements that [less] does not separate.  The model is
    the insertion sort. *)
Definition insertionSort (data : list A) : list A :=
  rev (fold_left (fun rprefix x => sift x rprefix) data []).
End Insertion.

(** [sort.Float64s]: increasing order, NaNs first
    ([x[i] < x[j] || (isNaN(x[i]) && !isNaN(x[j]))]). *)
Definition float64Less (x y : float) : bool :=
  GoFloat.lt x y || (GoFloat.isNaN x && negb (GoFloat.isNaN y)).

Definition Float64s (x : list float) : list float :=
  insertionSort float64Less x.

End GoSort.

(** ** Slices

    [s[i]] on a slice panics when [i] is out of range: [None] stands for
    the run-time panic. *)
Module GoSlice.
Definition index {A} (s : list A) (i : Z) : option A :=
  if i <? 0 then None else s !! Z.to_nat i.

Definition len {A} (s : list A) : Z := Z.of_nat (length s).
End GoSlice.

(** ** package strings

    A Go [string] is a sequence of bytes, here a [string] of Rocq (a list
    of 8-bit [ascii]). *)
Module GoStrings.

Definition code (c : ascii) : N := N_of_ascii c.
Definition isByte (n : N) (c : ascii) : bool := (code c =? n)%N.
Definition inRange (lo hi : N) (c : ascii) : bool :=
  ((lo <=? code c) && (code c <=? hi))%N.

Definition len (s : string) : Z := Z.of_nat (String.length s).

(** The table [asciiSpace]: '\t', '\n', '\v', '\f', '\r', ' '. *)
Definition asciiSpace (c : ascii) : bool := inRange 9 13 c || isByte 32 c.

(** The other runes of [unicode.IsSpace] in UTF-8: U+0085 and U+00A0
    (two bytes), U+1680, U+2000..U+200A, U+2028, U+2029, U+202F, U+205F
    and U+3000 (three bytes). *)
Definition space2 (c d : ascii) : bool :=
  isByte 194 c && (isByte 133 d || isByte 160 d).

Definition space3 (c d e : ascii) : bool :=
  (isByte 225 c && isByte 154 d && isByte 128 e)
  || (isByte 226 c && isByte 128 d
      && (inRange 128 138 e || isByte 168 e || isByte 169 e
          || isByte 175 e))
  || (isByte 226 c && isByte 129 d && isByte 159 e)
  || (isByte 227 c && isByte 128 d && isByte 128 e).

(** The string cut into the pieces the library functions look at: a
    white-space rune with its bytes ([true]), or one other byte
    ([false]).  A lead byte of UTF-8 is never a continuation byte, so the
    decoder of the library reaches every white-space rune at its first
    byte, on every input (valid UTF-8 or not); on a string of ASCII bytes
    this is the library's ASCII fast path. *)
Fixpoint runes (s : string) : list (bool * string) :=
  match s with
  | EmptyString => []
  | String c r =>
      if asciiSpace c then (true, String c EmptyString) :: runes r
      else
        match r with
        | String d r1 =>
            if space2 c d
            then (true, String c (String d EmptyString)) :: runes r1
            else
              match r1 with
              | String e r2 =>
                  if space3 c d e
                  then (true, String c (String d (String e EmptyString)))
                         :: runes r2
                  else (false, String c EmptyString) :: runes r
              | EmptyString => (false, String c EmptyString) :: runes r
              end
        | EmptyString => (false, String c EmptyString) :: runes r
        end
  end.

(** [Fields]: the maximal runs of bytes between white space. *)
Fixpoint fieldsOf (cur : option string) (rs : list (bool * string))
  : list string :=
  match rs with
  | [] => match cur with Some f => [f] | None => [] end
  | (true, _) :: rs' =>
      match cur with
      | Some f => f :: fieldsOf None rs'
      | None => fieldsOf None rs'
      end
  | (false, b) :: rs' =>
      fieldsOf (Some (match cur with Some f => f +:+ b | None => b end)) rs'
  end.

Definition Fields (s : string) : list string := fieldsOf None (runes s).

Fixpoint trimLeft (rs : list (bool * string)) : list (bool * string) :=
  match rs with
  | (true, _) :: rs' => trimLeft rs'
  | _ => rs
  end.

Definition unrunes (rs : list (bool * string)) : string :=
  fold_right (fun r acc => snd r +:+ acc) EmptyString rs.

(** [TrimSpace]: leading and trailing white space removed. *)
Definition TrimSpace (s : string) : string :=
  unrunes (rev (trimLeft (rev (trimLeft (runes s))))).

(** [Split(s, sep)] for a separator of one byte. *)
Fixpoint Split (s : string) (sep : ascii) : list string :=
  match s with
  | EmptyString => [EmptyString]
  | String c r =>
      if Ascii.eqb c sep then EmptyString :: Split r sep
      else
        match Split r sep with
        | f :: fs => String c f :: fs
        | [] => [String c EmptyString]
        end
  end.

Fixpoint Contains (s substr : string) : bool :=
  String.prefix substr s
  || match s with
     | EmptyString => false
     | String _ r => Contains r substr
     end.

Definition Join (elems : list string) (sep : string) : string :=
  String.concat sep elems.

(** [ReplaceAll(s, old, new)] for an [old] of one byte. *)
Fixpoint ReplaceAll (s : string) (old : ascii) (new : string) : string :=
  match s with
  | EmptyString => EmptyString
  | String c r =>
      if Ascii.eqb c old then new +:+ ReplaceAll r old new
      else String c (ReplaceAll r old new)
  end.

Definition isASCII (s : string) : bool :=
  forallb (fun c => (code c <? 128)%N) (String.list_ascii_of_string s).

Definition lowerByte (c : ascii) : ascii :=
  if inRange 65 90 c then ascii_of_N (code c + 32) else c.

Fixpoint mapBytes (f : ascii -> ascii) (s : string) : string :=
  match s with
  | EmptyString => EmptyString
  | String c r => String (f c) (mapBytes f r)
  end.

Section ToLower.
(** [strings.Map(unicode.ToLower, s)], the path [ToLower] takes on a
    string with a byte of 0x80 or more.  It consults the case tables of
    the Unicode database, which are data of the Go distribution. *)
Variable unicodeToLower : string -> string.

Definition ToLower (s : string) : string :=
  if isASCII s then mapBytes lowerByte s else unicodeToLower s.
End ToLower.

End GoStrings.

(** ** errors

    An [error] value with the text [fmt.Errorf] builds: a fixed message,
    a message with a quoted or numeric argument, or a wrapped error. *)
Inductive error : Type :=
| ErrorString (msg : string)
| ErrorQuoted (msg : string) (arg : string)
| ErrorInt (msg : string) (arg : Z)
| ErrorWrap (msg : string) (err : error)
| ErrorRun (msg : string) (err : error) (stderr : string).

(** ** package net: [ParseIP] as a recognizer ([ParseIP(s) != nil]) *)
Module GoNet.

Definition isDigit (c : ascii) : bool := GoStrings.inRange 48 57 c.

(** The dotted-decimal parser: four fields of decimal digits separated by
    single dots, each at most 255 and without a leading zero. *)
Fixpoint parseIPv4Fields (s : string) (prev : option ascii)
    (val digLen pos : Z) : bool :=
  match s with
  | EmptyString => negb (pos <? 3)
  | String c r =>
      if isDigit c then
        if (digLen =? 1) && (val =? 0) then false
        else
          let val := val * 10 + Z.of_N (GoStrings.code c) - 48 in
          if 255 <? val then false
          else parseIPv4Fields r (Some c) val (digLen + 1) pos
      else if GoStrings.isByte 46 c then
        match prev, r with
        | None, _ => false                     (* .1.2.3 *)
        | _, EmptyString => false              (* 1.2.3. *)
        | Some p, _ =>
            if GoStrings.isByte 46 p then false (* 1..2.3 *)
            else if pos =? 3 then false        (* 1.2.3.4.5 *)
            else parseIPv4Fields r (Some c) 0 0 (pos + 1)
        end
      else false
  end.

Definition parseIPv4 (s : string) : bool := parseIPv4Fields s None 0 0 0.

Section ParseIP.
(** [parseIPv6 s]: [s] is the textual form of an IPv6 address without
    a zone, as package [net/netip] of the Go distribution parses it;
    taken as given. *)
Variable parseIPv6 : string -> bool.

(** The parser looks for the first of '.', ':' and '%': the first makes
    the string a candidate IPv4 address, the second an IPv6 one, and a
    string with a zone or with none of the three is no address. *)
Fixpoint dispatch (whole rest : string) : bool :=
  match rest with
  | EmptyString => false
  | String c r =>
      if GoStrings.isByte 46 c then parseIPv4 whole
      else if GoStrings.isByte 58 c then parseIPv6 whole
      else if GoStrings.isByte 37 c then false
      else dispatch whole r
  end.

Definition ParseIP (s : string) : bool := dispatch s s.
End ParseIP.

End GoNet.

(** ** package zabbix: the data the scanner reads (types.go) *)
Module zabbix.

Module HostInterface.
Record t := mk {
  InterfaceID : string; IP : string; DNS : string; Port : string;
  Type_ : string; Main : string; UseIP : string }.
End HostInterface.

Module HostGroup.
Record t := mk { GroupID : string; Name : string }.
End HostGroup.

Module Template.
Record t := mk { TemplateID : string; Host : string; Name : string }.
End Template.

Module Host.
Record t := mk {
  HostID : string; Host : string; Name : string; Status : string;
  Interfaces : list HostInterface.t;
  Groups : list HostGroup.t;
  Templates : list Template.t }.
End Host.

Module Item.
Record t := mk {
  ItemID : string; HostID : string; Name : string; Key : string;
  Value : string; ValueType : string; State : string }.
End Item.

(** A value of type [interface{}] in discovery data: the generators
    store strings and [int]s; what comes back from the JSON decoder is a
    string, a [float64], or something else (bool, nil, array, object)
    that the code never looks into. *)
Inductive value : Type :=
| VString (s : string)
| VInt (n : Z)
| VFloat64 (x : float)
| VOther.

(** [v, ok := entry[key].(string)]: a missing key is the nil interface,
    on which the assertion fails as on every value that is no string. *)
Definition asString (v : option value) : string * bool :=
  match v with
  | Some (VString s) => (s, true)
  | _ => ("", false)
  end.

(** [LLDData.Data] *)
Definition LLDData : Type := list (gmap string value).

End zabbix.

(** ** package vulners (github.com/kidoz/go-vulners): the fields of an
    audit result that the scanner reads *)
Module vulners.

Module CVSS.
Record t := mk { Score : float }.
End CVSS.

Module Vulnerability.
Record t := mk {
  Package : string; BulletinID : string;
  CVSS : option CVSS.t (* a pointer, nil when there is no score *);
  Fix : string; CVEList : list string }.
End Vulnerability.

Module AuditResult.
Record t := mk {
  Vulnerabilities : list Vulnerability.t;
  CVSSScore : float; CumulativeFix : string }.
End AuditResult.

End vulners.

(** ** package scanner: types and aggregator (types.go, aggregator.go)

    The fields of type [int] are counts of hosts, map entries and slice
    elements, which stay far below 2^63: they are integers of [Z] and no
    wrap-around is written.  The one [int] that comes from elsewhere, the
    bucket [int(host.Score)], goes through [GoFloat.toInt]. *)
Module scanner.

Module PackageVuln.
Record t := mk {
  Name : string; Version : string; Arch : string;
  Score : float; Fix : string;
  Bulletins : list string; CVEs : list string }.
End PackageVuln.

Module BulletinSummary.
Record t := mk {
  ID : string; Type_ : string; Score : float;
  CVEs : list string; Fix : string;
  AffectedPkg : list string; AffectedHosts : list string }.
End BulletinSummary.

Module HostEntry.
Record t := mk {
  HostID : string; Host : string; Name : string;
  OSName : string; OSVersion : string;
  Score : float; CumulativeFix : string;
  Packages : list PackageVuln.t;
  Bulletins : list BulletinSummary.t }.
End HostEntry.

Module PackageEntry.
Record t := mk {
  Name : string; Version : string; Arch : string;
  Score : float; Fix : string;
  AffectedHosts : list string;
  AffectedHostNames : list string;
  Bulletins : list string }.
End PackageEntry.

Module BulletinEntry.
Record t := mk {
  ID : string; Type_ : string; Score : float;
  CVEs : list string; Fix : string;
  AffectedPkgs : list string;
  AffectedHosts : list string;
  AffectedHostNames : list string }.
End BulletinEntry.

Module Statistics.
Record t := mk {
  TotalHosts : Z; VulnerableHosts : Z;
  TotalPackages : Z; TotalBulletins : Z; TotalCVEs : Z;
  MaxCVSS : float; AvgCVSS : float; MinCVSS : float; MedianCVSS : float;
  Histogram : list Z (* [11]int *) }.

Definition zero (hosts packages bulletins : Z) : t :=
  mk hosts 0 packages bulletins 0
     PrimFloat.zero PrimFloat.zero PrimFloat.zero PrimFloat.zero
     (replicate 11 0).

Definition setVulnerableHosts (v : Z) (s : t) : t :=
  mk (TotalHosts s) v (TotalPackages s) (TotalBulletins s) (TotalCVEs s)
     (MaxCVSS s) (AvgCVSS s) (MinCVSS s) (MedianCVSS s) (Histogram s).
Definition setTotalCVEs (v : Z) (s : t) : t :=
  mk (TotalHosts s) (VulnerableHosts s) (TotalPackages s)
     (TotalBulletins s) v
     (MaxCVSS s) (AvgCVSS s) (MinCVSS s) (MedianCVSS s) (Histogram s).
Definition setMaxCVSS (v : float) (s : t) : t :=
  mk (TotalHosts s) (VulnerableHosts s) (TotalPackages s)
     (TotalBulletins s) (TotalCVEs s)
     v (AvgCVSS s) (MinCVSS s) (MedianCVSS s) (Histogram s).
Definition setAvgCVSS (v : float) (s : t) : t :=
  mk (TotalHosts s) (VulnerableHosts s) (TotalPackages s)
     (TotalBulletins s) (TotalCVEs s)
     (MaxCVSS s) v (MinCVSS s) (MedianCVSS s) (Histogram s).
Definition setMinCVSS (v : float) (s : t) : t :=
  mk (TotalHosts s) (VulnerableHosts s) (TotalPackages s)
     (TotalBulletins s) (TotalCVEs s)
     (MaxCVSS s) (AvgCVSS s) v (MedianCVSS s) (Histogram s).
Definition setMedianCVSS (v : float) (s : t) : t :=
  mk (TotalHosts s) (VulnerableHosts s) (TotalPackages s)
     (TotalBulletins s) (TotalCVEs s)
     (MaxCVSS s) (AvgCVSS s) (MinCVSS s) v (Histogram s).
Definition setHistogram (v : list Z) (s : t) : t :=
  mk (TotalHosts s) (VulnerableHosts s) (TotalPackages s)
     (TotalBulletins s) (TotalCVEs s)
     (MaxCVSS s) (AvgCVSS s) (MinCVSS s) (MedianCVSS s) v.
End Statistics.

Module ScanResults.
Record t := mk {
  HostsScanned : Z; HostsWithVulns : Z; VulnerablePackages : Z;
  MaxCVSS : float;
  Hosts : list HostEntry.t;
  Packages : list PackageEntry.t;
  Bulletins : list BulletinEntry.t }.
End ScanResults.

(** The two maps hold pointers in Go; every entry is reached through its
    key only, so the map of values is the same store. *)
Record Aggregator := mkAggregator {
  hosts : list HostEntry.t;
  packages : gmap string PackageEntry.t;
  bulletins : gmap string BulletinEntry.t }.

Definition NewAggregator : Aggregator := mkAggregator [] ∅ ∅.

Definition Reset (a : Aggregator) : Aggregator := mkAggregator [] ∅ ∅.

(** [appendUnique]: the loop returns the slice itself at the first equal
    element, and appends after a full scan without one. *)
Fixpoint appendUnique_scan (rest : list string) (value : string) : bool :=
  match rest with
  | [] => false
  | v :: rest' => if String.eqb v value then true
                  else appendUnique_scan rest' value
  end.

Definition appendUnique (slice : list string) (value : string)
  : list string :=
  if appendUnique_scan slice value then slice else slice ++ [value].

Definition appendUniqueSlice (dst src : list string) : list string :=
  let existing : gset string := list_to_set dst in
  fst (fold_left
         (fun (st : list string * gset string) v =>
            let (dst, existing) := st in
            if decide (v ∈ existing) then (dst, existing)
            else (dst ++ [v], {[ v ]} ∪ existing))
         src (dst, existing)).

Definition packageKey (pkg : PackageVuln.t) : string :=
  PackageVuln.Name pkg +:+ "|" +:+ PackageVuln.Version pkg
    +:+ "|" +:+ PackageVuln.Arch pkg.

(** Body of the first loop of [AddHost], for one [pkg] of [entry]:
    [found] is the entry under the key, if there is one; the entry is
    created when there is none, the host is added to it and its score
    raised. *)
Definition mergePackage (HostID Name : string)
    (found : option PackageEntry.t) (pkg : PackageVuln.t)
  : PackageEntry.t :=
  let e0 :=
    match found with
    | Some e => e
    | None =>
        PackageEntry.mk (PackageVuln.Name pkg) (PackageVuln.Version pkg)
          (PackageVuln.Arch pkg) (PackageVuln.Score pkg)
          (PackageVuln.Fix pkg) [] [] []
    end in
  let hostIDs := appendUnique (PackageEntry.AffectedHosts e0) HostID in
  let names := appendUnique (PackageEntry.AffectedHostNames e0) Name in
  let buls :=
    appendUniqueSlice (PackageEntry.Bulletins e0)
      (PackageVuln.Bulletins pkg) in
  let score :=
    if GoFloat.gt (PackageVuln.Score pkg) (PackageEntry.Score e0)
    then PackageVuln.Score pkg else PackageEntry.Score e0 in
  PackageEntry.mk (PackageEntry.Name e0) (PackageEntry.Version e0)
    (PackageEntry.Arch e0) score (PackageEntry.Fix e0) hostIDs names buls.

Definition addPackage (HostID Name : string)
    (m : gmap string PackageEntry.t) (pkg : PackageVuln.t)
  : gmap string PackageEntry.t :=
  let key := packageKey pkg in
  <[ key := mergePackage HostID Name (m !! key) pkg ]> m.

(** Body of the second loop of [AddHost], for one [bulletin]. *)
Definition mergeBulletin (HostID Name : string)
    (found : option BulletinEntry.t) (bulletin : BulletinSummary.t)
  : BulletinEntry.t :=
  let e0 :=
    match found with
    | Some e => e
    | None =>
        BulletinEntry.mk (BulletinSummary.ID bulletin)
          (BulletinSummary.Type_ bulletin) (BulletinSummary.Score bulletin)
          (BulletinSummary.CVEs bulletin) (BulletinSummary.Fix bulletin)
          [] [] []
    end in
  let hostIDs := appendUnique (BulletinEntry.AffectedHosts e0) HostID in
  let names := appendUnique (BulletinEntry.AffectedHostNames e0) Name in
  let pkgs :=
    appendUniqueSlice (BulletinEntry.AffectedPkgs e0)
      (BulletinSummary.AffectedPkg bulletin) in
  let score :=
    if GoFloat.gt (BulletinSummary.Score bulletin) (BulletinEntry.Score e0)
    then BulletinSummary.Score bulletin else BulletinEntry.Score e0 in
  BulletinEntry.mk (BulletinEntry.ID e0) (BulletinEntry.Type_ e0) score
    (BulletinEntry.CVEs e0) (BulletinEntry.Fix e0) pkgs hostIDs names.

Definition addBulletin (HostID Name : string)
    (m : gmap string BulletinEntry.t) (bulletin : BulletinSummary.t)
  : gmap string BulletinEntry.t :=
  let key := BulletinSummary.ID bulletin in
  <[ key := mergeBulletin HostID Name (m !! key) bulletin ]> m.

Definition AddHost (a : Aggregator) (entry : HostEntry.t) : Aggregator :=
  mkAggregator
    (hosts a ++ [entry])
    (fold_left
       (addPackage (HostEntry.HostID entry) (HostEntry.Name entry))
       (HostEntry.Packages entry) (packages a))
    (fold_left
       (addBulletin (HostEntry.HostID entry) (HostEntry.Name entry))
       (HostEntry.Bulletins entry) (bulletins a)).

(** A sequence of [AddHost] calls on a fresh aggregator. *)
Definition addAll (a : Aggregator) (entries : list HostEntry.t)
  : Aggregator := fold_left AddHost entries a.

(** [for _, v := range m]: Go enumerates a map in an unspecified order;
    [order] is one enumeration of the values of [m]. *)
Definition mapRange {V} (m : gmap string V) (order : list V) : Prop :=
  order ≡ₚ (map_to_list m).*2.

(** [GetResults], given the orders in which the two [range] loops
    enumerate [a.packages] and [a.bulletins]. *)
Definition GetResultsFrom (a : Aggregator)
    (pkgRange : list PackageEntry.t) (bulRange : list BulletinEntry.t)
  : ScanResults.t :=
  let HostsWithVulns :=
    fold_left (fun n host =>
                 if GoFloat.gt (HostEntry.Score host) PrimFloat.zero
                 then n + 1 else n) (hosts a) 0 in
  let MaxCVSS :=
    fold_left (fun m host =>
                 if GoFloat.gt (HostEntry.Score host) m
                 then HostEntry.Score host else m)
              (hosts a) PrimFloat.zero in
  let Packages := fold_left (fun acc pkg => acc ++ [pkg]) pkgRange [] in
  let VulnerablePackages := fold_left (fun n _ => n + 1) pkgRange 0 in
  let Packages :=
    GoSort.insertionSort
      (fun pi pj =>
         GoFloat.gt (PackageEntry.Score pi) (PackageEntry.Score pj))
      Packages in
  let Bulletins := fold_left (fun acc b => acc ++ [b]) bulRange [] in
  let Bulletins :=
    GoSort.insertionSort
      (fun bi bj =>
         GoFloat.gt (BulletinEntry.Score bi) (BulletinEntry.Score bj))
      Bulletins in
  ScanResults.mk (GoSlice.len (hosts a)) HostsWithVulns VulnerablePackages
    MaxCVSS (hosts a) Packages Bulletins.

(** The results [GetResults] can return on [a]. *)
Definition GetResults (a : Aggregator) (r : ScanResults.t) : Prop :=
  ∃ pkgRange bulRange,
    mapRange (packages a) pkgRange ∧ mapRange (bulletins a) bulRange ∧
    r = GetResultsFrom a pkgRange bulRange.

Section GetStatistics.
Variable archInt : float -> Z.

(** State of the loop over [a.hosts] in [GetStatistics]. *)
Record statsLoop := mkLoop {
  l_stats : Statistics.t;
  l_totalScore : float;
  l_scores : list float }.

Definition bucketOf (score : float) : Z :=
  let bucket := GoFloat.toInt archInt score in
  let bucket := if 10 <? bucket then 10 else bucket in
  let bucket := if bucket <? 0 then 0 else bucket in
  bucket.

(** [stats.Histogram[bucket]++] on the array of 11 counters. *)
Definition histIncr (h : list Z) (bucket : Z) : option (list Z) :=
  n ← GoSlice.index h bucket;
  Some (<[ Z.to_nat bucket := n + 1 ]> h).

Definition statsHost (st : statsLoop) (host : HostEntry.t)
  : option statsLoop :=
  let stats := l_stats st in
  let score := HostEntry.Score host in
  let stats :=
    if GoFloat.gt score PrimFloat.zero
    then Statistics.setVulnerableHosts
           (Statistics.VulnerableHosts stats + 1) stats
    else stats in
  let totalScore := PrimFloat.add (l_totalScore st) score in
  let scores := l_scores st ++ [score] in
  let stats :=
    if GoFloat.gt score (Statistics.MaxCVSS stats)
    then Statistics.setMaxCVSS score stats else stats in
  h ← histIncr (Statistics.Histogram stats) (bucketOf score);
  Some (mkLoop (Statistics.setHistogram h stats) totalScore scores).

Fixpoint statsHosts (st : statsLoop) (hs : list HostEntry.t)
  : option statsLoop :=
  match hs with
  | [] => Some st
  | host :: hs' => st' ← statsHost st host; statsHosts st' hs'
  end.

(** The set built by the loops over [a.bulletins] and their CVEs; a
    set does not depend on the order of enumeration. *)
Definition cveSet (m : gmap string BulletinEntry.t) : gset string :=
  fold_left
    (fun acc bulletin =>
       fold_left (fun acc cve => {[ cve ]} ∪ acc)
                 (BulletinEntry.CVEs bulletin) acc)
    (map_to_list m).*2 ∅.

(** [GetStatistics]; [None] is a run-time panic (index out of
    range). *)
Definition GetStatistics (a : Aggregator) : option Statistics.t :=
  let stats :=
    Statistics.zero (GoSlice.len (hosts a))
      (Z.of_nat (size (packages a))) (Z.of_nat (size (bulletins a))) in
  st ← statsHosts (mkLoop stats PrimFloat.zero []) (hosts a);
  let stats := l_stats st in
  let totalScore := l_totalScore st in
  let scores := l_scores st in
  let stats :=
    Statistics.setTotalCVEs (Z.of_nat (size (cveSet (bulletins a))))
      stats in
  if 0 <? GoSlice.len scores then
    let stats :=
      Statistics.setAvgCVSS
        (PrimFloat.div totalScore (GoFloat.ofInt (GoSlice.len scores)))
        stats in
    let scores := GoSort.Float64s scores in
    s0 ← GoSlice.index scores 0;
    let stats := Statistics.setMinCVSS s0 stats in
    let mid := Z.quot (GoSlice.len scores) 2 in
    if Z.rem (GoSlice.len scores) 2 =? 0 then
      lo ← GoSlice.index scores (mid - 1);
      hi ← GoSlice.index scores mid;
      Some (Statistics.setMedianCVSS
              (PrimFloat.div (PrimFloat.add lo hi) PrimFloat.two) stats)
    else
      m ← GoSlice.index scores mid;
      Some (Statistics.setMedianCVSS m stats)
  else Some stats.
End GetStatistics.

(** *** osutil.go *)

Definition ParsePackageString (pkg : string) : string * string * string :=
  let parts := GoStrings.Fields pkg in
  match parts with
  | [p0; p1; p2] => (p0, p1, p2)
  | [p0; p1] => (p0, p1, "")
  | [p0] => (p0, "", "")
  | _ => (pkg, "", "")
  end.

Definition ExtractOSVersion (osVersion : string) : string :=
  match GoStrings.Fields osVersion with
  | version :: _ => version
  | [] => osVersion
  end.

(** *** hostmatrix.go *)

Module HostData.
Record t := mk {
  Host : zabbix.Host.t; OSName : string; OSVersion : string;
  Packages : list string }.
End HostData.

Definition validateHostData (osVersion : string) (packages : list string)
  : string :=
  if String.eqb osVersion "0.0" then "OS version 0.0"
  else if GoSlice.len packages <=? 5 then "too few packages"
  else if existsb (fun pkg => GoStrings.Contains pkg "report.py") packages
       then "report.py in packages"
  else "".

(** The loop of [parseOSInfo] over [parts]: the words before the first
    one that starts with a digit, and that word. *)
Fixpoint splitAtVersion (parts nameParts : list string)
  : list string * string :=
  match parts with
  | [] => (nameParts, "")
  | part :: rest =>
      match part with
      | String c _ =>
          if GoNet.isDigit c then (nameParts, part)
          else splitAtVersion rest (nameParts ++ [part])
      | EmptyString => splitAtVersion rest (nameParts ++ [part])
      end
  end.

Definition parsePackageList (pkgList : string) : list string :=
  let lines := GoStrings.Split pkgList "010"%char in
  fold_left
    (fun packages line =>
       let line := GoStrings.TrimSpace line in
       if String.eqb line "" then packages else packages ++ [line])
    lines [].

(** The first item with a non-empty value, as both loops of
    [fetchHostData] pick it (they [break] at the first one). *)
Fixpoint firstValue (items : list zabbix.Item.t) : option string :=
  match items with
  | [] => None
  | item :: rest =>
      if String.eqb (zabbix.Item.Value item) "" then firstValue rest
      else Some (zabbix.Item.Value item)
  end.

Section HostMatrix.
Variable unicodeToLower : string -> string.

Definition NormalizeOSName (osName : string) : string :=
  let osName := GoStrings.ToLower unicodeToLower osName in
  if GoStrings.Contains osName "ubuntu" then "ubuntu"
  else if GoStrings.Contains osName "debian" then "debian"
  else if GoStrings.Contains osName "centos" then "centos"
  else if GoStrings.Contains osName "red hat"
          || GoStrings.Contains osName "rhel" then "redhat"
  else if GoStrings.Contains osName "amazon" then "amazon"
  else if GoStrings.Contains osName "oracle" then "oraclelinux"
  else if GoStrings.Contains osName "suse" then "suse"
  else if GoStrings.Contains osName "fedora" then "fedora"
  else if GoStrings.Contains osName "alpine" then "alpine"
  else if GoStrings.Contains osName "arch" then "arch"
  else osName.

Definition parseOSInfo (osInfo : string) : string * string :=
  let osInfo := GoStrings.TrimSpace osInfo in
  let parts := GoStrings.Fields osInfo in
  match parts with
  | [] => ("", "")
  | _ =>
      let (nameParts, version) := splitAtVersion parts [] in
      (GoStrings.ToLower unicodeToLower (GoStrings.Join nameParts " "),
       version)
  end.

(** The monitor's client: [hm.client.GetHostItemsCtx(ctx, hostID, key)]
    and [hm.client.GetHostsWithTemplateCtx(ctx, template)]. *)
Variable GetHostItemsCtx : string -> string -> error + list zabbix.Item.t.
Variable GetHostsWithTemplateCtx : string -> error + list zabbix.Host.t.

(** [fetchHostData] returns a pointer and an error: [inl err] is
    [(nil, err)], [inr None] is [(nil, nil)] and [inr (Some data)] is
    [(&data, nil)].  Logging is left out. *)
Definition fetchHostData (host : zabbix.Host.t)
  : error + option HostData.t :=
  match GetHostItemsCtx (zabbix.Host.HostID host) "system.sw.os" with
  | inl err => inl (ErrorWrap "failed to get OS items" err)
  | inr osItems =>
      let (osName, osVersion) :=
        match firstValue osItems with
        | Some value => parseOSInfo value
        | None => ("", "")
        end in
      if String.eqb osName "" then inr None
      else
        match GetHostItemsCtx (zabbix.Host.HostID host)
                "system.sw.packages" with
        | inl err => inl (ErrorWrap "failed to get package items" err)
        | inr pkgItems =>
            let packages :=
              match firstValue pkgItems with
              | Some value => parsePackageList value
              | None => []
              end in
            if GoSlice.len packages =? 0 then inr None
            else
              let osName := NormalizeOSName osName in
              let osVersion := ExtractOSVersion osVersion in
              if negb (String.eqb (validateHostData osVersion packages)
                         "")
              then inr None
              else inr (Some (HostData.mk host osName osVersion
                                packages))
        end
  end.

(** [FetchHosts], with [opts.HostIDs] and [opts.Limit]. *)
Definition FetchHosts (OSReportTemplate : string)
    (HostIDs : list string) (Limit : Z)
  : error + list HostData.t :=
  match GetHostsWithTemplateCtx OSReportTemplate with
  | inl err => inl (ErrorWrap "failed to get hosts" err)
  | inr hosts =>
      let hosts :=
        if 0 <? GoSlice.len HostIDs then
          let hostIDSet : gset string := list_to_set HostIDs in
          List.filter
            (fun h => bool_decide (zabbix.Host.HostID h ∈ hostIDSet))
            hosts
        else hosts in
      let hosts :=
        if (0 <? Limit) && (Limit <? GoSlice.len hosts)
        then take (Z.to_nat Limit) hosts else hosts in
      inr (fold_left
             (fun hostData host =>
                match fetchHostData host with
                | inl _ => hostData
                | inr None => hostData
                | inr (Some data) => hostData ++ [data]
                end)
             hosts [])
  end.
End HostMatrix.

(** *** aggregator.go: the filters *)

(** [FilterByMinCVSS]: the packages with [pkg.Score >= minScore], each
    appended to [filtered] as the loop meets it. *)
Definition FilterByMinCVSS (packages : list PackageVuln.t)
    (minScore : float) : list PackageVuln.t :=
  fold_left
    (fun filtered pkg =>
       if GoFloat.ge (PackageVuln.Score pkg) minScore
       then filtered ++ [pkg] else filtered)
    packages [].

Definition FilterBulletinsByMinCVSS (bulletins : list BulletinSummary.t)
    (minScore : float) : list BulletinSummary.t :=
  fold_left
    (fun filtered b =>
       if GoFloat.ge (BulletinSummary.Score b) minScore
       then filtered ++ [b] else filtered)
    bulletins [].

(** *** extract.go: from an audit result to the findings of a host *)

(** [var score float64; if v.CVSS != nil { score = v.CVSS.Score }] *)
Definition cvssScore (v : vulners.Vulnerability.t) : float :=
  match vulners.Vulnerability.CVSS v with
  | Some cvss => vulners.CVSS.Score cvss
  | None => PrimFloat.zero
  end.

Definition appendUniqueCVEs (dst src : list string) : list string :=
  let existing : gset string := list_to_set dst in
  fst (fold_left
         (fun (st : list string * gset string) v =>
            let (dst, existing) := st in
            if decide (v ∈ existing) then (dst, existing)
            else (dst ++ [v], {[ v ]} ∪ existing))
         src (dst, existing)).

Module pkgAgg.
Record t := mk {
  name : string; version : string; arch : string;
  maxScore : float; fix_ : string;
  bulletins : list string; cves : list string }.
End pkgAgg.

(** Body of the first loop of [extractVulnPackages], for one
    vulnerability [v]: [found] is the aggregate under [v.Package], if
    there is one. *)
Definition groupPackage (found : option pkgAgg.t)
    (v : vulners.Vulnerability.t) : pkgAgg.t :=
  let '(name, version, arch) :=
    ParsePackageString (vulners.Vulnerability.Package v) in
  let agg :=
    match found with
    | Some agg => agg
    | None =>
        pkgAgg.mk name version arch PrimFloat.zero
          (vulners.Vulnerability.Fix v) [] []
    end in
  let score := cvssScore v in
  let maxScore :=
    if GoFloat.gt score (pkgAgg.maxScore agg) then score
    else pkgAgg.maxScore agg in
  let bulletins :=
    if negb (String.eqb (vulners.Vulnerability.BulletinID v) "")
    then pkgAgg.bulletins agg ++ [vulners.Vulnerability.BulletinID v]
    else pkgAgg.bulletins agg in
  pkgAgg.mk (pkgAgg.name agg) (pkgAgg.version agg) (pkgAgg.arch agg)
    maxScore (pkgAgg.fix_ agg) bulletins
    (pkgAgg.cves agg ++ vulners.Vulnerability.CVEList v).

Definition addVulnPackage (pkgMap : gmap string pkgAgg.t)
    (v : vulners.Vulnerability.t) : gmap string pkgAgg.t :=
  let key := vulners.Vulnerability.Package v in
  <[ key := groupPackage (pkgMap !! key) v ]> pkgMap.

Definition packageVulnOf (agg : pkgAgg.t) : PackageVuln.t :=
  PackageVuln.mk (pkgAgg.name agg) (pkgAgg.version agg) (pkgAgg.arch agg)
    (pkgAgg.maxScore agg) (pkgAgg.fix_ agg) (pkgAgg.bulletins agg)
    (pkgAgg.cves agg).

(** [extractVulnPackages], given the order in which the second loop
    enumerates [pkgMap]. *)
Definition extractVulnPackagesFrom (pkgRange : list pkgAgg.t)
  : list PackageVuln.t :=
  fold_left (fun vulns agg => vulns ++ [packageVulnOf agg]) pkgRange [].

(** The slices [extractVulnPackages] can return on [result] (a pointer:
    [None] is nil). *)
Definition extractVulnPackages (result : option vulners.AuditResult.t)
    (vulns : list PackageVuln.t) : Prop :=
  match result with
  | None => vulns = []
  | Some result =>
      if GoSlice.len (vulners.AuditResult.Vulnerabilities result) =? 0
      then vulns = []
      else
        ∃ pkgRange,
          mapRange
            (fold_left addVulnPackage
               (vulners.AuditResult.Vulnerabilities result) ∅) pkgRange
          ∧ vulns = extractVulnPackagesFrom pkgRange
  end.

Module bulletinAgg.
Record t := mk {
  id : string; maxScore : float; cves : list string; fix_ : string;
  affectedPkg : list string }.
End bulletinAgg.

(** Body of the first loop of [extractBulletins], for a vulnerability
    [v] with a bulletin ID. *)
Definition groupBulletin (found : option bulletinAgg.t)
    (v : vulners.Vulnerability.t) : bulletinAgg.t :=
  let agg :=
    match found with
    | None =>
        bulletinAgg.mk (vulners.Vulnerability.BulletinID v) (cvssScore v)
          (vulners.Vulnerability.CVEList v) (vulners.Vulnerability.Fix v)
          []
    | Some agg =>
        let maxScore :=
          match vulners.Vulnerability.CVSS v with
          | Some cvss =>
              if GoFloat.gt (vulners.CVSS.Score cvss)
                   (bulletinAgg.maxScore agg)
              then vulners.CVSS.Score cvss else bulletinAgg.maxScore agg
          | None => bulletinAgg.maxScore agg
          end in
        bulletinAgg.mk (bulletinAgg.id agg) maxScore
          (appendUniqueCVEs (bulletinAgg.cves agg)
             (vulners.Vulnerability.CVEList v))
          (bulletinAgg.fix_ agg) (bulletinAgg.affectedPkg agg)
    end in
  bulletinAgg.mk (bulletinAgg.id agg) (bulletinAgg.maxScore agg)
    (bulletinAgg.cves agg) (bulletinAgg.fix_ agg)
    (bulletinAgg.affectedPkg agg ++ [vulners.Vulnerability.Package v]).

Definition addVulnBulletin (bMap : gmap string bulletinAgg.t)
    (v : vulners.Vulnerability.t) : gmap string bulletinAgg.t :=
  let key := vulners.Vulnerability.BulletinID v in
  if String.eqb key "" then bMap
  else <[ key := groupBulletin (bMap !! key) v ]> bMap.

(** The fields [Type] and [AffectedHosts] are not set: they hold their
    zero values. *)
Definition bulletinSummaryOf (agg : bulletinAgg.t) : BulletinSummary.t :=
  BulletinSummary.mk (bulletinAgg.id agg) "" (bulletinAgg.maxScore agg)
    (bulletinAgg.cves agg) (bulletinAgg.fix_ agg)
    (bulletinAgg.affectedPkg agg) [].

Definition extractBulletinsFrom (bRange : list bulletinAgg.t)
  : list BulletinSummary.t :=
  fold_left (fun bulletins agg => bulletins ++ [bulletinSummaryOf agg])
    bRange [].

Definition extractBulletins (result : option vulners.AuditResult.t)
    (bulletins : list BulletinSummary.t) : Prop :=
  match result with
  | None => bulletins = []
  | Some result =>
      if GoSlice.len (vulners.AuditResult.Vulnerabilities result) =? 0
      then bulletins = []
      else
        ∃ bRange,
          mapRange
            (fold_left addVulnBulletin
               (vulners.AuditResult.Vulnerabilities result) ∅) bRange
          ∧ bulletins = extractBulletinsFrom bRange
  end.

(** *** scanner.go *)

Section Scanner.
Variable unicodeToLower : string -> string.
Variable GetHostItemsCtx : string -> string -> error + list zabbix.Item.t.
Variable GetHostsWithTemplateCtx : string -> error + list zabbix.Host.t.
(** [s.vulnersClient.Audit().LinuxAudit(ctx, osName, osVersion, packages)]:
    a pointer to the result and an error. *)
Variable LinuxAudit :
  string -> string -> list string -> error + option vulners.AuditResult.t.
(** [s.cfg.Scan.OSReportTemplate] and [s.cfg.Scan.MinCVSS] *)
Variable OSReportTemplate : string.
Variable MinCVSS : float.

(** The entry [scanHost] builds from the audit result and the two
    extracted slices.  Tracing and logging are left out. *)
Definition hostEntryOf (hostData : HostData.t)
    (auditResult : vulners.AuditResult.t)
    (vulnPackages : list PackageVuln.t)
    (bulletins : list BulletinSummary.t) : HostEntry.t :=
  let vulnPackages := FilterByMinCVSS vulnPackages MinCVSS in
  let bulletins := FilterBulletinsByMinCVSS bulletins MinCVSS in
  HostEntry.mk
    (zabbix.Host.HostID (HostData.Host hostData))
    (zabbix.Host.Host (HostData.Host hostData))
    (zabbix.Host.Name (HostData.Host hostData))
    (HostData.OSName hostData) (HostData.OSVersion hostData)
    (vulners.AuditResult.CVSSScore auditResult)
    (GoStrings.ReplaceAll (vulners.AuditResult.CumulativeFix auditResult)
       ","%char "")
    vulnPackages bulletins.

(** The outcomes of [scanHost]: [inl err] is [(nil, err)] and
    [inr entry] is [(&entry, nil)].  A nil result that comes with a nil
    error is dereferenced at [auditResult.CVSSScore]: the call panics and
    has no outcome. *)
Definition scanHost (hostData : HostData.t) (out : error + HostEntry.t)
  : Prop :=
  match LinuxAudit (HostData.OSName hostData) (HostData.OSVersion hostData)
          (HostData.Packages hostData) with
  | inl err => out = inl (ErrorWrap "vulners audit failed" err)
  | inr None => False
  | inr (Some auditResult) =>
      ∃ vulnPackages bulletins,
        extractVulnPackages (Some auditResult) vulnPackages
        ∧ extractBulletins (Some auditResult) bulletins
        ∧ out = inr (hostEntryOf hostData auditResult vulnPackages
                       bulletins)
  end.

(** What a goroutine of [Scan] does with the outcome of its [scanHost],
    under the mutex. *)
Definition addOutcome (a : Aggregator) (out : error + HostEntry.t)
  : Aggregator :=
  match out with
  | inl _ => a
  | inr entry => AddHost a entry
  end.

(** [Scan] on a scanner whose aggregator is [a]: the result and the
    aggregator it leaves.  One goroutine per host scans it and adds its
    entry under the mutex; [done] is the order in which they get there.
    The semaphore bounds how many run at once and has no bearing on the
    outcome. *)
Definition Scan (a : Aggregator) (HostIDs : list string) (Limit : Z)
    (out : error + ScanResults.t) (a' : Aggregator) : Prop :=
  match FetchHosts unicodeToLower GetHostItemsCtx GetHostsWithTemplateCtx
          OSReportTemplate HostIDs Limit with
  | inl err => out = inl (ErrorWrap "failed to fetch hosts" err) ∧ a' = a
  | inr hosts =>
      if GoSlice.len hosts =? 0
      then out = inr (ScanResults.mk 0 0 0 PrimFloat.zero [] [] [])
           ∧ a' = a
      else
        ∃ (done : list HostData.t) (outcomes : list (error + HostEntry.t))
          (results : ScanResults.t),
          done ≡ₚ hosts
          ∧ Forall2 scanHost done outcomes
          ∧ a' = fold_left addOutcome outcomes (Reset a)
          ∧ GetResults a' results
          ∧ out = inr results
  end.
End Scanner.

(** *** lld.go: discovery data *)

Section LLDGenerator.
Variable archInt : float -> Z.
(** [fmt.Sprintf("%.1f", x)] *)
Variable formatScore : float -> string.

(** [int(float64(affected) * score)] *)
Definition impactOf (affected : Z) (score : float) : Z :=
  GoFloat.toInt archInt (PrimFloat.mul (GoFloat.ofInt affected) score).

Definition packageLLDEntry (pkg : PackageEntry.t)
  : gmap string zabbix.value :=
  let affected := GoSlice.len (PackageEntry.AffectedHosts pkg) in
  let impact := impactOf affected (PackageEntry.Score pkg) in
  let pkgURL :=
    if 0 <? GoSlice.len (PackageEntry.Bulletins pkg)
    then match PackageEntry.Bulletins pkg with b :: _ => b | [] => "" end
    else "" in
  let pkgID :=
    PackageEntry.Name pkg +:+ " " +:+ PackageEntry.Version pkg
      +:+ " " +:+ PackageEntry.Arch pkg in
  list_to_map
    [("{#P.NAME}", zabbix.VString (PackageEntry.Name pkg));
     ("{#P.VERSION}", zabbix.VString (PackageEntry.Version pkg));
     ("{#P.ARCH}", zabbix.VString (PackageEntry.Arch pkg));
     ("{#P.SCORE}", zabbix.VString (formatScore (PackageEntry.Score pkg)));
     ("{#P.FIX}", zabbix.VString (PackageEntry.Fix pkg));
     ("{#P.AFFECTED}", zabbix.VInt affected);
     ("{#P.HOSTS}",
      zabbix.VString (GoStrings.Join (PackageEntry.AffectedHosts pkg) ","));
     ("{#PKG.ID}", zabbix.VString pkgID);
     ("{#PKG.SCORE}",
      zabbix.VString (formatScore (PackageEntry.Score pkg)));
     ("{#PKG.IMPACT}", zabbix.VInt impact);
     ("{#PKG.URL}", zabbix.VString pkgURL);
     ("{#PKG.HOSTS}",
      zabbix.VString
        (GoStrings.Join (PackageEntry.AffectedHostNames pkg)
           (String "010"%char EmptyString)));
     ("{#PKG.FIX}", zabbix.VString (PackageEntry.Fix pkg))].

Definition GeneratePackagesLLD (packages : list PackageEntry.t)
  : zabbix.LLDData :=
  fold_left (fun data pkg => data ++ [packageLLDEntry pkg]) packages [].

Definition bulletinLLDEntry (bulletin : BulletinEntry.t)
  : gmap string zabbix.value :=
  let affected := GoSlice.len (BulletinEntry.AffectedHosts bulletin) in
  let impact := impactOf affected (BulletinEntry.Score bulletin) in
  list_to_map
    [("{#B.ID}", zabbix.VString (BulletinEntry.ID bulletin));
     ("{#B.TYPE}", zabbix.VString (BulletinEntry.Type_ bulletin));
     ("{#B.SCORE}",
      zabbix.VString (formatScore (BulletinEntry.Score bulletin)));
     ("{#B.CVES}",
      zabbix.VString (GoStrings.Join (BulletinEntry.CVEs bulletin) ","));
     ("{#B.AFFECTED}", zabbix.VInt affected);
     ("{#B.HOSTS}",
      zabbix.VString
        (GoStrings.Join (BulletinEntry.AffectedHosts bulletin) ","));
     ("{#B.PKGS}",
      zabbix.VString
        (GoStrings.Join (BulletinEntry.AffectedPkgs bulletin) ","));
     ("{#BULLETIN.ID}", zabbix.VString (BulletinEntry.ID bulletin));
     ("{#BULLETIN.SCORE}",
      zabbix.VString (formatScore (BulletinEntry.Score bulletin)));
     ("{#BULLETIN.IMPACT}", zabbix.VInt impact);
     ("{#BULLETIN.HOSTS}",
      zabbix.VString
        (GoStrings.Join (BulletinEntry.AffectedHostNames bulletin)
           (String "010"%char EmptyString)))].

Definition GenerateBulletinsLLD (bulletins : list BulletinEntry.t)
  : zabbix.LLDData :=
  fold_left (fun data bulletin => data ++ [bulletinLLDEntry bulletin])
    bulletins [].
End LLDGenerator.

End scanner.

(** ** package fixer (sanitize.go, executor.go) *)
Module fixer.

Definition isAlnum (c : ascii) : bool :=
  GoStrings.inRange 97 122 c || GoStrings.inRange 65 90 c
  || GoStrings.inRange 48 57 c.

(** [packageNameRe = ^[a-zA-Z0-9][a-zA-Z0-9._+:~-]*$] *)
Definition pkgChar (c : ascii) : bool :=
  isAlnum c || GoStrings.isByte 46 c || GoStrings.isByte 95 c
  || GoStrings.isByte 43 c || GoStrings.isByte 58 c
  || GoStrings.isByte 126 c || GoStrings.isByte 45 c.

Definition packageNameRe (s : string) : bool :=
  match s with
  | EmptyString => false
  | String c r => isAlnum c && forallb pkgChar (String.list_ascii_of_string r)
  end.

(** [sshUserRe = ^[a-zA-Z_][a-zA-Z0-9._-]*$] *)
Definition sshUserRe (s : string) : bool :=
  match s with
  | EmptyString => false
  | String c r =>
      (GoStrings.inRange 97 122 c || GoStrings.inRange 65 90 c
       || GoStrings.isByte 95 c)
      && forallb (fun c => isAlnum c || GoStrings.isByte 46 c
                           || GoStrings.isByte 95 c || GoStrings.isByte 45 c)
                 (String.list_ascii_of_string r)
  end.

(** [fqdnRe = ^[a-zA-Z0-9]([a-zA-Z0-9.-]{0,251}[a-zA-Z0-9])?$].
    [fqdnGroup r n] matches the rest of the optional group against [r]
    after [n] characters of the bounded repetition. *)
Definition fqdnChar (c : ascii) : bool :=
  isAlnum c || GoStrings.isByte 46 c || GoStrings.isByte 45 c.

Fixpoint fqdnGroup (r : string) (n : Z) : bool :=
  match r with
  | EmptyString => false
  | String c EmptyString => isAlnum c && (n <=? 251)
  | String c r' => fqdnChar c && fqdnGroup r' (n + 1)
  end.

Definition fqdnRe (s : string) : bool :=
  match s with
  | EmptyString => false
  | String c EmptyString => isAlnum c
  | String c r => isAlnum c && fqdnGroup r 0
  end.

Definition isValidFQDN (s : string) : bool :=
  if 253 <? GoStrings.len s then false
  else if negb (fqdnRe s) then false
  else
    forallb
      (fun label =>
         negb ((GoStrings.len label =? 0) || (63 <? GoStrings.len label)))
      (GoStrings.Split s "."%char).

Definition ValidatePackageName (name : string) : option error :=
  if String.eqb name "" then Some (ErrorString "package name is empty")
  else if 256 <? GoStrings.len name
       then Some (ErrorInt "package name too long" (GoStrings.len name))
  else if negb (packageNameRe name)
       then Some (ErrorQuoted "invalid package name" name)
  else None.

Definition ValidateSSHUser (user : string) : option error :=
  if String.eqb user "" then Some (ErrorString "SSH user is empty")
  else if 64 <? GoStrings.len user
       then Some (ErrorInt "SSH user too long" (GoStrings.len user))
  else if negb (sshUserRe user)
       then Some (ErrorQuoted "invalid SSH user" user)
  else None.

Fixpoint SanitizePackages (packages : list string) : option error :=
  match packages with
  | [] => None
  | pkg :: rest =>
      match ValidatePackageName pkg with
      | Some err => Some err
      | None => SanitizePackages rest
      end
  end.

(** [quotePackages] *)
Definition quotePackages (packages : list string) : string :=
  GoStrings.Join (map (fun pkg => "'" +:+ pkg +:+ "'") packages) " ".

Definition generateDebianFixCommand (packages : list string) : string :=
  if GoSlice.len packages =? 0 then "apt-get update && apt-get upgrade -y"
  else "apt-get update && apt-get install -y --only-upgrade "
         +:+ quotePackages packages.

Definition generateRHELFixCommand (packages : list string) : string :=
  if GoSlice.len packages =? 0 then "yum update -y"
  else "yum update -y " +:+ quotePackages packages.

Definition generateAmazonFixCommand (packages : list string) : string :=
  if GoSlice.len packages =? 0 then "yum update -y"
  else "yum update -y " +:+ quotePackages packages.

(** A subprocess as [exec.CommandContext] builds it. *)
Record Cmd := mkCmd { cmdName : string; cmdArgs : list string }.

(** The executor runs in a world where subprocesses are spawned: the
    state is the list of those spawned so far, oldest first. *)
Definition Exec (A : Type) : Type := list Cmd -> A * list Cmd.

Definition ret {A} (a : A) : Exec A := fun spawned => (a, spawned).

Definition bind {A B} (m : Exec A) (k : A -> Exec B) : Exec B :=
  fun spawned => let (a, spawned') := m spawned in k a spawned'.

Section Executor.
Variable parseIPv6 : string -> bool.
Variable unicodeToLower : string -> string.
(** [e.cfg.Zabbix.GetPath] *)
Variable GetPath : string.
(** What [cmd.Run()] observes of a subprocess: its standard output,
    its standard error, and the error of the run ([None] for nil). *)
Variable runProcess : Cmd -> string * string * option error.

Definition Run (cmd : Cmd) : Exec (string * string * option error) :=
  fun spawned => (runProcess cmd, spawned ++ [cmd]).

Definition ValidateHostTarget (target : string) : option error :=
  if String.eqb target "" then Some (ErrorString "host target is empty")
  else if GoNet.ParseIP parseIPv6 target then None
  else if isValidFQDN target then None
  else Some (ErrorQuoted
               "invalid host target (not a valid IP or hostname)" target).

(** The pair [(string, error)] the executor returns is [inr output] for
    a nil error and [inl err] otherwise (the string is then empty). *)
Definition ExecuteViaAgent (hostIP port command : string)
  : Exec (error + string) :=
  match ValidateHostTarget hostIP with
  | Some err => ret (inl (ErrorWrap "invalid host" err))
  | None =>
      let port := if String.eqb port "" then "10050" else port in
      let key := "system.run[" +:+ command +:+ ",nowait]" in
      bind (Run (mkCmd GetPath ["-s"; hostIP; "-p"; port; "-k"; key]))
        (fun out =>
           match out with
           | (stdout, stderr, Some err) =>
               ret (inl (ErrorRun "zabbix_get failed" err stderr))
           | (stdout, _, None) => ret (inr stdout)
           end)
  end.

Definition ExecuteViaSSH (hostIP user command : string)
  : Exec (error + string) :=
  match ValidateHostTarget hostIP with
  | Some err => ret (inl (ErrorWrap "invalid host" err))
  | None =>
      match ValidateSSHUser user with
      | Some err => ret (inl (ErrorWrap "invalid SSH user" err))
      | None =>
          bind (Run (mkCmd "ssh"
                       ["-o"; "BatchMode=yes"; "-o"; "ConnectTimeout=10";
                        user +:+ "@" +:+ hostIP; command]))
            (fun out =>
               match out with
               | (stdout, stderr, Some err) =>
                   ret (inl (ErrorRun "SSH failed" err stderr))
               | (stdout, _, None) => ret (inr stdout)
               end)
      end
  end.

Definition GenerateFixCommand (osName : string) (packages : list string)
  : string :=
  let packages :=
    match SanitizePackages packages with
    | Some _ => []
    | None => packages
    end in
  let osName := GoStrings.ToLower unicodeToLower osName in
  if GoStrings.Contains osName "ubuntu"
     || GoStrings.Contains osName "debian"
  then generateDebianFixCommand packages
  else if GoStrings.Contains osName "centos"
          || GoStrings.Contains osName "red hat"
          || GoStrings.Contains osName "redhat"
          || GoStrings.Contains osName "rhel"
  then generateRHELFixCommand packages
  else if GoStrings.Contains osName "amazon"
  then generateAmazonFixCommand packages
  else generateDebianFixCommand packages.
End Executor.

(** *** executor.go: retries *)

Section Retry.
(** What the [select] after the failed attempt number [i] (from 0) takes:
    [Some err] when the context is done first, [err] being [ctx.Err()],
    and [None] when the timer of [i+1] seconds fires. *)
Variable ctxDone : Z -> option error.

(** The loop [for i := 0; i <= maxRetries; i++] of [ExecuteWithRetry],
    with [n] iterations to go. *)
Fixpoint retryLoop (fn : Exec (error + string)) (maxRetries : Z)
    (n : nat) (i : Z) (lastErr : option error) : Exec (error + string) :=
  match n with
  | O => ret (match lastErr with
              | Some err => inl err
              | None => inr ""
              end)
  | S n' =>
      bind fn
        (fun out =>
           match out with
           | inr output => ret (inr output)
           | inl err =>
               if i <? maxRetries then
                 match ctxDone i with
                 | Some cerr => ret (inl cerr)
                 | None => retryLoop fn maxRetries n' (i + 1) (Some err)
                 end
               else retryLoop fn maxRetries n' (i + 1) (Some err)
           end)
  end.

Definition ExecuteWithRetry (fn : Exec (error + string)) (maxRetries : Z)
  : Exec (error + string) :=
  retryLoop fn maxRetries (Z.to_nat (maxRetries + 1)) 0 None.
End Retry.

(** *** types.go *)

Module FixOptions.
Record t := mk {
  BulletinID : string; HostID : string; HostName : string;
  DryRun : bool; UseSSH : bool; SSHUser : string }.
End FixOptions.

Module HostFixPlan.
Record t := mk {
  HostID : string; Name : string; IP : string; AgentPort : string;
  Packages : list string; Command : string }.
End HostFixPlan.

Module FixPlan.
Record t := mk { Hosts : list HostFixPlan.t; Packages : list string }.
End FixPlan.

(** [Error] holds the text of the error, [err.Error()]; it is kept as
    the error it is the text of, [None] for the empty string. *)
Module HostFixResult.
Record t := mk {
  HostID : string; Name : string; Success : bool; Output : string;
  Error : option error }.
End HostFixResult.

(** [config.NamingConfig]: the names of the four virtual hosts. *)
Module NamingConfig.
Record t := mk {
  HostsHost : string; PackagesHost : string; BulletinsHost : string;
  StatisticsHost : string }.
End NamingConfig.

(** *** fixer.go *)

Definition appendUniqueStr (slice : list string) (s : string)
  : list string :=
  if existsb (fun v => String.eqb v s) slice then slice else slice ++ [s].

(** One of the three loops of [getHostAddress]: the first interface
    that passes [pick] and has an address, with its port.  The address is
    the IP address when [useIP] holds and there is one, the DNS name
    otherwise; the last loop takes the IP address whenever there is one,
    which is [useIP] always true. *)
Fixpoint firstAddress (pick : zabbix.HostInterface.t -> bool)
    (useIP : zabbix.HostInterface.t -> bool)
    (ifaces : list zabbix.HostInterface.t) : option (string * string) :=
  match ifaces with
  | [] => None
  | iface :: rest =>
      if pick iface then
        if useIP iface && negb (String.eqb (zabbix.HostInterface.IP iface) "")
        then Some (zabbix.HostInterface.IP iface,
                   zabbix.HostInterface.Port iface)
        else if negb (String.eqb (zabbix.HostInterface.DNS iface) "")
        then Some (zabbix.HostInterface.DNS iface,
                   zabbix.HostInterface.Port iface)
        else firstAddress pick useIP rest
      else firstAddress pick useIP rest
  end.

Definition getHostAddress (host : zabbix.Host.t) : string * string :=
  let ifaces := zabbix.Host.Interfaces host in
  let isMain iface := String.eqb (zabbix.HostInterface.Main iface) "1" in
  let isAgent iface := String.eqb (zabbix.HostInterface.Type_ iface) "1" in
  let useIP iface := String.eqb (zabbix.HostInterface.UseIP iface) "1" in
  match firstAddress (fun iface => isMain iface && isAgent iface) useIP
          ifaces with
  | Some found => found
  | None =>
      match firstAddress isMain useIP ifaces with
      | Some found => found
      | None =>
          match firstAddress (fun _ => true) (fun _ => true) ifaces with
          | Some found => found
          | None => ("", "")
          end
      end
  end.

(** The loop of [getVulnerablePackages] over the decoded discovery
    data. *)
Definition packagesOfHost (Data : zabbix.LLDData) (hostID : string)
  : list string :=
  fold_left
    (fun packages entry =>
       let (hostsStr, _) := zabbix.asString (entry !! "{#P.HOSTS}") in
       if String.eqb hostsStr "" then packages
       else
         let found :=
           existsb (fun hid => String.eqb hid hostID)
             (GoStrings.Split hostsStr ","%char) in
         if negb found then packages
         else
           let (name, ok) := zabbix.asString (entry !! "{#P.NAME}") in
           if ok && negb (String.eqb name "")
           then appendUniqueStr packages name else packages)
    Data [].

(** The loop of [getBulletinInfo] over the package strings of the
    bulletin: [strings.Fields(raw)[0]] panics ([None]) on a string
    without a field. *)
Fixpoint bulletinPkgs (raws : list string) (pkgs : list string)
  : option (list string) :=
  match raws with
  | [] => Some pkgs
  | raw :: rest =>
      match GoSlice.index (GoStrings.Fields raw) 0 with
      | None => None
      | Some name => bulletinPkgs rest (appendUniqueStr pkgs name)
      end
  end.

(** The loop of [getBulletinInfo] over the decoded discovery data: the
    first entry of the bulletin decides. *)
Fixpoint bulletinInfoOf (Data : zabbix.LLDData) (bulletinID : string)
  : option (error + list string * list string) :=
  match Data with
  | [] => Some (inl (ErrorQuoted "bulletin not found in LLD data"
                       bulletinID))
  | entry :: rest =>
      let (id, _) := zabbix.asString (entry !! "{#B.ID}") in
      if negb (String.eqb id bulletinID) then bulletinInfoOf rest bulletinID
      else
        let hostIDs :=
          let (hostsStr, ok) := zabbix.asString (entry !! "{#B.HOSTS}") in
          if ok && negb (String.eqb hostsStr "")
          then GoStrings.Split hostsStr ","%char else [] in
        let (pkgsStr, ok) := zabbix.asString (entry !! "{#B.PKGS}") in
        if ok && negb (String.eqb pkgsStr "")
        then
          match bulletinPkgs (GoStrings.Split pkgsStr ","%char) [] with
          | None => None
          | Some pkgs => Some (inr (hostIDs, pkgs))
          end
        else Some (inr (hostIDs, []))
  end.

(** An error is identified by the message of its format string; the
    arguments are kept where the constructor has room for them. *)
Section Fixer.
Variable parseIPv6 : string -> bool.
Variable unicodeToLower : string -> string.
(** [f.cfg.Naming] *)
Variable Naming : NamingConfig.t.
(** The monitor's client, [f.zabbixClient]. *)
Variable GetHostByNameCtx : string -> error + zabbix.Host.t.
Variable GetHostByIDCtx : string -> error + zabbix.Host.t.
Variable GetItemValueCtx : string -> string -> error + string.
Variable GetHostItemsCtx : string -> string -> error + list zabbix.Item.t.
(** [json.Unmarshal([]byte(lldJSON), &lldData)] *)
Variable jsonUnmarshal : string -> error + zabbix.LLDData.

Definition isVirtualHost (name : string) : bool :=
  String.eqb name (NamingConfig.HostsHost Naming)
  || String.eqb name (NamingConfig.PackagesHost Naming)
  || String.eqb name (NamingConfig.BulletinsHost Naming)
  || String.eqb name (NamingConfig.StatisticsHost Naming).

Definition getHostOS (hostID : string) : string :=
  match GetHostItemsCtx hostID "system.sw.os" with
  | inl _ => ""
  | inr items =>
      match scanner.firstValue items with
      | Some value => value
      | None => ""
      end
  end.

Definition getVulnerablePackages (hostID : string) : list string :=
  match GetItemValueCtx (NamingConfig.PackagesHost Naming)
          "vulners.packages_lld" with
  | inl _ => []
  | inr lldJSON =>
      if String.eqb lldJSON "" then []
      else
        match jsonUnmarshal lldJSON with
        | inl _ => []
        | inr lldData => packagesOfHost lldData hostID
        end
  end.

(** [getBulletinInfo]: [None] is a panic, [Some (inl err)] an error and
    [Some (inr (hostIDs, pkgs))] the two slices with a nil error. *)
Definition getBulletinInfo (bulletinID : string)
  : option (error + list string * list string) :=
  match GetItemValueCtx (NamingConfig.BulletinsHost Naming)
          "vulners.bulletins_lld" with
  | inl err => Some (inl (ErrorWrap "failed to get bulletins LLD" err))
  | inr lldJSON =>
      if String.eqb lldJSON ""
      then Some (inl (ErrorString
                        "no bulletins LLD data found; run 'ztc scan' first"))
      else
        match jsonUnmarshal lldJSON with
        | inl err =>
            Some (inl (ErrorWrap "failed to parse bulletins LLD" err))
        | inr lldData => bulletinInfoOf lldData bulletinID
        end
  end.

Definition planForHost (hostID : string) : error + HostFixPlan.t :=
  match GetHostByIDCtx hostID with
  | inl err => inl (ErrorWrap "failed to get host" err)
  | inr host =>
      let packages := getVulnerablePackages hostID in
      let (ip, agentPort) := getHostAddress host in
      if String.eqb ip ""
      then inl (ErrorString ("no IP address found for host "
                             +:+ zabbix.Host.Name host))
      else
        let osName := getHostOS hostID in
        let command := GenerateFixCommand unicodeToLower osName packages in
        inr (HostFixPlan.mk hostID (zabbix.Host.Name host) ip agentPort
               packages command)
  end.

(** Body of the loop of [planForBulletin] over the affected hosts. *)
Definition planBulletinHost (affectedPkgs : list string)
    (hosts : list HostFixPlan.t) (hostID : string) : list HostFixPlan.t :=
  let pkgSet : gset string := list_to_set affectedPkgs in
  match GetHostByIDCtx hostID with
  | inl _ => hosts
  | inr host =>
      let allPackages := getVulnerablePackages hostID in
      let packages :=
        fold_left
          (fun packages pkg =>
             if decide (pkg ∈ pkgSet) then appendUniqueStr packages pkg
             else packages)
          allPackages [] in
      if GoSlice.len packages =? 0 then hosts
      else
        let (ip, agentPort) := getHostAddress host in
        if String.eqb ip "" then hosts
        else
          let osName := getHostOS hostID in
          let command :=
            GenerateFixCommand unicodeToLower osName packages in
          hosts ++ [HostFixPlan.mk hostID (zabbix.Host.Name host) ip
                      agentPort packages command]
  end.

Definition planForBulletin (bulletinID : string)
  : option (error + FixPlan.t) :=
  match getBulletinInfo bulletinID with
  | None => None
  | Some (inl err) => Some (inl (ErrorWrap "failed to get bulletin info" err))
  | Some (inr (affectedHostIDs, affectedPkgs)) =>
      Some (inr (FixPlan.mk
                   (fold_left (planBulletinHost affectedPkgs)
                      affectedHostIDs [])
                   []))
  end.

Definition Plan (opts : FixOptions.t) : option (error + FixPlan.t) :=
  if negb (String.eqb (FixOptions.HostName opts) "")
     && isVirtualHost (FixOptions.HostName opts)
  then Some (inl (ErrorQuoted "host is a ZTC virtual host"
                    (FixOptions.HostName opts)))
  else
    let resolved :=
      if negb (String.eqb (FixOptions.HostName opts) "")
         && String.eqb (FixOptions.HostID opts) ""
      then
        match GetHostByNameCtx (FixOptions.HostName opts) with
        | inl err => inl (ErrorWrap "failed to resolve host name" err)
        | inr host => inr (zabbix.Host.HostID host)
        end
      else inr (FixOptions.HostID opts) in
    match resolved with
    | inl err => Some (inl err)
    | inr HostID =>
        if negb (String.eqb HostID "") then
          match planForHost HostID with
          | inl err => Some (inl err)
          | inr hostPlan => Some (inr (FixPlan.mk [hostPlan] []))
          end
        else if negb (String.eqb (FixOptions.BulletinID opts) "")
        then planForBulletin (FixOptions.BulletinID opts)
        else Some (inl (ErrorString
                          "either --host, --host-name, or --bulletin must be specified"))
    end.

(** [f.cfg.Zabbix.GetPath] *)
Variable GetPath : string.
(** What running a subprocess observes, after those spawned before. *)
Variable runProcessAfter :
  list Cmd -> Cmd -> string * string * option error.
Variable ctxDone : Z -> option error.

Definition executeOnHost (plan : HostFixPlan.t) (useSSH : bool)
    (sshUser : string) : Exec HostFixResult.t :=
  let attempt : Exec (error + string) :=
    if useSSH
    then fun spawned =>
           ExecuteViaSSH parseIPv6 (runProcessAfter spawned)
             (HostFixPlan.IP plan) sshUser (HostFixPlan.Command plan)
             spawned
    else fun spawned =>
           ExecuteViaAgent parseIPv6 GetPath (runProcessAfter spawned)
             (HostFixPlan.IP plan) (HostFixPlan.AgentPort plan)
             (HostFixPlan.Command plan) spawned in
  bind (ExecuteWithRetry ctxDone attempt 2)
    (fun out =>
       ret (match out with
            | inl err =>
                HostFixResult.mk (HostFixPlan.HostID plan)
                  (HostFixPlan.Name plan) false "" (Some err)
            | inr output =>
                HostFixResult.mk (HostFixPlan.HostID plan)
                  (HostFixPlan.Name plan) true output None
            end)).
End Fixer.

End fixer.

(** ** Vocabulary of the specification

    The notions the properties of Part II are stated with.  None of them
    is used by the code above. *)
Module Spec.
Import scanner.

(** A list of values in the order in which each was seen first. *)
Fixpoint firstSeen (l : list string) : list string :=
  match l with
  | [] => []
  | x :: r => x :: List.filter (fun y => negb (String.eqb y x)) (firstSeen r)
  end.

(** A finding as [AddHost] sees it: the host (ID and visible name) and
    the package, respectively the bulletin, reported for it. *)
Definition pkgFinding : Type := string * string * PackageVuln.t.
Definition bulFinding : Type := string * string * BulletinSummary.t.

Definition pkgFindingsOf (entry : HostEntry.t) : list pkgFinding :=
  map (fun pkg => (HostEntry.HostID entry, HostEntry.Name entry, pkg))
      (HostEntry.Packages entry).

Definition bulFindingsOf (entry : HostEntry.t) : list bulFinding :=
  map (fun b => (HostEntry.HostID entry, HostEntry.Name entry, b))
      (HostEntry.Bulletins entry).

(** The findings that contributed to the aggregate of key [k], over a
    sequence of [AddHost] calls, in the order of the calls. *)
Definition pkgFindings (k : string) (entries : list HostEntry.t)
  : list pkgFinding :=
  List.filter (fun f => String.eqb (packageKey (snd f)) k)
              (flat_map pkgFindingsOf entries).

Definition bulFindings (k : string) (entries : list HostEntry.t)
  : list bulFinding :=
  List.filter (fun f => String.eqb (BulletinSummary.ID (snd f)) k)
              (flat_map bulFindingsOf entries).

Definition hostIDOf {X} (f : string * string * X) : string := fst (fst f).
Definition hostNameOf {X} (f : string * string * X) : string :=
  snd (fst f).
Definition pkgScore (f : pkgFinding) : float := PackageVuln.Score (snd f).
Definition bulScore (f : bulFinding) : float :=
  BulletinSummary.Score (snd f).

(** [m] is the maximum of [scores]: it is one of them and none is
    greater; when none is NaN, so that they are totally ordered, all are
    at most [m]. *)
Definition isMaximum (m : float) (scores : list float) : Prop :=
  In m scores
  /\ (forall s, In s scores -> GoFloat.gt s m = false)
  /\ (Forall (fun s => GoFloat.isNaN s = false) scores ->
      forall s, In s scores -> GoFloat.le s m = true).


(** Non-increasing order of score. *)
Definition nonIncreasing {X} (score : X -> float) (l : list X) : Prop :=
  StronglySorted (fun x y => GoFloat.le (score y) (score x) = true) l.

(** The order of [sort.Float64s]: no element sorts before an earlier
    one (increasing, NaN before every number). *)
Definition ascending (l : list float) : Prop :=
  StronglySorted (fun x y => GoSort.float64Less y x = false) l.

Definition clamp (lo hi z : Z) : Z := Z.max lo (Z.min hi z).

(** As specified: the bucket of a score is its integer floor clamped into
    [0,10]; NaN and the infinities have no integer floor. *)
Definition claimedBucket (score : float) : option Z :=
  option_map (clamp 0 10) (GoFloat.floor score).

Definition sumZ (l : list Z) : Z := fold_right Z.add 0 l.

Definition countIf {X} (p : X -> bool) (l : list X) : Z :=
  Z.of_nat (length (List.filter p l)).

(** *** Eligibility of a host for scanning *)

Definition eligible (osName osVersion : string) (packages : list string)
  : bool :=
  negb (String.eqb osName "") && negb (String.eqb osVersion "0.0")
  && (5 <? GoSlice.len packages)
  && forallb (fun line => negb (GoStrings.Contains line "report.py"))
       packages.

(** A string without white space of the ASCII range. *)
Definition noAsciiSpace (s : string) : Prop :=
  Forall (fun c => GoStrings.asciiSpace c = false)
         (String.list_ascii_of_string s).

(** *** Remediation commands, as the specification words them *)

Inductive family := Debian | RHEL | Unknown.

(** The family of a lower-cased OS name. *)
Definition familyOf (osName : string) : family :=
  if GoStrings.Contains osName "ubuntu"
     || GoStrings.Contains osName "debian" then Debian
  else if GoStrings.Contains osName "centos"
          || GoStrings.Contains osName "red hat"
          || GoStrings.Contains osName "redhat"
          || GoStrings.Contains osName "rhel"
          || GoStrings.Contains osName "amazon" then RHEL
  else Unknown.

Definition quoted (packages : list string) : string :=
  String.concat " " (map (fun p => "'" +:+ p +:+ "'") packages).

(** The command for a family over a list of packages; the empty list
    is the full-system update. *)
Definition commandFor (f : family) (packages : list string) : string :=
  match f, packages with
  | RHEL, [] => "yum update -y"
  | RHEL, _ => "yum update -y " +:+ quoted packages
  | _, [] => "apt-get update && apt-get upgrade -y"
  | _, _ => "apt-get update && apt-get install -y --only-upgrade "
              +:+ quoted packages
  end.

(** As specified: the list is discarded when a name fails the regex. *)
Definition claimedFixCommand (lowerName : string) (packages : list string)
  : string :=
  commandFor (familyOf lowerName)
    (if forallb fixer.packageNameRe packages then packages else []).

(** What the code checks of a name: not empty, at most 256 bytes, and
    the regex. *)
Definition validPackageName (name : string) : bool :=
  negb (String.eqb name "") && (GoStrings.len name <=? 256)
  && fixer.packageNameRe name.

Definition amendedFixCommand (lowerName : string) (packages : list string)
  : string :=
  commandFor (familyOf lowerName)
    (if forallb validPackageName packages then packages else []).

(** *** Host targets, as the specification words them *)

Definition firstByte (s : string) : option ascii :=
  match s with
  | EmptyString => None
  | String c _ => Some c
  end.

Fixpoint lastByte (s : string) : option ascii :=
  match s with
  | EmptyString => None
  | String c EmptyString => Some c
  | String _ r => lastByte r
  end.

Definition isHyphen (o : option ascii) : bool :=
  match o with
  | Some c => GoStrings.isByte 45 c
  | None => false
  end.

Definition labelLengthOK (label : string) : bool :=
  (1 <=? GoStrings.len label) && (GoStrings.len label <=? 63).

(** As specified: at most 253 characters, every label of 1 to 63
    characters, no label beginning or ending with a hyphen. *)
Definition claimedDNSName (s : string) : bool :=
  (GoStrings.len s <=? 253)
  && forallb
       (fun label =>
          labelLengthOK label && negb (isHyphen (firstByte label))
          && negb (isHyphen (lastByte label)))
       (GoStrings.Split s "."%char).

Definition isAlnumOpt (o : option ascii) : bool :=
  match o with
  | Some c => fixer.isAlnum c
  | None => false
  end.

(** What the code accepts besides IP addresses: at most 253 bytes, all
    of them letters, digits, dots or hyphens, the first and the last a
    letter or a digit, and every label of 1 to 63 bytes. *)
Definition amendedDNSName (s : string) : bool :=
  (GoStrings.len s <=? 253)
  && forallb fixer.fqdnChar (String.list_ascii_of_string s)
  && isAlnumOpt (firstByte s) && isAlnumOpt (lastByte s)
  && forallb labelLengthOK (GoStrings.Split s "."%char).

(** *** Aggregates that a finding cannot change any more *)

(** The aggregate [e] already lists the host and what the package
    [pkg] reports, and its score is not below that of [pkg]. *)
Definition absorbsPackage (HostID Name : string) (e : PackageEntry.t)
    (pkg : PackageVuln.t) : Prop :=
  In HostID (PackageEntry.AffectedHosts e)
  /\ In Name (PackageEntry.AffectedHostNames e)
  /\ (forall b, In b (PackageVuln.Bulletins pkg) ->
                In b (PackageEntry.Bulletins e))
  /\ GoFloat.gt (PackageVuln.Score pkg) (PackageEntry.Score e) = false.

Definition absorbsBulletin (HostID Name : string) (e : BulletinEntry.t)
    (b : BulletinSummary.t) : Prop :=
  In HostID (BulletinEntry.AffectedHosts e)
  /\ In Name (BulletinEntry.AffectedHostNames e)
  /\ (forall p, In p (BulletinSummary.AffectedPkg b) ->
                In p (BulletinEntry.AffectedPkgs e))
  /\ GoFloat.gt (BulletinSummary.Score b) (BulletinEntry.Score e) = false.

(** *** The findings of one host, as functions of the audit result *)

(** The vulnerabilities reported for the package string [key],
    respectively under the bulletin [id], in the order of the result. *)
Definition vulnsOfPackage (key : string)
    (vs : list vulners.Vulnerability.t) : list vulners.Vulnerability.t :=
  List.filter (fun v => String.eqb (vulners.Vulnerability.Package v) key) vs.

Definition vulnsOfBulletin (id : string)
    (vs : list vulners.Vulnerability.t) : list vulners.Vulnerability.t :=
  List.filter (fun v => String.eqb (vulners.Vulnerability.BulletinID v) id)
    vs.

(** The distinct package strings, respectively the distinct bulletin
    IDs other than the empty one, in the order of first appearance. *)
Definition packageStrings (vs : list vulners.Vulnerability.t)
  : list string :=
  firstSeen (map vulners.Vulnerability.Package vs).

Definition bulletinIDs (vs : list vulners.Vulnerability.t) : list string :=
  firstSeen
    (List.filter (fun id => negb (String.eqb id ""))
       (map vulners.Vulnerability.BulletinID vs)).

(** The greatest of [m0] and the scores of [vs], compared as the code
    compares them. *)
Definition raisedBy (m0 : float) (scores : list float) : float :=
  fold_left (fun m s => if GoFloat.gt s m then s else m) scores m0.

(** The score a vulnerability can raise a bulletin to: one without a
    CVSS raises nothing. *)
Definition scoresGiven (vs : list vulners.Vulnerability.t) : list float :=
  flat_map
    (fun v => match vulners.Vulnerability.CVSS v with
              | Some cvss => [vulners.CVSS.Score cvss]
              | None => []
              end) vs.

(** What [extractVulnPackages] reports for the package string [key]:
    the parsed string, the greatest score (a vulnerability without CVSS
    counting as 0), the fix of the first vulnerability, the bulletin IDs
    other than the empty one and the CVEs of all of them. *)
Definition packageVulnFor (key : string)
    (vs : list vulners.Vulnerability.t) : PackageVuln.t :=
  let fs := vulnsOfPackage key vs in
  let '(name, version, arch) := ParsePackageString key in
  PackageVuln.mk name version arch
    (raisedBy PrimFloat.zero (map cvssScore fs))
    (match fs with
     | v :: _ => vulners.Vulnerability.Fix v
     | [] => ""
     end)
    (List.filter (fun id => negb (String.eqb id ""))
       (map vulners.Vulnerability.BulletinID fs))
    (flat_map vulners.Vulnerability.CVEList fs).

(** What [extractBulletins] reports for the bulletin [id]: the score of
    its first vulnerability raised by the later ones, the CVEs of the
    first followed by the new ones of the later, the fix of the first,
    and the package strings of all of them. *)
Definition bulletinSummaryFor (id : string)
    (vs : list vulners.Vulnerability.t) : BulletinSummary.t :=
  match vulnsOfBulletin id vs with
  | [] => BulletinSummary.mk id "" PrimFloat.zero [] "" [] []
  | v :: rest =>
      BulletinSummary.mk id ""
        (raisedBy (cvssScore v) (scoresGiven rest))
        (fold_left appendUnique
           (flat_map vulners.Vulnerability.CVEList rest)
           (vulners.Vulnerability.CVEList v))
        (vulners.Vulnerability.Fix v)
        (map vulners.Vulnerability.Package (v :: rest))
        []
  end.

(** *** A scan *)

(** The hosts for which the audit call answers with a result. *)
Definition auditSucceeds
    (LinuxAudit : string -> string -> list string
                  -> error + option vulners.AuditResult.t)
    (hostData : HostData.t) : bool :=
  match LinuxAudit (HostData.OSName hostData) (HostData.OSVersion hostData)
          (HostData.Packages hostData) with
  | inr (Some _) => true
  | _ => false
  end.

(** The entries of the hosts whose scan succeeded. *)
Definition entriesOf (outcomes : list (error + HostEntry.t))
  : list HostEntry.t :=
  flat_map (fun out => match out with
                       | inr entry => [entry]
                       | inl _ => []
                       end) outcomes.

(** *** Discovery data read back *)

(** A string without the byte [sep]. *)
Definition without (sep : ascii) (s : string) : Prop :=
  Forall (fun c => Ascii.eqb c sep = false) (String.list_ascii_of_string s).

(** Two entries of discovery data hold the same under the keys. *)
Definition agreeOn (keys : list string)
    (entry entry' : gmap string zabbix.value) : Prop :=
  Forall (fun key => entry !! key = entry' !! key) keys.

(** The package, respectively the bulletin, lists the host. *)
Definition affects (hostID : string) (pkg : PackageEntry.t) : bool :=
  existsb (fun hid => String.eqb hid hostID) (PackageEntry.AffectedHosts pkg).

(** The first field of a package string (its name), the string itself
    standing in when there is none. *)
Definition firstField (raw : string) : string :=
  match GoStrings.Fields raw with
  | name :: _ => name
  | [] => raw
  end.

(** *** The subprocesses of a fix *)

(** [ssh] in batch mode to [user@hostIP], and [zabbix_get] to the agent
    of [hostIP] for the key that runs [command]. *)
Definition sshCommand (hostIP user command : string) : fixer.Cmd :=
  fixer.mkCmd "ssh"
    ["-o"; "BatchMode=yes"; "-o"; "ConnectTimeout=10";
     user +:+ "@" +:+ hostIP; command].

Definition agentCommand (GetPath hostIP port command : string)
  : fixer.Cmd :=
  fixer.mkCmd GetPath
    ["-s"; hostIP; "-p"; if String.eqb port "" then "10050" else port;
     "-k"; "system.run[" +:+ command +:+ ",nowait]"].

(** *** OS names *)

(** The names [NormalizeOSName] maps the known distributions to. *)
Definition knownOSNames : list string :=
  ["ubuntu"; "debian"; "centos"; "redhat"; "amazon"; "oraclelinux";
   "suse"; "fedora"; "alpine"; "arch"].

End Spec.

(** ** Concrete inputs

    Hosts, findings and states on which the theorems of Part II are
    instantiated. *)
Module Examples.
Import scanner.

Definition pkg (name : string) (score : float) : PackageVuln.t :=
  PackageVuln.mk name "1.0" "amd64" score "" ["USN-1"] [].

Definition bulletin (id : string) (score : float) : BulletinSummary.t :=
  BulletinSummary.mk id "unix" score ["CVE-1"] "" ["openssl 1.0 amd64"] [].

Definition host (id name : string) (score : float)
    (pkgs : list PackageVuln.t) (buls : list BulletinSummary.t)
  : HostEntry.t :=
  HostEntry.mk id name name "ubuntu" "20.04" score "" pkgs buls.

(** Two hosts sharing a package and a bulletin, the first added twice. *)
Definition web : HostEntry.t :=
  host "1" "Web Server 1" 5
    [pkg "openssl" 5; pkg "curl" 3] [bulletin "USN-1" 5].
Definition db : HostEntry.t :=
  host "2" "DB Server" 9 [pkg "openssl" 9] [bulletin "USN-1" 9].
Definition idle : HostEntry.t := host "3" "Idle" 0 [] [].

Definition fleet : list HostEntry.t := [web; db; web; idle].

Definition state : Aggregator := addAll NewAggregator fleet.

(** The conversion of amd64 for a value that does not fit: the
    "integer indefinite" value, the smallest [int]. *)
Definition amd64 (x : float) : Z := - 2 ^ 63.

(** A host whose score, 10^19, is a finite number above the largest
    [int]. *)
Definition huge : HostEntry.t := host "4" "Huge" 1e19 [] [].

(** A host with a package whose score is NaN between two packages with
    scores 1 and 2, the state after adding it, and the result of
    [GetResults] when the two [range] loops enumerate the maps in the
    order of [map_to_list]. *)
Definition nanHost : HostEntry.t :=
  host "5" "NaN" 2 [pkg "c" 1; pkg "a" PrimFloat.nan; pkg "b" 2] [].

Definition nanState : Aggregator := AddHost NewAggregator nanHost.

Definition nanResults : ScanResults.t :=
  GetResultsFrom nanState
    (map_to_list (packages nanState)).*2
    (map_to_list (bulletins nanState)).*2.

(** Stand-ins for the library functions taken as given. *)
Definition noIPv6 (s : string) : bool := false.
Definition asciiOnly (s : string) : string := s.

(** A monitor with one host, its OS item and its package item. *)
Definition item (key value : string) : zabbix.Item.t :=
  zabbix.Item.mk "100" "1" key key value "4" "0".

Definition newline : string := String "010"%char EmptyString.

Definition sixPackages : string :=
  String.concat newline
    ["bash 5.0 amd64"; "curl 7.68 amd64"; "openssl 1.1.1f amd64";
     "nginx 1.18.0 amd64"; "vim 8.1 amd64"; "zlib1g 1.2.11 amd64"].

Definition monitorItems (hostID key : string)
  : error + list zabbix.Item.t :=
  if String.eqb key "system.sw.os"
  then inr [item key ""; item key "Ubuntu 20.04.3 LTS"]
  else inr [item key sixPackages].

Definition monitorHost : zabbix.Host.t :=
  zabbix.Host.mk "1" "web1" "Web Server 1" "0" [] [] [].

Definition monitorHosts (template : string) : error + list zabbix.Host.t :=
  inr [monitorHost].

(** A subprocess that succeeds. *)
Definition runOK (cmd : fixer.Cmd) : string * string * option error :=
  ("ok", "", None).

(** A name of 257 letters. *)
Definition longName : string :=
  String.string_of_list_ascii (repeat "a"%char 257).

(** An audit result: two vulnerabilities of one package, one of them
    sharing its bulletin with a second package that has no CVSS, and one
    without a bulletin. *)
Definition vuln (package bulletin : string) (score : option float)
    (cves : list string) : vulners.Vulnerability.t :=
  vulners.Vulnerability.mk package bulletin
    (option_map vulners.CVSS.mk score) "apt-get install --only-upgrade"
    cves.

Definition audit : vulners.AuditResult.t :=
  vulners.AuditResult.mk
    [vuln "openssl 1.1.1f amd64" "USN-1" (Some 7.5%float)
       ["CVE-1"; "CVE-2"];
     vuln "openssl 1.1.1f amd64" "USN-2" (Some 9.5%float) ["CVE-2"];
     vuln "curl 7.68 amd64" "USN-2" None ["CVE-3"; "CVE-2"];
     vuln "bash 5.0 amd64" "" (Some 5%float) []]
    9.5%float "apt-get install openssl, curl".

(** The findings extracted from it, in the order of the keys. *)
Definition auditPackages : list PackageVuln.t :=
  extractVulnPackagesFrom
    (map_to_list
       (fold_left addVulnPackage
          (vulners.AuditResult.Vulnerabilities audit) ∅)).*2.

Definition auditBulletins : list BulletinSummary.t :=
  extractBulletinsFrom
    (map_to_list
       (fold_left addVulnBulletin
          (vulners.AuditResult.Vulnerabilities audit) ∅)).*2.


(** A vulnerability service that answers every host with [audit], and
    the data of the monitored host. *)
Definition linuxAudit (osName osVersion : string) (packages : list string)
  : error + option vulners.AuditResult.t :=
  inr (Some audit).

Definition monitorData : HostData.t :=
  HostData.mk monitorHost "ubuntu" "20.04.3"
    ["bash 5.0 amd64"; "curl 7.68 amd64"; "openssl 1.1.1f amd64";
     "nginx 1.18.0 amd64"; "vim 8.1 amd64"; "zlib1g 1.2.11 amd64"].

(** Its entry, at a minimum score of 5. *)
Definition auditEntry : HostEntry.t :=
  hostEntryOf 5 monitorData audit auditPackages auditBulletins.


(** The aggregator after a scan of the monitored host, and the results
    in the order of the keys. *)
Definition scanned : Aggregator := AddHost NewAggregator auditEntry.

Definition scanResults : ScanResults.t :=
  GetResultsFrom scanned
    (map_to_list (packages scanned)).*2
    (map_to_list (bulletins scanned)).*2.


(** A host with an SNMP interface before its agent interface, both
    main. *)
Definition snmpInterface : zabbix.HostInterface.t :=
  zabbix.HostInterface.mk "1" "10.0.0.2" "" "161" "2" "1" "1".
Definition agentInterface : zabbix.HostInterface.t :=
  zabbix.HostInterface.mk "2" "10.0.0.1" "web01.example.com" "10050"
    "1" "1" "1".
Definition twoInterfaces : zabbix.Host.t :=
  zabbix.Host.mk "1" "web01" "Web Server 1" "0"
    [snmpInterface; agentInterface] [] [].


(** A stand-in for the formatting of a score, and the aggregates of two
    packages and one bulletin as a scan leaves them. *)
Definition oneDecimal (x : float) : string := "0.0".

Definition fleetPackages : list PackageEntry.t :=
  [PackageEntry.mk "openssl" "1.1.1f" "amd64" 9 "" ["1"; "2"]
     ["Web Server 1"; "DB Server"] ["USN-1"];
   PackageEntry.mk "curl" "7.68" "amd64" 3 "" ["1"] ["Web Server 1"]
     ["USN-2"]].

Definition fleetBulletins : list BulletinEntry.t :=
  [BulletinEntry.mk "USN-1" "" 9 ["CVE-1"] "" 
     ["openssl 1.1.1f amd64"; "libssl1.1 1.1.1f amd64";
      "openssl 1.1.1f i386"]
     ["1"; "2"] ["Web Server 1"; "DB Server"]].


(** A monitor for the fixer: the four virtual hosts, host "1" known by
    ID and by name, and discovery items whose text is their key and
    decodes to what the generators produce for the fleet. *)
Definition naming : fixer.NamingConfig.t :=
  fixer.NamingConfig.mk "vulners.hosts" "vulners.packages"
    "vulners.bulletins" "vulners.statistics".

Definition hostByID (hostID : string) : error + zabbix.Host.t :=
  if String.eqb hostID "1" then inr twoInterfaces
  else inl (ErrorString ("host not found: " +:+ hostID)).

Definition hostByName (name : string) : error + zabbix.Host.t :=
  if String.eqb name "web01" then inr twoInterfaces
  else inl (ErrorString ("host not found: " +:+ name)).

Definition itemValue (host key : string) : error + string := inr key.

Definition decode (lldJSON : string) : error + zabbix.LLDData :=
  if String.eqb lldJSON "vulners.packages_lld"
  then inr (GeneratePackagesLLD amd64 oneDecimal fleetPackages)
  else inr (GenerateBulletinsLLD amd64 oneDecimal fleetBulletins).

Definition planner (opts : fixer.FixOptions.t)
  : option (error + fixer.FixPlan.t) :=
  fixer.Plan asciiOnly naming hostByName hostByID itemValue monitorItems
    decode opts.

(** The plan for the bulletin of the fleet: host "2" is unknown to the
    monitor and left out. *)
Definition bulletinPlan : fixer.FixPlan.t :=
  fixer.FixPlan.mk
    [fixer.HostFixPlan.mk "1" "Web Server 1" "10.0.0.1" "10050" ["openssl"]
       "apt-get update && apt-get install -y --only-upgrade 'openssl'"]
    [].

Definition hostPlan : fixer.FixPlan.t :=
  fixer.FixPlan.mk
    [fixer.HostFixPlan.mk "1" "Web Server 1" "10.0.0.1" "10050"
       ["openssl"; "curl"]
       "apt-get update && apt-get install -y --only-upgrade 'openssl' 'curl'"]
    [].

End Examples.

(* ===================================================================== *)
(** * Part II: lemmas and theorems                                        *)
(* ===================================================================== *)

(** ** float64 comparisons *)

Lemma SFcompare_rank x y :
  SFcompare x y =
    match GoFloat.rankSF x, GoFloat.rankSF y with
    | Some (a1, a2, a3), Some (b1, b2, b3) =>
        Some (match a1 ?= b1 with
              | Eq => match a2 ?= b2 with
                      | Eq => a3 ?= b3
                      | c => c
                      end
              | c => c
              end)
    | _, _ => None
    end.
Proof.
  destruct x as [[]|[]| |[] mx ex], y as [[]|[]| |[] my ey];
    try reflexivity; cbn -[Z.compare].
  rewrite Z.compare_refl, Z.compare_opp, (Z.compare_antisym ex ey).
  destruct (ex ?= ey); reflexivity.
Qed.

Lemma ltb_rank x y :
  PrimFloat.ltb x y = true <->
  exists a b, GoFloat.rank x = Some a /\ GoFloat.rank y = Some b
              /\ GoFloat.lexlt a b.
Proof.
  rewrite FloatAxioms.ltb_spec. unfold SFltb, GoFloat.rank. rewrite SFcompare_rank.
  destruct (GoFloat.rankSF (Prim2SF x)) as [[[a1 a2] a3]|],
           (GoFloat.rankSF (Prim2SF y)) as [[[b1 b2] b3]|];
    try (split; [discriminate | intros (a & b & Ha & Hb & _); discriminate]).
  split.
  - intros H. exists (a1, a2, a3), (b1, b2, b3). repeat split.
    unfold GoFloat.lexlt.
    destruct (Z.compare_spec a1 b1); try discriminate; [|lia].
    destruct (Z.compare_spec a2 b2); try discriminate; [|lia].
    destruct (Z.compare_spec a3 b3); try discriminate; lia.
  - intros (a & b & [= <-] & [= <-] & H). unfold GoFloat.lexlt in H.
    destruct (Z.compare_spec a1 b1); try lia; try reflexivity.
    destruct (Z.compare_spec a2 b2); try lia; try reflexivity.
    destruct (Z.compare_spec a3 b3); try lia; reflexivity.
Qed.

Lemma leb_rank x y :
  PrimFloat.leb x y = true <->
  exists a b, GoFloat.rank x = Some a /\ GoFloat.rank y = Some b
              /\ GoFloat.lexle a b.
Proof.
  rewrite FloatAxioms.leb_spec. unfold SFleb, GoFloat.rank. rewrite SFcompare_rank.
  destruct (GoFloat.rankSF (Prim2SF x)) as [[[a1 a2] a3]|],
           (GoFloat.rankSF (Prim2SF y)) as [[[b1 b2] b3]|];
    try (split; [discriminate | intros (a & b & Ha & Hb & _); discriminate]).
  split.
  - intros H. exists (a1, a2, a3), (b1, b2, b3). repeat split.
    unfold GoFloat.lexle, GoFloat.lexlt.
    destruct (Z.compare_spec a1 b1); try discriminate; [|lia].
    destruct (Z.compare_spec a2 b2); try discriminate; [|lia].
    destruct (Z.compare_spec a3 b3); try discriminate;
      [right; congruence | lia].
  - intros (a & b & [= <-] & [= <-] & H).
    unfold GoFloat.lexle, GoFloat.lexlt in H.
    destruct H as [H | [= -> -> ->]].
    + destruct (Z.compare_spec a1 b1); try lia; try reflexivity.
      destruct (Z.compare_spec a2 b2); try lia; try reflexivity.
      destruct (Z.compare_spec a3 b3); try lia; reflexivity.
    + rewrite !Z.compare_refl. reflexivity.
Qed.

Lemma isNaN_rank x : GoFloat.isNaN x = true <-> GoFloat.rank x = None.
Proof.
  unfold GoFloat.isNaN, GoFloat.rank. rewrite FloatAxioms.eqb_spec. unfold SFeqb.
  rewrite SFcompare_rank.
  destruct (GoFloat.rankSF (Prim2SF x)) as [[[a1 a2] a3]|].
  - rewrite !Z.compare_refl. split; discriminate.
  - split; reflexivity.
Qed.

Lemma notNaN_rank x :
  GoFloat.isNaN x = false <-> exists a, GoFloat.rank x = Some a.
Proof.
  destruct (GoFloat.isNaN x) eqn:E.
  - apply isNaN_rank in E. rewrite E.
    split; [discriminate | intros [a Ha]; discriminate].
  - split; [|reflexivity]. intros _.
    destruct (GoFloat.rank x) eqn:R; [eauto|].
    apply isNaN_rank in R. congruence.
Qed.

Lemma lexlt_irrefl a : ~ GoFloat.lexlt a a.
Proof. destruct a as [[a1 a2] a3]. unfold GoFloat.lexlt. lia. Qed.

Lemma lexlt_trans a b c :
  GoFloat.lexlt a b -> GoFloat.lexlt b c -> GoFloat.lexlt a c.
Proof.
  destruct a as [[a1 a2] a3], b as [[b1 b2] b3], c as [[c1 c2] c3].
  unfold GoFloat.lexlt. lia.
Qed.

Lemma lexlt_total a b : GoFloat.lexlt a b \/ a = b \/ GoFloat.lexlt b a.
Proof.
  destruct a as [[a1 a2] a3], b as [[b1 b2] b3]. unfold GoFloat.lexlt.
  destruct (Z.lt_total a1 b1) as [?|[?|?]]; [lia | | lia].
  destruct (Z.lt_total a2 b2) as [?|[?|?]]; [lia | | lia].
  destruct (Z.lt_total a3 b3) as [?|[?|?]]; [lia | | lia].
  right; left; congruence.
Qed.

Lemma lexle_trans a b c :
  GoFloat.lexle a b -> GoFloat.lexle b c -> GoFloat.lexle a c.
Proof.
  unfold GoFloat.lexle. intros [H1| ->] [H2| ->]; auto.
  left; eapply lexlt_trans; eauto.
Qed.

Lemma ltb_irrefl x : PrimFloat.ltb x x = false.
Proof.
  destruct (PrimFloat.ltb x x) eqn:E; [|reflexivity].
  apply ltb_rank in E as (a & b & Ha & Hb & H).
  rewrite Ha in Hb; injection Hb as <-. now apply lexlt_irrefl in H.
Qed.

Lemma ltb_asym x y : PrimFloat.ltb x y = true -> PrimFloat.ltb y x = false.
Proof.
  intros H. destruct (PrimFloat.ltb y x) eqn:E; [|reflexivity].
  apply ltb_rank in H as (a & b & Ha & Hb & H).
  apply ltb_rank in E as (b' & a' & Hb' & Ha' & H').
  rewrite Ha in Ha'; rewrite Hb in Hb'.
  injection Ha' as <-; injection Hb' as <-.
  exfalso. eapply lexlt_irrefl, lexlt_trans; eauto.
Qed.

Lemma ltb_leb x y : PrimFloat.ltb x y = true -> PrimFloat.leb x y = true.
Proof.
  intros (a & b & Ha & Hb & H)%ltb_rank. apply leb_rank.
  exists a, b. repeat split; auto. now left.
Qed.


Lemma leb_trans x y z :
  PrimFloat.leb x y = true -> PrimFloat.leb y z = true ->
  PrimFloat.leb x z = true.
Proof.
  intros (a & b & Ha & Hb & H1)%leb_rank (b' & c & Hb' & Hc & H2)%leb_rank.
  rewrite Hb in Hb'; injection Hb' as <-.
  apply leb_rank. exists a, c. repeat split; auto.
  eapply lexle_trans; eauto.
Qed.

(** Without NaN the order is total: [not (y < x)] is [x <= y]. *)
Lemma not_ltb_leb x y :
  GoFloat.isNaN x = false -> GoFloat.isNaN y = false ->
  PrimFloat.ltb y x = false -> PrimFloat.leb x y = true.
Proof.
  intros [a Ha]%notNaN_rank [b Hb]%notNaN_rank H.
  apply leb_rank. exists a, b. repeat split; auto.
  destruct (lexlt_total a b) as [?|[?|Hlt]]; [now left | now right |].
  assert (PrimFloat.ltb y x = true) by (apply ltb_rank; eauto 6).
  congruence.
Qed.

Lemma leb_not_ltb x y :
  PrimFloat.leb x y = true -> PrimFloat.ltb y x = false.
Proof.
  intros (a & b & Ha & Hb & H)%leb_rank.
  destruct (PrimFloat.ltb y x) eqn:E; [|reflexivity].
  apply ltb_rank in E as (b' & a' & Hb' & Ha' & H').
  rewrite Ha in Ha'; rewrite Hb in Hb'.
  injection Ha' as <-; injection Hb' as <-.
  exfalso. destruct H as [H| ->].
  - eapply lexlt_irrefl, lexlt_trans; eauto.
  - eapply lexlt_irrefl; eauto.
Qed.

(** ** Insertion sort *)
Section SortFacts.
Context {A : Type} (less : A -> A -> bool) (P : A -> Prop).

(** [x] may come before [y] in the output: [y] does not sort before
    [x]. *)
Let R (x y : A) : Prop := less y x = false.

Hypothesis less_asym :
  forall x y, P x -> P y -> less x y = true -> less y x = false.
Hypothesis R_trans :
  forall x y z, P x -> P y -> P z -> R x y -> R y z -> R x z.

Lemma sift_perm x r : Permutation (GoSort.sift less x r) (x :: r).
Proof.
  induction r as [|y r IH]; simpl; [reflexivity|].
  destruct (less x y); [|reflexivity].
  rewrite IH. apply perm_swap.
Qed.

Lemma insertionSort_perm l : Permutation (GoSort.insertionSort less l) l.
Proof.
  unfold GoSort.insertionSort.
  assert (H : forall acc,
             Permutation (fold_left (fun rp x => GoSort.sift less x rp) l acc)
                         (rev l ++ acc)).
  { induction l as [|x l IH]; intros acc; simpl; [reflexivity|].
    rewrite IH, sift_perm, <- app_assoc. simpl.
    reflexivity. }
  rewrite <- Permutation_rev, H, app_nil_r, <- Permutation_rev.
  reflexivity.
Qed.

Lemma sift_sorted x r :
  P x -> Forall P r ->
  StronglySorted (fun a b => R b a) r ->
  StronglySorted (fun a b => R b a) (GoSort.sift less x r).
Proof.
  intros Px HP Hs. induction r as [|y r IH]; simpl.
  - repeat constructor.
  - apply Forall_cons_iff in HP as [Py HP].
    apply StronglySorted_inv in Hs as [Hs Hy].
    destruct (less x y) eqn:E.
    + constructor; [auto|].
      eapply Permutation_Forall; [symmetry; apply sift_perm|].
      apply Forall_cons; split; [unfold R; auto | exact Hy].
    + constructor; [constructor; auto|].
      constructor; [exact E|].
      rewrite Forall_forall in Hy, HP. apply Forall_forall. intros z Hz.
      apply (R_trans z y x); auto.
Qed.

Lemma StronglySorted_snoc (Q : A -> A -> Prop) l a :
  StronglySorted Q l -> Forall (fun b => Q b a) l ->
  StronglySorted Q (l ++ [a]).
Proof.
  induction 1 as [|b l Hs IH Hb]; intros Ha; simpl.
  - repeat constructor.
  - apply Forall_cons in Ha as [Hba Ha]. constructor; [auto|].
    apply Forall_app. split; [exact Hb | repeat constructor; exact Hba].
Qed.

Lemma StronglySorted_rev (Q : A -> A -> Prop) l :
  StronglySorted (fun a b => Q b a) l -> StronglySorted Q (rev l).
Proof.
  induction 1 as [|a l Hs IH Ha]; simpl; [constructor|].
  apply StronglySorted_snoc; [exact IH|].
  apply List.Forall_forall. intros b Hb. rewrite List.Forall_forall in Ha.
  apply Ha. now apply in_rev.
Qed.

Lemma insertionSort_sorted l :
  Forall P l -> StronglySorted R (GoSort.insertionSort less l).
Proof.
  intros HP. unfold GoSort.insertionSort. apply StronglySorted_rev.
  assert (H : forall acc, Forall P acc ->
             StronglySorted (fun a b => R b a) acc ->
             StronglySorted (fun a b => R b a)
               (fold_left (fun rp x => GoSort.sift less x rp) l acc)).
  { induction HP as [|x l Px HP IH]; intros acc Pacc Hacc; simpl; [auto|].
    apply IH.
    - eapply Permutation_Forall; [symmetry; apply sift_perm|]. auto.
    - now apply sift_sorted. }
  apply H; constructor.
Qed.
End SortFacts.

Import scanner.

Lemma StronglySorted_weaken {A} (P : A -> Prop) (R R' : A -> A -> Prop) l :
  (forall x y, P x -> P y -> R x y -> R' x y) ->
  Forall P l -> StronglySorted R l -> StronglySorted R' l.
Proof.
  intros HR HP Hs. induction Hs as [|a l Hs IH Ha]; [constructor|].
  apply List.Forall_cons_iff in HP as [Pa HP]. constructor; [auto|].
  rewrite List.Forall_forall in *. auto.
Qed.

Lemma fold_left_snoc {A} (l acc : list A) :
  fold_left (fun acc x => acc ++ [x]) l acc = acc ++ l.
Proof.
  revert acc; induction l as [|x l IH]; intros acc; simpl.
  - now rewrite app_nil_r.
  - now rewrite IH, <- app_assoc.
Qed.

(** Sorting by [score(i) > score(j)] gives a non-increasing list when no
    score is NaN. *)
Lemma sort_by_score_nonIncreasing {A} (score : A -> float) (l : list A) :
  Forall (fun x => GoFloat.isNaN (score x) = false) l ->
  Spec.nonIncreasing score
    (GoSort.insertionSort (fun x y => GoFloat.gt (score x) (score y)) l).
Proof.
  intros HP. unfold Spec.nonIncreasing.
  set (less := fun x y => GoFloat.gt (score x) (score y)).
  set (P := fun x => GoFloat.isNaN (score x) = false) in *.
  apply (StronglySorted_weaken P (fun x y => less y x = false)).
  - intros x y Px Py H. unfold less, GoFloat.gt in H.
    now apply not_ltb_leb.
  - eapply Permutation_Forall; [symmetry; apply insertionSort_perm | exact HP].
  - apply (insertionSort_sorted less P); [| |exact HP].
    + intros x y _ _. unfold less, GoFloat.gt. apply ltb_asym.
    + intros x y z Px Py Pz. unfold less, GoFloat.gt. intros Hxy Hyz.
      apply leb_not_ltb. apply (leb_trans _ (score y)); now apply not_ltb_leb.
Qed.

Lemma mapRange_Forall {V} (Q : V -> Prop) (m : gmap string V) order :
  map_Forall (fun _ v => Q v) m -> mapRange m order -> Forall Q order.
Proof.
  intros Hm Hr. unfold mapRange in Hr.
  eapply Permutation_Forall; [symmetry; exact Hr|].
  apply List.Forall_forall. intros v Hv.
  apply list_elem_of_In, list_elem_of_fmap in Hv as ([k v'] & -> & Hkv).
  apply elem_of_map_to_list in Hkv. exact (Hm k v' Hkv).
Qed.

(** C8, amended: for every aggregator whose aggregate scores are numbers
    (not NaN), the packages and the bulletins of every result of
    [GetResults] are in non-increasing order of score; and on every
    aggregator they are the package aggregates and the bulletin
    aggregates it holds, each once. *)
Theorem GetResults_sorted (a : Aggregator) (r : ScanResults.t) :
  GetResults a r ->
  mapRange (packages a) (ScanResults.Packages r)
  /\ mapRange (bulletins a) (ScanResults.Bulletins r)
  /\ (map_Forall (fun _ p => GoFloat.isNaN (PackageEntry.Score p) = false)
        (packages a) ->
      Spec.nonIncreasing PackageEntry.Score (ScanResults.Packages r))
  /\ (map_Forall (fun _ b => GoFloat.isNaN (BulletinEntry.Score b) = false)
        (bulletins a) ->
      Spec.nonIncreasing BulletinEntry.Score (ScanResults.Bulletins r)).
Proof.
  intros (ps & bs & Hps & Hbs & ->). unfold GetResultsFrom; simpl.
  rewrite !fold_left_snoc; simpl.
  split; [|split; [|split]].
  - unfold mapRange in *. rewrite <- Hps. apply insertionSort_perm.
  - unfold mapRange in *. rewrite <- Hbs. apply insertionSort_perm.
  - intros Hp. apply sort_by_score_nonIncreasing.
    exact (mapRange_Forall _ _ _ Hp Hps).
  - intros Hb. apply sort_by_score_nonIncreasing.
    exact (mapRange_Forall _ _ _ Hb Hbs).
Qed.

Lemma GetResults_sorted_witness :
  Spec.nonIncreasing PackageEntry.Score
    (ScanResults.Packages
       (GetResultsFrom Examples.state
          (map_to_list (packages Examples.state)).*2
          (map_to_list (bulletins Examples.state)).*2)).
Proof.
  refine (proj1 (proj2 (proj2 (GetResults_sorted Examples.state _ _))) _).
  - eexists _, _. split; [|split; [|reflexivity]];
      unfold mapRange; reflexivity.
  - apply map_Forall_to_list. vm_compute. repeat constructor.
Defined.

(** Counterexample to C8 as specified: after one [AddHost] of a host with
    three packages, one of them with the score NaN, [GetResults] can
    return the package with the score 1 before the package with the
    score 2.  Every comparison with NaN is false, so the sort leaves the
    three packages in the order in which the aggregates were
    enumerated. *)
Lemma GetResults_NaN_unsorted :
  GetResults Examples.nanState Examples.nanResults
  /\ map PackageEntry.Score (ScanResults.Packages Examples.nanResults)
     = [1; PrimFloat.nan; 2]%float
  /\ GoFloat.gt 2 1 = true
  /\ ~ Spec.nonIncreasing PackageEntry.Score
        (ScanResults.Packages Examples.nanResults).
Proof.
  split; [|split; [|split]].
  - eexists _, _. split; [|split; [|reflexivity]];
      unfold mapRange; reflexivity.
  - vm_compute. reflexivity.
  - reflexivity.
  - intros H.
    assert (Hs : exists p q t,
               ScanResults.Packages Examples.nanResults = [p; q; t]
               /\ GoFloat.le (PackageEntry.Score t) (PackageEntry.Score p)
                  = false).
    { eexists _, _, _. split; [vm_compute; reflexivity|]. reflexivity. }
    destruct Hs as (p & q & t & Hl & Hle). rewrite Hl in H.
    apply StronglySorted_inv in H as [_ Hall].
    apply Forall_inv_tail, Forall_inv in Hall. congruence.
Qed.

(** ** Comparisons along a chain of updates *)

Lemma ltb_trans x y z :
  PrimFloat.ltb x y = true -> PrimFloat.ltb y z = true ->
  PrimFloat.ltb x z = true.
Proof.
  intros (a & b & Ha & Hb & H1)%ltb_rank (b' & c & Hb' & Hc & H2)%ltb_rank.
  rewrite Hb in Hb'; injection Hb' as <-.
  apply ltb_rank. exists a, c. repeat split; auto.
  eapply lexlt_trans; eauto.
Qed.

(** When the running maximum [m] moves up to [s'], what was not above
    [m] is not above [s'] either (a NaN is above nothing). *)
Lemma ltb_raise m s s' :
  PrimFloat.ltb m s = false -> PrimFloat.ltb m s' = true ->
  PrimFloat.ltb s' s = false.
Proof.
  intros H1 H2. destruct (PrimFloat.ltb s' s) eqn:E; [|reflexivity].
  rewrite (ltb_trans _ _ _ H2 E) in H1. discriminate.
Qed.

(** ** [appendUnique] *)

Lemma appendUnique_scan_In l x : appendUnique_scan l x = true <-> In x l.
Proof.
  induction l as [|y l IH]; simpl; [split; [discriminate | tauto]|].
  destruct (String.eqb y x) eqn:E.
  - apply String.eqb_eq in E. tauto.
  - apply String.eqb_neq in E. rewrite IH. tauto.
Qed.

Lemma appendUnique_scan_app l1 l2 x :
  appendUnique_scan (l1 ++ l2) x
  = appendUnique_scan l1 x || appendUnique_scan l2 x.
Proof.
  induction l1 as [|y l1 IH]; simpl; [reflexivity|].
  destruct (String.eqb y x); [reflexivity | exact IH].
Qed.

Lemma appendUnique_present l x : In x l -> appendUnique l x = l.
Proof.
  intros H. unfold appendUnique.
  now apply appendUnique_scan_In in H as ->.
Qed.

Lemma filter_filter {A} (p q : A -> bool) l :
  List.filter p (List.filter q l) = List.filter (fun y => q y && p y) l.
Proof.
  induction l as [|y l IH]; simpl; [reflexivity|].
  destruct (q y); simpl; [destruct (p y)|]; now rewrite IH.
Qed.

Lemma fold_appendUnique l acc :
  fold_left appendUnique l acc
  = acc ++ List.filter (fun y => negb (appendUnique_scan acc y))
             (Spec.firstSeen l).
Proof.
  revert acc. induction l as [|x r IH]; intros acc; simpl.
  - now rewrite app_nil_r.
  - rewrite IH. unfold appendUnique.
    destruct (appendUnique_scan acc x) eqn:E; simpl.
    + f_equal. rewrite filter_filter. apply filter_ext. intros y.
      destruct (String.eqb y x) eqn:Eyx; simpl; [|reflexivity].
      apply String.eqb_eq in Eyx as ->. now rewrite E.
    + rewrite <- app_assoc. simpl. do 2 f_equal.
      rewrite filter_filter. apply filter_ext. intros y.
      rewrite appendUnique_scan_app. simpl.
      rewrite (String.eqb_sym x y).
      destruct (appendUnique_scan acc y), (String.eqb y x); reflexivity.
Qed.

Lemma fold_appendUnique_nil l :
  fold_left appendUnique l [] = Spec.firstSeen l.
Proof.
  rewrite fold_appendUnique. simpl.
  induction (Spec.firstSeen l) as [|y l' IH]; simpl; congruence.
Qed.

Lemma firstSeen_In l x : In x (Spec.firstSeen l) <-> In x l.
Proof.
  induction l as [|y r IH]; simpl; [tauto|].
  rewrite filter_In, IH, negb_true_iff, String.eqb_neq.
  destruct (String.eqb_spec y x); split; intros; intuition congruence.
Qed.

Lemma firstSeen_NoDup l : List.NoDup (Spec.firstSeen l).
Proof.
  induction l as [|y r IH]; simpl; constructor.
  - rewrite filter_In, String.eqb_refl. intros [_ H]. discriminate.
  - now apply List.NoDup_filter.
Qed.

(** ** One map of aggregates

    Both loops of [AddHost] have the same shape: the entry under the key of
    a finding is replaced by its merge with the finding. *)
Section Aggregate.
Context {F E : Type} (key : F -> string) (merge : option E -> F -> E).

Local Abbreviation step :=
  (fun (m : gmap string E) (f : F) =>
     <[ key f := merge (m !! key f) f ]> m).
Local Abbreviation mergeAll :=
  (fold_left (fun (o : option E) (f : F) => Some (merge o f))).
Local Abbreviation forKey k :=
  (List.filter (fun f : F => String.eqb (key f) k)).

(** The entry under [k] only sees the findings of key [k]. *)
Lemma fold_merge_lookup fs (m : gmap string E) k :
  fold_left step fs m !! k = mergeAll (forKey k fs) (m !! k).
Proof.
  revert m. induction fs as [|f fs IH]; intros m; simpl; [reflexivity|].
  rewrite IH. destruct (String.eqb_spec (key f) k) as [<-|Hne]; simpl.
  - now rewrite lookup_insert_eq.
  - now rewrite lookup_insert_ne.
Qed.

Lemma mergeAll_Some fs e : is_Some (mergeAll fs (Some e)).
Proof.
  revert e. induction fs as [|f fs IH]; intros e; simpl; [eauto | apply IH].
Qed.

Section Score.
Context (score : E -> float) (fscore : F -> float).
Hypothesis score_new : forall f, score (merge None f) = fscore f.
Hypothesis score_merge : forall e f,
  score (merge (Some e) f)
  = if GoFloat.gt (fscore f) (score e) then fscore f else score e.



(** The score after merging is attained and not exceeded. *)
Lemma mergeAll_bound fs : forall e seen e',
  In (score e) seen ->
  (forall s, In s seen -> PrimFloat.ltb (score e) s = false) ->
  mergeAll fs (Some e) = Some e' ->
  In (score e') (seen ++ map fscore fs)
  /\ (forall s, In s (seen ++ map fscore fs) ->
      PrimFloat.ltb (score e') s = false).
Proof.
  induction fs as [|f fs IH]; intros e seen e' Hin Hub; simpl.
  - intros [= <-]. rewrite app_nil_r. auto.
  - intros H. apply (IH _ (seen ++ [fscore f])) in H.
    + now rewrite <- app_assoc in H.
    + rewrite score_merge. apply in_or_app.
      destruct (GoFloat.gt _ _); simpl; auto.
    + intros s [Hs|[<-|[]]]%in_app_or; rewrite score_merge;
        unfold GoFloat.gt;
        destruct (PrimFloat.ltb (score e) (fscore f)) eqn:Hlt; auto.
      * eapply ltb_raise; eauto.
      * apply ltb_irrefl.
Qed.

Lemma mergeAll_maximum fs e' :
  mergeAll fs None = Some e' ->
  Spec.isMaximum (score e') (map fscore fs).
Proof.
  destruct fs as [|f fs]; [discriminate|]. simpl. intros H.
  apply (mergeAll_bound fs _ [fscore f]) in H;
    [|rewrite score_new; simpl; auto
     |intros s [<-|[]]; rewrite score_new; apply ltb_irrefl].
  simpl in H. destruct H as [Hin Hub].
  unfold Spec.isMaximum, GoFloat.gt, GoFloat.le. simpl.
  repeat split; [exact Hin | exact Hub |].
  intros Hnan s Hs. rewrite List.Forall_forall in Hnan.
  apply not_ltb_leb; auto.
Qed.
End Score.

Section Hosts.
Context (hostsOf : E -> list string) (fhost : F -> string).
Hypothesis hosts_merge : forall o f,
  hostsOf (merge o f)
  = appendUnique (match o with Some e => hostsOf e | None => [] end)
                 (fhost f).

Lemma mergeAll_hosts fs e e' :
  mergeAll fs (Some e) = Some e' ->
  hostsOf e' = fold_left appendUnique (map fhost fs) (hostsOf e).
Proof.
  revert e. induction fs as [|f fs IH]; intros e; simpl.
  - now intros [= <-].
  - intros H. apply IH in H. now rewrite hosts_merge in H.
Qed.

Lemma mergeAll_firstSeen fs e' :
  mergeAll fs None = Some e' ->
  hostsOf e' = Spec.firstSeen (map fhost fs).
Proof.
  destruct fs as [|f fs]; [discriminate|]. intros H.
  apply mergeAll_hosts in H. rewrite hosts_merge in H.
  rewrite <- fold_appendUnique_nil. exact H.
Qed.
End Hosts.
End Aggregate.

(** ** The two maps of the aggregator *)

Lemma fold_left_map {A B C} (f : A -> B -> A) (g : C -> B) l a :
  fold_left f (map g l) a = fold_left (fun a x => f a (g x)) l a.
Proof. revert a; induction l as [|x l IH]; intros a; simpl; auto. Qed.

Local Abbreviation pkgKey := (fun f : Spec.pkgFinding => packageKey (snd f)).
Local Abbreviation pkgMerge :=
  (fun (o : option PackageEntry.t) (f : Spec.pkgFinding) =>
     mergePackage (Spec.hostIDOf f) (Spec.hostNameOf f) o (snd f)).
Local Abbreviation bulKey :=
  (fun f : Spec.bulFinding => BulletinSummary.ID (snd f)).
Local Abbreviation bulMerge :=
  (fun (o : option BulletinEntry.t) (f : Spec.bulFinding) =>
     mergeBulletin (Spec.hostIDOf f) (Spec.hostNameOf f) o (snd f)).

Lemma AddHost_packages a entry k :
  packages (AddHost a entry) !! k
  = fold_left (fun o f => Some (pkgMerge o f))
      (List.filter (fun f => String.eqb (pkgKey f) k)
                   (Spec.pkgFindingsOf entry))
      (packages a !! k).
Proof.
  rewrite <- (fold_merge_lookup pkgKey pkgMerge).
  unfold AddHost, Spec.pkgFindingsOf; simpl. now rewrite fold_left_map.
Qed.

Lemma AddHost_bulletins a entry k :
  bulletins (AddHost a entry) !! k
  = fold_left (fun o f => Some (bulMerge o f))
      (List.filter (fun f => String.eqb (bulKey f) k)
                   (Spec.bulFindingsOf entry))
      (bulletins a !! k).
Proof.
  rewrite <- (fold_merge_lookup bulKey bulMerge).
  unfold AddHost, Spec.bulFindingsOf; simpl. now rewrite fold_left_map.
Qed.

Lemma filter_app {A} (p : A -> bool) l1 l2 :
  List.filter p (l1 ++ l2) = List.filter p l1 ++ List.filter p l2.
Proof. apply List.filter_app. Qed.

Lemma addAll_packages entries a k :
  packages (addAll a entries) !! k
  = fold_left (fun o f => Some (pkgMerge o f))
      (Spec.pkgFindings k entries) (packages a !! k).
Proof.
  unfold Spec.pkgFindings, addAll. revert a.
  induction entries as [|e es IH]; intros a; simpl; [reflexivity|].
  rewrite IH, AddHost_packages, filter_app, fold_left_app. reflexivity.
Qed.

Lemma addAll_bulletins entries a k :
  bulletins (addAll a entries) !! k
  = fold_left (fun o f => Some (bulMerge o f))
      (Spec.bulFindings k entries) (bulletins a !! k).
Proof.
  unfold Spec.bulFindings, addAll. revert a.
  induction entries as [|e es IH]; intros a; simpl; [reflexivity|].
  rewrite IH, AddHost_bulletins, filter_app, fold_left_app. reflexivity.
Qed.

Lemma addAll_hosts entries a : hosts (addAll a entries) = hosts a ++ entries.
Proof.
  unfold addAll. revert a.
  induction entries as [|e es IH]; intros a; simpl.
  - now rewrite app_nil_r.
  - rewrite IH. simpl. now rewrite <- app_assoc.
Qed.

Lemma pkgMerge_score_new (f : Spec.pkgFinding) :
  PackageEntry.Score (pkgMerge None f) = Spec.pkgScore f.
Proof.
  unfold mergePackage, Spec.pkgScore; simpl.
  now destruct (GoFloat.gt _ _).
Qed.

Lemma pkgMerge_score e (f : Spec.pkgFinding) :
  PackageEntry.Score (pkgMerge (Some e) f)
  = if GoFloat.gt (Spec.pkgScore f) (PackageEntry.Score e)
    then Spec.pkgScore f else PackageEntry.Score e.
Proof. reflexivity. Qed.

Lemma bulMerge_score_new (f : Spec.bulFinding) :
  BulletinEntry.Score (bulMerge None f) = Spec.bulScore f.
Proof.
  unfold mergeBulletin, Spec.bulScore; simpl.
  now destruct (GoFloat.gt _ _).
Qed.

Lemma bulMerge_score e (f : Spec.bulFinding) :
  BulletinEntry.Score (bulMerge (Some e) f)
  = if GoFloat.gt (Spec.bulScore f) (BulletinEntry.Score e)
    then Spec.bulScore f else BulletinEntry.Score e.
Proof. reflexivity. Qed.



Lemma pkgMerge_hosts o (f : Spec.pkgFinding) :
  PackageEntry.AffectedHosts (pkgMerge o f)
  = appendUnique
      (match o with Some e => PackageEntry.AffectedHosts e | None => [] end)
      (Spec.hostIDOf f).
Proof. destruct o; reflexivity. Qed.

Lemma pkgMerge_names o (f : Spec.pkgFinding) :
  PackageEntry.AffectedHostNames (pkgMerge o f)
  = appendUnique
      (match o with
       | Some e => PackageEntry.AffectedHostNames e
       | None => []
       end)
      (Spec.hostNameOf f).
Proof. destruct o; reflexivity. Qed.

Lemma bulMerge_hosts o (f : Spec.bulFinding) :
  BulletinEntry.AffectedHosts (bulMerge o f)
  = appendUnique
      (match o with Some e => BulletinEntry.AffectedHosts e | None => [] end)
      (Spec.hostIDOf f).
Proof. destruct o; reflexivity. Qed.

Lemma bulMerge_names o (f : Spec.bulFinding) :
  BulletinEntry.AffectedHostNames (bulMerge o f)
  = appendUnique
      (match o with
       | Some e => BulletinEntry.AffectedHostNames e
       | None => []
       end)
      (Spec.hostNameOf f).
Proof. destruct o; reflexivity. Qed.

(** C2: after a sequence of [AddHost] calls on a fresh aggregator, the
    affected host IDs and the affected host names of every package and
    bulletin aggregate have no duplicates and are the hosts of the
    contributing findings in the order in which each was first inserted;
    inserting a value that is present leaves a set as it is. *)
Theorem affected_hosts_dedup_ordered :
  (forall entries k p,
      packages (addAll NewAggregator entries) !! k = Some p ->
      List.NoDup (PackageEntry.AffectedHosts p)
      /\ List.NoDup (PackageEntry.AffectedHostNames p)
      /\ PackageEntry.AffectedHosts p
         = Spec.firstSeen (map Spec.hostIDOf (Spec.pkgFindings k entries))
      /\ PackageEntry.AffectedHostNames p
         = Spec.firstSeen (map Spec.hostNameOf (Spec.pkgFindings k entries)))
  /\ (forall entries k b,
      bulletins (addAll NewAggregator entries) !! k = Some b ->
      List.NoDup (BulletinEntry.AffectedHosts b)
      /\ List.NoDup (BulletinEntry.AffectedHostNames b)
      /\ BulletinEntry.AffectedHosts b
         = Spec.firstSeen (map Spec.hostIDOf (Spec.bulFindings k entries))
      /\ BulletinEntry.AffectedHostNames b
         = Spec.firstSeen (map Spec.hostNameOf (Spec.bulFindings k entries)))
  /\ (forall slice value,
      In value slice -> appendUnique slice value = slice).
Proof.
  split; [|split].
  - intros entries k p. rewrite addAll_packages. simpl.
    rewrite lookup_empty. intros H.
    pose proof (mergeAll_firstSeen pkgMerge PackageEntry.AffectedHosts
                  Spec.hostIDOf pkgMerge_hosts _ _ H) as Hh.
    pose proof (mergeAll_firstSeen pkgMerge PackageEntry.AffectedHostNames
                  Spec.hostNameOf pkgMerge_names _ _ H) as Hn.
    rewrite Hh, Hn. auto using firstSeen_NoDup.
  - intros entries k b. rewrite addAll_bulletins. simpl.
    rewrite lookup_empty. intros H.
    pose proof (mergeAll_firstSeen bulMerge BulletinEntry.AffectedHosts
                  Spec.hostIDOf bulMerge_hosts _ _ H) as Hh.
    pose proof (mergeAll_firstSeen bulMerge BulletinEntry.AffectedHostNames
                  Spec.hostNameOf bulMerge_names _ _ H) as Hn.
    rewrite Hh, Hn. auto using firstSeen_NoDup.
  - apply appendUnique_present.
Qed.

Lemma affected_hosts_dedup_ordered_witness :
  (PackageEntry.AffectedHosts
     (PackageEntry.mk "openssl" "1.0" "amd64" 9 ""
        ["1"; "2"] ["Web Server 1"; "DB Server"] ["USN-1"])
   = Spec.firstSeen
       (map Spec.hostIDOf
            (Spec.pkgFindings "openssl|1.0|amd64" Examples.fleet)))
  /\ (BulletinEntry.AffectedHostNames
        (BulletinEntry.mk "USN-1" "unix" 9 ["CVE-1"] ""
           ["openssl 1.0 amd64"] ["1"; "2"] ["Web Server 1"; "DB Server"])
      = Spec.firstSeen
          (map Spec.hostNameOf (Spec.bulFindings "USN-1" Examples.fleet)))
  /\ appendUnique ["1"; "2"] "1" = ["1"; "2"].
Proof.
  destruct affected_hosts_dedup_ordered as (H1 & H2 & H3).
  split; [|split].
  - refine (proj1 (proj2 (proj2 (H1 Examples.fleet "openssl|1.0|amd64" _ _)))).
    vm_compute. reflexivity.
  - refine (proj2 (proj2 (proj2 (H2 Examples.fleet "USN-1" _ _)))).
    vm_compute. reflexivity.
  - apply H3. simpl. auto.
Defined.

(** ** The order of [sort.Float64s] *)

Lemma rank_class x a1 a2 a3 :
  GoFloat.rank x = Some (a1, a2, a3) -> -2 <= a1 <= 2.
Proof.
  unfold GoFloat.rank.
  destruct (Prim2SF x) as [[]|[]| |[] m e]; simpl; intros [= <- <- <-]; lia.
Qed.

(** NaN is given a rank below all numbers. *)
Lemma float64Less_lex x y :
  GoSort.float64Less x y = true <->
  GoFloat.lexlt (default (-3, 0, 0) (GoFloat.rank x))
                (default (-3, 0, 0) (GoFloat.rank y)).
Proof.
  unfold GoSort.float64Less, GoFloat.lt.
  rewrite orb_true_iff, andb_true_iff, negb_true_iff, ltb_rank,
    isNaN_rank, notNaN_rank.
  destruct (GoFloat.rank x) as [[[a1 a2] a3]|] eqn:Rx,
           (GoFloat.rank y) as [[[b1 b2] b3]|] eqn:Ry; simpl.
  - split.
    + intros [(a & b & [= <-] & [= <-] & H)|[[=] _]]. exact H.
    + intros H. left. eauto 6.
  - apply rank_class in Rx. split.
    + intros [(a & b & _ & [=] & _)|[[=] _]].
    + lia.
  - apply rank_class in Ry. split; [lia|]. intros _. right. eauto.
  - split.
    + intros [(a & b & [=] & _)|[_ [a [=]]]].
    + lia.
Qed.

Lemma float64Less_asym x y :
  GoSort.float64Less x y = true -> GoSort.float64Less y x = false.
Proof.
  intros H%float64Less_lex.
  destruct (GoSort.float64Less y x) eqn:E; [|reflexivity].
  apply float64Less_lex in E. exfalso.
  eapply lexlt_irrefl, lexlt_trans; eauto.
Qed.

Lemma float64Less_false x y :
  GoSort.float64Less y x = false <->
  GoFloat.lexle (default (-3, 0, 0) (GoFloat.rank x))
                (default (-3, 0, 0) (GoFloat.rank y)).
Proof.
  pose proof (float64Less_lex y x) as H.
  set (a := default (-3, 0, 0) (GoFloat.rank x)) in *.
  set (b := default (-3, 0, 0) (GoFloat.rank y)) in *.
  unfold GoFloat.lexle. split.
  - intros E. destruct (lexlt_total a b) as [?|[?|Hlt]]; auto.
    apply H in Hlt. congruence.
  - intros Hle. destruct (GoSort.float64Less y x); [|reflexivity].
    exfalso. destruct H as [H _]. specialize (H eq_refl).
    destruct Hle as [Hlt| ->].
    + eapply lexlt_irrefl, lexlt_trans; eauto.
    + eapply lexlt_irrefl; eauto.
Qed.

Lemma Float64s_ascending l : Spec.ascending (GoSort.Float64s l).
Proof.
  unfold Spec.ascending, GoSort.Float64s.
  apply (insertionSort_sorted GoSort.float64Less (fun _ => True)).
  - intros x y _ _. apply float64Less_asym.
  - intros x y z _ _ _ Hxy%float64Less_false Hyz%float64Less_false.
    apply float64Less_false. eapply lexle_trans; eauto.
  - apply List.Forall_forall. auto.
Qed.

Lemma Float64s_perm l : GoSort.Float64s l ≡ₚ l.
Proof. apply insertionSort_perm. Qed.

Lemma float64Less_false_lt x y :
  GoSort.float64Less y x = false -> GoFloat.lt y x = false.
Proof.
  unfold GoSort.float64Less. now intros [H _]%orb_false_iff.
Qed.

(** The head of an ascending list has nothing below it. *)
Lemma ascending_head l x :
  Spec.ascending l -> head l = Some x ->
  forall y, In y l -> GoFloat.lt y x = false.
Proof.
  intros Hs Hx y Hy. destruct l as [|x' l]; [discriminate|].
  injection Hx as ->. apply StronglySorted_inv in Hs as [_ Hall].
  destruct Hy as [<-|Hy].
  - apply ltb_irrefl.
  - rewrite List.Forall_forall in Hall. now apply float64Less_false_lt, Hall.
Qed.

(** ** The loop of [GetStatistics] *)

Lemma bucketOf_range archInt score : 0 <= bucketOf archInt score <= 10.
Proof.
  unfold bucketOf.
  destruct (Z.ltb_spec 10 (GoFloat.toInt archInt score)).
  - destruct (Z.ltb_spec 10 0); lia.
  - destruct (Z.ltb_spec (GoFloat.toInt archInt score) 0); lia.
Qed.

Lemma histIncr_Some h b :
  length h = 11%nat -> 0 <= b <= 10 ->
  exists n, h !! Z.to_nat b = Some n
            /\ histIncr h b = Some (<[ Z.to_nat b := n + 1 ]> h).
Proof.
  intros Hlen Hb. unfold histIncr, GoSlice.index.
  destruct (Z.ltb_spec b 0); [lia|].
  destruct (lookup_lt_is_Some_2 h (Z.to_nat b)) as [n Hn]; [lia|].
  exists n. now rewrite Hn.
Qed.

Lemma sumZ_insert h i n :
  h !! i = Some n -> Spec.sumZ (<[ i := n + 1 ]> h) = Spec.sumZ h + 1.
Proof.
  revert i. induction h as [|x h IH]; intros [|i]; simpl; try discriminate.
  - intros [= ->]. lia.
  - intros H. rewrite (IH _ H). lia.
Qed.

Lemma countIf_cons {X} (p : X -> bool) x l :
  Spec.countIf p (x :: l) = (if p x then 1 else 0) + Spec.countIf p l.
Proof. unfold Spec.countIf. simpl. destruct (p x); simpl; lia. Qed.

Section StatsLoop.
Variable archInt : float -> Z.

Local Abbreviation bucketIs k :=
  (fun h : HostEntry.t => bucketOf archInt (HostEntry.Score h) =? Z.of_nat k).
Local Abbreviation vulnerable :=
  (fun h : HostEntry.t => GoFloat.gt (HostEntry.Score h) PrimFloat.zero).

(** What the loop over the hosts leaves in its state. *)
Lemma statsHosts_spec hs : forall st,
  length (Statistics.Histogram (l_stats st)) = 11%nat ->
  exists st',
    statsHosts archInt st hs = Some st'
    /\ l_scores st' = l_scores st ++ map HostEntry.Score hs
    /\ l_totalScore st'
       = fold_left PrimFloat.add (map HostEntry.Score hs) (l_totalScore st)
    /\ Statistics.VulnerableHosts (l_stats st')
       = Statistics.VulnerableHosts (l_stats st) + Spec.countIf vulnerable hs
    /\ length (Statistics.Histogram (l_stats st')) = 11%nat
    /\ Spec.sumZ (Statistics.Histogram (l_stats st'))
       = Spec.sumZ (Statistics.Histogram (l_stats st)) + GoSlice.len hs
    /\ (forall k n, Statistics.Histogram (l_stats st) !! k = Some n ->
          Statistics.Histogram (l_stats st') !! k
          = Some (n + Spec.countIf (bucketIs k) hs))
    /\ Statistics.TotalHosts (l_stats st') = Statistics.TotalHosts (l_stats st)
    /\ Statistics.AvgCVSS (l_stats st') = Statistics.AvgCVSS (l_stats st)
    /\ Statistics.MinCVSS (l_stats st') = Statistics.MinCVSS (l_stats st)
    /\ Statistics.MedianCVSS (l_stats st')
       = Statistics.MedianCVSS (l_stats st).
Proof.
  induction hs as [|h hs IH]; intros st Hlen.
  - exists st. simpl. rewrite app_nil_r. unfold GoSlice.len. simpl.
    unfold Spec.countIf. simpl.
    repeat split; try lia; auto.
    intros k n ->. f_equal. lia.
  - simpl. unfold statsHost.
    set (score := HostEntry.Score h).
    set (stats1 := if GoFloat.gt score PrimFloat.zero then _ else _).
    set (stats2 := if GoFloat.gt score (Statistics.MaxCVSS stats1)
                   then _ else _).
    assert (Hh2 : Statistics.Histogram stats2
                  = Statistics.Histogram (l_stats st)).
    { unfold stats2, stats1.
      destruct (GoFloat.gt score (Statistics.MaxCVSS _));
        destruct (GoFloat.gt score PrimFloat.zero); reflexivity. }
    destruct (histIncr_Some (Statistics.Histogram stats2)
                (bucketOf archInt score)) as (n & Hn & ->);
      [now rewrite Hh2 | apply bucketOf_range |].
    simpl.
    destruct (IH (mkLoop (Statistics.setHistogram
                            (<[Z.to_nat (bucketOf archInt score) := n + 1]>
                               (Statistics.Histogram stats2)) stats2)
                         (PrimFloat.add (l_totalScore st) score)
                         (l_scores st ++ [score])))
      as (st' & Hrun & Hsc & Htot & Hvul & Hlen' & Hsum & Hk & Hth & Ha & Hm
          & Hmed).
    { simpl. now rewrite length_insert, Hh2. }
    exists st'. simpl in *. rewrite Hrun.
    split; [reflexivity|].
    split; [now rewrite Hsc, <- app_assoc|].
    split; [exact Htot|].
    assert (Hfields :
      Statistics.VulnerableHosts stats2
      = Statistics.VulnerableHosts (l_stats st)
        + (if GoFloat.gt score PrimFloat.zero then 1 else 0)
      /\ Statistics.TotalHosts stats2 = Statistics.TotalHosts (l_stats st)
      /\ Statistics.AvgCVSS stats2 = Statistics.AvgCVSS (l_stats st)
      /\ Statistics.MinCVSS stats2 = Statistics.MinCVSS (l_stats st)
      /\ Statistics.MedianCVSS stats2 = Statistics.MedianCVSS (l_stats st)).
    { unfold stats2, stats1.
      destruct (GoFloat.gt score (Statistics.MaxCVSS _));
        destruct (GoFloat.gt score PrimFloat.zero); simpl;
        repeat split; lia. }
    destruct Hfields as (Fv & Ft & Fa & Fm & Fmed).
    split; [rewrite Hvul, Fv, countIf_cons; fold score; lia|].
    split; [exact Hlen'|].
    split.
    { rewrite Hsum, (sumZ_insert _ _ _ Hn), Hh2.
      unfold GoSlice.len. simpl length. lia. }
    split.
    { intros k n0 Hk0. rewrite countIf_cons. fold score.
      rewrite <- Hh2 in Hk0.
      destruct (Z.eqb_spec (bucketOf archInt score) (Z.of_nat k)) as [Heq|Hne].
      - assert (Z.to_nat (bucketOf archInt score) = k) as Hk' by lia.
        rewrite Hk' in *. rewrite Hk0 in Hn. injection Hn as <-.
        rewrite (Hk k (n0 + 1)).
        + f_equal. lia.
        + apply list_lookup_insert_eq. now apply lookup_lt_Some in Hk0.
      - rewrite (Hk k n0); [f_equal; lia|].
        rewrite list_lookup_insert_ne; [exact Hk0|].
        pose proof (bucketOf_range archInt score). lia. }
    rewrite Hth, Ha, Hm, Hmed. auto.
Qed.
End StatsLoop.

Lemma index_Some {A} (l : list A) i :
  0 <= i < GoSlice.len l ->
  exists x, l !! Z.to_nat i = Some x /\ GoSlice.index l i = Some x.
Proof.
  unfold GoSlice.len, GoSlice.index. intros Hi.
  destruct (Z.ltb_spec i 0); [lia|].
  destruct (lookup_lt_is_Some_2 l (Z.to_nat i)) as [x Hx]; [lia|]. eauto.
Qed.

Lemma quot2_nat n : Z.to_nat (Z.quot (Z.of_nat n) 2) = (n / 2)%nat.
Proof.
  rewrite Z.quot_div_nonneg by lia.
  change 2 with (Z.of_nat 2). now rewrite <- Nat2Z.inj_div, Nat2Z.id.
Qed.

Lemma rem2_even n : (Z.rem (Z.of_nat n) 2 =? 0) = Nat.even n.
Proof.
  rewrite Z.rem_mod_nonneg by lia.
  change 2 with (Z.of_nat 2). rewrite <- Nat2Z.inj_mod.
  destruct (Nat.even n) eqn:E.
  - apply Nat.even_spec in E as [k ->].
    rewrite Nat.mul_comm, Nat.Div0.mod_mul. reflexivity.
  - apply (f_equal negb) in E. rewrite Nat.negb_even in E. simpl in E.
    apply Nat.odd_spec in E as [k ->].
    rewrite Nat.add_comm, Nat.mul_comm, Nat.Div0.mod_add. reflexivity.
Qed.

Section GetStatisticsFacts.
Variable archInt : float -> Z.

Local Abbreviation bucketIs k :=
  (fun h : HostEntry.t => bucketOf archInt (HostEntry.Score h) =? Z.of_nat k).
Local Abbreviation vulnerable :=
  (fun h : HostEntry.t => GoFloat.gt (HostEntry.Score h) PrimFloat.zero).

Lemma GetStatistics_empty pkgs buls :
  GetStatistics archInt (mkAggregator [] pkgs buls)
  = Some (Statistics.setTotalCVEs (Z.of_nat (size (cveSet buls)))
            (Statistics.zero 0 (Z.of_nat (size pkgs))
               (Z.of_nat (size buls)))).
Proof. reflexivity. Qed.

Lemma GetStatistics_nonempty a :
  hosts a <> [] ->
  let hs := hosts a in
  let n := length hs in
  let sorted := GoSort.Float64s (map HostEntry.Score hs) in
  exists stats,
    GetStatistics archInt a = Some stats
    /\ head sorted = Some (Statistics.MinCVSS stats)
    /\ Statistics.AvgCVSS stats
       = PrimFloat.div
           (fold_left PrimFloat.add (map HostEntry.Score hs) PrimFloat.zero)
           (GoFloat.ofInt (GoSlice.len hs))
    /\ (Nat.even n = true ->
        exists lo hi,
          sorted !! (n / 2 - 1)%nat = Some lo
          /\ sorted !! (n / 2)%nat = Some hi
          /\ Statistics.MedianCVSS stats
             = PrimFloat.div (PrimFloat.add lo hi) PrimFloat.two)
    /\ (Nat.even n = false ->
        sorted !! (n / 2)%nat = Some (Statistics.MedianCVSS stats))
    /\ Statistics.VulnerableHosts stats = Spec.countIf vulnerable hs
    /\ Statistics.TotalHosts stats = GoSlice.len hs
    /\ length (Statistics.Histogram stats) = 11%nat
    /\ Spec.sumZ (Statistics.Histogram stats) = GoSlice.len hs
    /\ (forall k, (k < 11)%nat ->
          Statistics.Histogram stats !! k
          = Some (Spec.countIf (bucketIs k) hs)).
Proof.
  intros Hne hs n sorted. unfold GetStatistics. fold hs.
  destruct (statsHosts_spec archInt hs
              (mkLoop (Statistics.zero (GoSlice.len hs)
                         (Z.of_nat (size (packages a)))
                         (Z.of_nat (size (bulletins a))))
                      PrimFloat.zero []))
    as (st & -> & Hsc & Htot & Hvul & Hlen & Hsum & Hk & Hth & _);
    [reflexivity|].
  simpl in *. rewrite Hsc, Htot. fold sorted.
  assert (Hn : (0 < n)%nat).
  { unfold n, hs. destruct (hosts a); [congruence | simpl; lia]. }
  assert (Hls : GoSlice.len (map HostEntry.Score hs) = Z.of_nat n).
  { unfold GoSlice.len. now rewrite length_map. }
  assert (Hlsorted : GoSlice.len sorted = Z.of_nat n).
  { unfold GoSlice.len, sorted.
    now rewrite (Permutation_length (Float64s_perm _)), length_map. }
  rewrite Hls. destruct (Z.ltb_spec 0 (Z.of_nat n)); [|lia].
  destruct (index_Some sorted 0) as (s0 & Hs0 & ->); [lia|]. simpl.
  assert (Hhead : head sorted = Some s0).
  { destruct sorted; [discriminate | exact Hs0]. }
  rewrite Hlsorted, rem2_even.
  assert (Hhist : forall k, (k < 11)%nat ->
            Statistics.Histogram (l_stats st) !! k
            = Some (Spec.countIf (bucketIs k) hs)).
  { intros k Hk11. rewrite (Hk k 0); [reflexivity|].
    do 11 (destruct k as [|k]; [reflexivity|]). lia. }
  assert (Hhalf : (n / 2 < n)%nat) by (apply Nat.div_lt; lia).
  destruct (Nat.even n) eqn:Heven.
  - assert (Hpos : (1 <= n / 2)%nat).
    { apply Nat.even_spec in Heven as [k Hk2]. rewrite Hk2 in *.
      rewrite Nat.mul_comm, Nat.div_mul by lia. lia. }
    destruct (index_Some sorted (Z.quot (Z.of_nat n) 2 - 1))
      as (lo & Hlo & ->).
    { pose proof (quot2_nat n). rewrite Hlsorted.
      assert (0 <= Z.quot (Z.of_nat n) 2) by (apply Z.quot_pos; lia). lia. }
    destruct (index_Some sorted (Z.quot (Z.of_nat n) 2))
      as (hi & Hhi & ->).
    { pose proof (quot2_nat n). rewrite Hlsorted.
      assert (0 <= Z.quot (Z.of_nat n) 2) by (apply Z.quot_pos; lia). lia. }
    rewrite quot2_nat in Hhi.
    replace (Z.to_nat (Z.quot (Z.of_nat n) 2 - 1)) with (n / 2 - 1)%nat
      in Hlo by (pose proof (quot2_nat n); lia).
    eexists. split; [reflexivity|]. cbn -[Nat.div Nat.sub].
    split; [exact Hhead|]. split; [reflexivity|].
    split; [intros _; exists lo, hi; auto|].
    split; [discriminate|].
    split; [exact Hvul|]. split; [exact Hth|]. split; [exact Hlen|].
    split; [exact Hsum | exact Hhist].
  - destruct (index_Some sorted (Z.quot (Z.of_nat n) 2))
      as (m & Hm & ->).
    { pose proof (quot2_nat n). rewrite Hlsorted.
      assert (0 <= Z.quot (Z.of_nat n) 2) by (apply Z.quot_pos; lia). lia. }
    rewrite quot2_nat in Hm.
    eexists. split; [reflexivity|]. cbn -[Nat.div Nat.sub].
    split; [exact Hhead|]. split; [reflexivity|].
    split; [discriminate|].
    split; [intros _; exact Hm|].
    split; [exact Hvul|]. split; [exact Hth|]. split; [exact Hlen|].
    split; [exact Hsum | exact Hhist].
Qed.
End GetStatisticsFacts.

(** C3: on a non-empty sequence of hosts, [GetStatistics] returns the
    minimum, the median and the average of the scores of all the hosts
    added, those of score 0 included: the minimum is the head of the sorted
    list of all the scores, the median its middle element, or the mean of
    its two middle elements when the number of hosts is even, the average
    the sum of all the scores over their number; [VulnerableHosts] counts
    the hosts of strictly positive score. *)
Theorem GetStatistics_over_all_hosts archInt (entries : list HostEntry.t) :
  entries <> [] ->
  let n := length entries in
  let scores := map HostEntry.Score entries in
  exists stats sorted,
    GetStatistics archInt (addAll NewAggregator entries) = Some stats
    /\ sorted ≡ₚ scores
    /\ Spec.ascending sorted
    /\ head sorted = Some (Statistics.MinCVSS stats)
    /\ (forall s, In s scores ->
        GoFloat.lt s (Statistics.MinCVSS stats) = false)
    /\ Statistics.AvgCVSS stats
       = PrimFloat.div (fold_left PrimFloat.add scores PrimFloat.zero)
                       (GoFloat.ofInt (Z.of_nat n))
    /\ Statistics.VulnerableHosts stats
       = Spec.countIf
           (fun h => GoFloat.gt (HostEntry.Score h) PrimFloat.zero) entries
    /\ (Nat.even n = true ->
        exists lo hi,
          sorted !! (n / 2 - 1)%nat = Some lo
          /\ sorted !! (n / 2)%nat = Some hi
          /\ Statistics.MedianCVSS stats
             = PrimFloat.div (PrimFloat.add lo hi) PrimFloat.two)
    /\ (Nat.even n = false ->
        sorted !! (n / 2)%nat = Some (Statistics.MedianCVSS stats)).
Proof.
  intros Hne n scores.
  assert (Hh : hosts (addAll NewAggregator entries) = entries)
    by apply addAll_hosts.
  destruct (GetStatistics_nonempty archInt (addAll NewAggregator entries))
    as (stats & Hrun & Hmin & Havg & Heven & Hodd & Hvul & _);
    [now rewrite Hh|].
  rewrite Hh in *. fold n scores in Hmin, Havg, Heven, Hodd.
  exists stats, (GoSort.Float64s scores).
  split; [exact Hrun|]. split; [apply Float64s_perm|].
  split; [apply Float64s_ascending|]. split; [exact Hmin|].
  split.
  { intros s Hs.
    apply (ascending_head (GoSort.Float64s scores));
      [apply Float64s_ascending | exact Hmin |].
    eapply Permutation_in; [symmetry; apply Float64s_perm | exact Hs]. }
  auto.
Qed.

Lemma GetStatistics_over_all_hosts_witness :
  exists stats sorted,
    GetStatistics Examples.amd64 (addAll NewAggregator Examples.fleet)
    = Some stats
    /\ sorted ≡ₚ map HostEntry.Score Examples.fleet
    /\ head sorted = Some (Statistics.MinCVSS stats)
    /\ Statistics.VulnerableHosts stats = 3.
Proof.
  destruct (GetStatistics_over_all_hosts Examples.amd64 Examples.fleet)
    as (stats & sorted & H1 & H2 & _ & H4 & _ & _ & H7 & _);
    [discriminate|].
  exists stats, sorted. repeat split; auto.
Defined.

(** ** The histogram *)

Lemma bucketOf_clamp archInt score :
  bucketOf archInt score = Spec.clamp 0 10 (GoFloat.toInt archInt score).
Proof.
  unfold bucketOf, Spec.clamp.
  destruct (Z.ltb_spec 10 (GoFloat.toInt archInt score)).
  - destruct (Z.ltb_spec 10 0); lia.
  - destruct (Z.ltb_spec (GoFloat.toInt archInt score) 0); lia.
Qed.

(** Rounding toward zero and rounding down differ on negative values
    only, which all land in bucket 0. *)
Lemma clamp_quot_div a d :
  0 < d -> Spec.clamp 0 10 (Z.quot a d) = Spec.clamp 0 10 (Z.div a d).
Proof.
  intros Hd. unfold Spec.clamp.
  destruct (Z.le_gt_cases 0 a) as [Ha|Ha].
  - now rewrite Z.quot_div_nonneg by lia.
  - assert (Z.quot a d <= 0).
    { replace a with (- (- a)) by lia. rewrite Z.quot_opp_l by lia.
      assert (0 <= Z.quot (- a) d) by (apply Z.quot_pos; lia). lia. }
    assert (a / d < 0) by (apply Z.div_lt_upper_bound; lia).
    lia.
Qed.

Lemma bucketOf_floor archInt score :
  GoFloat.convertible score = true ->
  exists f, GoFloat.floor score = Some f
            /\ bucketOf archInt score = Spec.clamp 0 10 f.
Proof.
  rewrite bucketOf_clamp.
  unfold GoFloat.convertible, GoFloat.toInt, GoFloat.trunc, GoFloat.floor.
  destruct (Prim2SF score) as [s|s| |s m e]; simpl; try discriminate.
  - intros _. exists 0. auto.
  - intros ->. destruct (Z.leb_spec 0 e); [eauto|].
    eexists. split; [reflexivity|].
    apply clamp_quot_div. apply Z.pow_pos_nonneg; lia.
Qed.

(** C4, amended: [GetStatistics] puts every host in exactly one of the
    eleven buckets: bucket [k] counts the hosts whose bucket index is
    [k], and the index lies in 0..10, so the buckets sum to [TotalHosts],
    the number of hosts added.  The index is the conversion [int(score)]
    clamped into [0,10]; for a finite score whose integer part fits [int]
    that is the floor of the score clamped into [0,10], the bucket
    specified. *)
Theorem histogram_total archInt (entries : list HostEntry.t) :
  exists stats,
    GetStatistics archInt (addAll NewAggregator entries) = Some stats
    /\ Statistics.TotalHosts stats = GoSlice.len entries
    /\ length (Statistics.Histogram stats) = 11%nat
    /\ (forall k, (k < 11)%nat ->
        Statistics.Histogram stats !! k
        = Some (Spec.countIf
                  (fun h => bucketOf archInt (HostEntry.Score h)
                            =? Z.of_nat k) entries))
    /\ Spec.sumZ (Statistics.Histogram stats) = Statistics.TotalHosts stats
    /\ (forall score, 0 <= bucketOf archInt score <= 10)
    /\ (forall score,
        GoFloat.convertible score = true ->
        exists f, GoFloat.floor score = Some f
                  /\ bucketOf archInt score = Spec.clamp 0 10 f)
    /\ (forall score,
        GoFloat.convertible score = true ->
        Spec.claimedBucket score = Some (bucketOf archInt score))
    /\ (forall score,
        bucketOf archInt score
        = Spec.clamp 0 10 (GoFloat.toInt archInt score)).
Proof.
  assert (Hh : hosts (addAll NewAggregator entries) = entries)
    by apply addAll_hosts.
  assert (Hcl : forall score,
             GoFloat.convertible score = true ->
             Spec.claimedBucket score = Some (bucketOf archInt score)).
  { intros score Hc.
    destruct (bucketOf_floor archInt score Hc) as (f & Hf & ->).
    unfold Spec.claimedBucket. now rewrite Hf. }
  destruct entries as [|e es].
  - eexists. split; [apply GetStatistics_empty|]. simpl.
    split; [reflexivity|]. split; [reflexivity|].
    split; [|split; [reflexivity|split;
                       [apply bucketOf_range |
                        split; [apply bucketOf_floor |
                                split; [exact Hcl | apply bucketOf_clamp]]]]].
    intros k Hk. do 11 (destruct k as [|k]; [reflexivity|]). lia.
  - destruct (GetStatistics_nonempty archInt
                (addAll NewAggregator (e :: es)))
      as (stats & Hrun & _ & _ & _ & _ & _ & Hth & Hlen & Hsum & Hk);
      [now rewrite Hh|].
    rewrite Hh in *. exists stats.
    split; [exact Hrun|]. split; [exact Hth|]. split; [exact Hlen|].
    split; [exact Hk|]. split; [now rewrite Hsum, Hth|].
    split; [apply bucketOf_range|]. split; [apply bucketOf_floor|].
    split; [exact Hcl | apply bucketOf_clamp].
Qed.

Lemma histogram_total_witness :
  exists f, GoFloat.floor 7.5 = Some f
            /\ bucketOf Examples.amd64 7.5 = Spec.clamp 0 10 f.
Proof.
  destruct (histogram_total Examples.amd64 Examples.fleet)
    as (stats & _ & _ & _ & _ & _ & _ & H & _).
  apply H. reflexivity.
Defined.

(** Counterexample to C4 as specified: the score 10^19 is a finite
    number, its integer floor is 10^19 and that clamped into [0,10] is
    10; but 10^19 does not fit [int], the conversion of amd64 yields the
    smallest [int], and [GetStatistics] counts the host in bucket 0.
    And a host whose score is NaN, which has no integer floor at all, is
    counted in a bucket all the same. *)
Lemma histogram_bucket_beyond_int :
  GoFloat.floor 1e19 = Some (10 ^ 19)
  /\ Spec.claimedBucket (HostEntry.Score Examples.huge) = Some 10
  /\ bucketOf Examples.amd64 (HostEntry.Score Examples.huge) = 0
  /\ option_map Statistics.Histogram
       (GetStatistics Examples.amd64 (AddHost NewAggregator Examples.huge))
     = Some [1; 0; 0; 0; 0; 0; 0; 0; 0; 0; 0]
  /\ Spec.claimedBucket PrimFloat.nan = None
  /\ option_map Statistics.Histogram
       (GetStatistics Examples.amd64
          (AddHost NewAggregator
             (Examples.host "6" "Unscored" PrimFloat.nan [] [])))
     = Some [1; 0; 0; 0; 0; 0; 0; 0; 0; 0; 0].
Proof. repeat split. Qed.

(** C9: on an aggregator without hosts (fresh, or just reset)
    [GetStatistics] returns a record whose minimum, median, average and
    maximum are 0 and whose buckets are all 0; and on every aggregator it
    returns a record: no index is out of range. *)
Theorem GetStatistics_empty_safe archInt :
  let zeroed (o : option Statistics.t) :=
    exists stats,
      o = Some stats
      /\ Statistics.MinCVSS stats = PrimFloat.zero
      /\ Statistics.MedianCVSS stats = PrimFloat.zero
      /\ Statistics.AvgCVSS stats = PrimFloat.zero
      /\ Statistics.MaxCVSS stats = PrimFloat.zero
      /\ Statistics.Histogram stats = replicate 11 0 in
  zeroed (GetStatistics archInt NewAggregator)
  /\ (forall a, zeroed (GetStatistics archInt (Reset a)))
  /\ (forall pkgs buls,
      zeroed (GetStatistics archInt (mkAggregator [] pkgs buls)))
  /\ (forall a, exists stats, GetStatistics archInt a = Some stats).
Proof.
  intros zeroed.
  assert (Hz : forall pkgs buls,
             zeroed (GetStatistics archInt (mkAggregator [] pkgs buls))).
  { intros pkgs buls. eexists. split; [apply GetStatistics_empty|].
    repeat split. }
  split; [apply Hz|]. split; [intros a; apply Hz|]. split; [exact Hz|].
  intros [hs pkgs buls]. destruct hs as [|h hs].
  - destruct (Hz pkgs buls) as (stats & H & _). eauto.
  - destruct (GetStatistics_nonempty archInt (mkAggregator (h :: hs) pkgs buls))
      as (stats & H & _); [discriminate | eauto].
Qed.

(** ** [strings.Fields] *)

Lemma list_ascii_of_string_app s1 s2 :
  String.list_ascii_of_string (s1 +:+ s2)
  = String.list_ascii_of_string s1 ++ String.list_ascii_of_string s2.
Proof.
  induction s1 as [|c s1 IH]; simpl; [reflexivity|]. now rewrite IH.
Qed.

(** A piece that is not white space is one byte outside [asciiSpace]. *)
Lemma runes_nonspace s :
  Forall (fun r => fst r = false ->
                   exists c, snd r = String c EmptyString
                             /\ GoStrings.asciiSpace c = false)
         (GoStrings.runes s).
Proof.
  remember (String.length s) as n eqn:Hn.
  revert s Hn. induction n as [n IH] using lt_wf_ind. intros s Hn.
  assert (Hrec : forall s', (String.length s' < n)%nat ->
            Forall (fun r => fst r = false ->
                             exists c, snd r = String c EmptyString
                                       /\ GoStrings.asciiSpace c = false)
                   (GoStrings.runes s')) by eauto.
  destruct s as [|c r]; simpl; [constructor|]. simpl in Hn.
  destruct (GoStrings.asciiSpace c) eqn:Ec.
  { constructor; [discriminate | apply Hrec; lia]. }
  assert (Hbyte : Forall (fun r => fst r = false ->
                    exists c, snd r = String c EmptyString
                              /\ GoStrings.asciiSpace c = false)
                    ((false, String c EmptyString) :: GoStrings.runes r)).
  { constructor; [eauto | apply Hrec; lia]. }
  destruct r as [|d r1]; [exact Hbyte|].
  destruct (GoStrings.space2 c d).
  { constructor; [discriminate | apply Hrec; simpl in *; lia]. }
  destruct r1 as [|e r2]; [exact Hbyte|].
  destruct (GoStrings.space3 c d e); [|exact Hbyte].
  constructor; [discriminate | apply Hrec; simpl in *; lia].
Qed.

Lemma fieldsOf_fields rs : forall cur,
  Forall (fun r => fst r = false ->
                   exists c, snd r = String c EmptyString
                             /\ GoStrings.asciiSpace c = false) rs ->
  (forall f, cur = Some f -> f <> EmptyString /\ Spec.noAsciiSpace f) ->
  Forall (fun f => f <> EmptyString /\ Spec.noAsciiSpace f)
         (GoStrings.fieldsOf cur rs).
Proof.
  induction rs as [|[sp b] rs IH]; intros cur Hrs Hcur; simpl.
  - destruct cur as [f|]; [|constructor]. repeat constructor; now apply Hcur.
  - apply List.Forall_cons_iff in Hrs as [Hb Hrs]. destruct sp.
    + destruct cur as [f|].
      * constructor; [now apply Hcur|]. apply IH; [exact Hrs | discriminate].
      * apply IH; [exact Hrs | discriminate].
    + destruct (Hb eq_refl) as (c & Hc & Hsp). simpl in Hc. subst b.
      apply IH; [exact Hrs|]. intros f [= <-].
      destruct cur as [f|].
      * destruct (Hcur f eq_refl) as [Hne Hns]. split.
        -- destruct f; [congruence | discriminate].
        -- unfold Spec.noAsciiSpace in *.
           rewrite list_ascii_of_string_app. apply List.Forall_app.
           split; [exact Hns | repeat constructor; exact Hsp].
      * split; [discriminate|]. repeat constructor. exact Hsp.
Qed.

Lemma Fields_fields s :
  Forall (fun f => f <> EmptyString /\ Spec.noAsciiSpace f)
         (GoStrings.Fields s).
Proof.
  apply fieldsOf_fields; [apply runes_nonspace | discriminate].
Qed.

(** C10: [ParsePackageString] splits the line into its fields at white
    space (each field is non-empty and holds no white space): three fields
    are the name, the version and the architecture, two the name and the
    version, one the name, and for four fields or more the result is the
    whole line as the name, with empty version and architecture. *)
Theorem ParsePackageString_cases (pkg : string) :
  let parts := GoStrings.Fields pkg in
  Forall (fun f => f <> EmptyString /\ Spec.noAsciiSpace f) parts
  /\ (forall name version arch,
      parts = [name; version; arch] ->
      ParsePackageString pkg = (name, version, arch))
  /\ (forall name version,
      parts = [name; version] ->
      ParsePackageString pkg = (name, version, EmptyString))
  /\ (forall name,
      parts = [name] ->
      ParsePackageString pkg = (name, EmptyString, EmptyString))
  /\ ((4 <= length parts)%nat ->
      ParsePackageString pkg = (pkg, EmptyString, EmptyString)).
Proof.
  intros parts. split; [apply Fields_fields|].
  unfold ParsePackageString. fold parts.
  repeat split.
  - now intros name version arch ->.
  - now intros name version ->.
  - now intros name ->.
  - destruct parts as [|p0 [|p1 [|p2 [|p3 rest]]]]; simpl; try lia.
    reflexivity.
Qed.

Lemma ParsePackageString_cases_witness :
  ParsePackageString "nginx 1.18.0 amd64" = ("nginx", "1.18.0", "amd64")
  /\ ParsePackageString "openssl 1.1.1k" = ("openssl", "1.1.1k", "")
  /\ ParsePackageString "bash" = ("bash", "", "")
  /\ ParsePackageString "linux image 5.4 amd64"
     = ("linux image 5.4 amd64", "", "").
Proof.
  split; [|split; [|split]].
  - apply (proj1 (proj2 (ParsePackageString_cases "nginx 1.18.0 amd64"))).
    reflexivity.
  - apply (proj1 (proj2 (proj2 (ParsePackageString_cases "openssl 1.1.1k")))).
    reflexivity.
  - apply (proj1 (proj2 (proj2 (proj2 (ParsePackageString_cases "bash"))))).
    reflexivity.
  - apply (proj2 (proj2 (proj2 (proj2
             (ParsePackageString_cases "linux image 5.4 amd64"))))).
    simpl. lia.
Defined.

(** ** Eligibility of hosts *)

Lemma forallb_negb_existsb {A} (p : A -> bool) l :
  forallb (fun x => negb (p x)) l = negb (existsb p l).
Proof.
  induction l as [|x l IH]; simpl; [reflexivity|].
  rewrite IH. now destruct (p x).
Qed.

(** [validateHostData] gives no reason exactly on the hosts that pass the
    three rules. *)
Lemma validateHostData_spec osVersion packages :
  String.eqb (validateHostData osVersion packages) ""
  = negb (String.eqb osVersion "0.0") && (5 <? GoSlice.len packages)
    && forallb (fun line => negb (GoStrings.Contains line "report.py"))
         packages.
Proof.
  unfold validateHostData. rewrite forallb_negb_existsb.
  destruct (String.eqb osVersion "0.0"); [reflexivity|].
  destruct (Z.leb_spec (GoSlice.len packages) 5) as [Hle|Hgt].
  - destruct (Z.ltb_spec 5 (GoSlice.len packages)); [lia | reflexivity].
  - destruct (Z.ltb_spec 5 (GoSlice.len packages)); [|lia].
    now destruct (existsb _ packages).
Qed.

(** C5: when the monitor answers the two item queries, a host is fetched
    if and only if it is eligible (its OS name is not empty, its extracted
    OS version is not "0.0", it has more than 5 package lines and none
    contains "report.py"); a host that is not eligible is left out of the
    result, without an error. *)
Theorem fetchHostData_eligibility
    (unicodeToLower : string -> string)
    (GetHostItemsCtx : string -> string -> error + list zabbix.Item.t)
    (GetHostsWithTemplateCtx : string -> error + list zabbix.Host.t)
    (host : zabbix.Host.t) (osItems pkgItems : list zabbix.Item.t) :
  GetHostItemsCtx (zabbix.Host.HostID host) "system.sw.os" = inr osItems ->
  GetHostItemsCtx (zabbix.Host.HostID host) "system.sw.packages"
  = inr pkgItems ->
  let os :=
    match firstValue osItems with
    | Some value => parseOSInfo unicodeToLower value
    | None => (EmptyString, EmptyString)
    end in
  let osName := fst os in
  let osVersion := ExtractOSVersion (snd os) in
  let packages :=
    match firstValue pkgItems with
    | Some value => parsePackageList value
    | None => []
    end in
  let data :=
    HostData.mk host (NormalizeOSName unicodeToLower osName) osVersion
      packages in
  fetchHostData unicodeToLower GetHostItemsCtx host
  = inr (if Spec.eligible osName osVersion packages then Some data else None)
  /\ (forall template,
      GetHostsWithTemplateCtx template = inr [host] ->
      FetchHosts unicodeToLower GetHostItemsCtx GetHostsWithTemplateCtx
        template [] 0
      = inr (if Spec.eligible osName osVersion packages
             then [data] else [])).
Proof.
  intros Hos Hpk os osName osVersion packages data.
  assert (Hfetch :
    fetchHostData unicodeToLower GetHostItemsCtx host
    = inr (if Spec.eligible osName osVersion packages
           then Some data else None)).
  { unfold fetchHostData. rewrite Hos. fold os.
    destruct os as [name version] eqn:Eos. unfold Spec.eligible.
    subst osName osVersion data. simpl fst; simpl snd.
    destruct (String.eqb name "") eqn:Ename; [reflexivity|].
    rewrite Hpk. fold packages. simpl negb. rewrite andb_true_l.
    rewrite validateHostData_spec.
    destruct (Z.eqb_spec (GoSlice.len packages) 0) as [H0|H0].
    - destruct (Z.ltb_spec 5 (GoSlice.len packages)); [lia|].
      now rewrite andb_false_r.
    - rewrite <- andb_assoc.
      now destruct (negb _ && _). }
  split; [exact Hfetch|].
  intros template Hhosts. unfold FetchHosts. rewrite Hhosts. simpl.
  rewrite Hfetch. now destruct (Spec.eligible _ _ _).
Qed.

Lemma fetchHostData_eligibility_witness :
  let data :=
    HostData.mk Examples.monitorHost "ubuntu" "20.04.3"
      ["bash 5.0 amd64"; "curl 7.68 amd64"; "openssl 1.1.1f amd64";
       "nginx 1.18.0 amd64"; "vim 8.1 amd64"; "zlib1g 1.2.11 amd64"] in
  fetchHostData Examples.asciiOnly Examples.monitorItems Examples.monitorHost
  = inr (Some data)
  /\ FetchHosts Examples.asciiOnly Examples.monitorItems
       Examples.monitorHosts "tmpl.vulners.os-report" [] 0
     = inr [data].
Proof.
  destruct (fetchHostData_eligibility Examples.asciiOnly
              Examples.monitorItems Examples.monitorHosts
              Examples.monitorHost
              [Examples.item "system.sw.os" "";
               Examples.item "system.sw.os" "Ubuntu 20.04.3 LTS"]
              [Examples.item "system.sw.packages" Examples.sixPackages]
              eq_refl eq_refl) as [Hfetch Hall].
  split; [exact Hfetch | exact (Hall "tmpl.vulners.os-report" eq_refl)].
Defined.

(** ** Remediation commands *)

Lemma ValidatePackageName_valid name :
  fixer.ValidatePackageName name = None <-> Spec.validPackageName name = true.
Proof.
  unfold fixer.ValidatePackageName, Spec.validPackageName.
  destruct (String.eqb name ""); simpl; [split; discriminate|].
  destruct (Z.ltb_spec 256 (GoStrings.len name)),
           (Z.leb_spec (GoStrings.len name) 256); try lia; simpl;
    [split; discriminate|].
  destruct (fixer.packageNameRe name); simpl; split;
    reflexivity || discriminate.
Qed.

Lemma SanitizePackages_valid packages :
  fixer.SanitizePackages packages
  = None <-> forallb Spec.validPackageName packages = true.
Proof.
  induction packages as [|p ps IH]; simpl; [tauto|].
  rewrite andb_true_iff, <- IH, <- ValidatePackageName_valid.
  destruct (fixer.ValidatePackageName p); split;
    try discriminate; try tauto.
Qed.

Lemma quotePackages_quoted packages :
  fixer.quotePackages packages = Spec.quoted packages.
Proof. reflexivity. Qed.

Lemma generateDebian_commandFor f packages :
  f <> Spec.RHEL ->
  fixer.generateDebianFixCommand packages = Spec.commandFor f packages.
Proof.
  intros Hf. unfold fixer.generateDebianFixCommand.
  destruct f, packages; try congruence; reflexivity.
Qed.

Lemma generateRHEL_commandFor packages :
  fixer.generateRHELFixCommand packages = Spec.commandFor Spec.RHEL packages.
Proof. now destruct packages. Qed.

Lemma generateAmazon_commandFor packages :
  fixer.generateAmazonFixCommand packages
  = Spec.commandFor Spec.RHEL packages.
Proof. now destruct packages. Qed.

(** C6, as amended: the command depends on the family of the lower-cased
    OS name and on the package list; the list is discarded, and the
    full-system update of the family returned, as soon as one name is
    empty, longer than 256 bytes or not matched by the regex. *)
Theorem GenerateFixCommand_amended
    (unicodeToLower : string -> string) (osName : string)
    (packages : list string) :
  fixer.GenerateFixCommand unicodeToLower osName packages
  = Spec.amendedFixCommand (GoStrings.ToLower unicodeToLower osName)
      packages.
Proof.
  unfold fixer.GenerateFixCommand, Spec.amendedFixCommand, Spec.familyOf.
  set (lower := GoStrings.ToLower unicodeToLower osName).
  assert (Hp : match fixer.SanitizePackages packages with
               | Some _ => []
               | None => packages
               end
               = if forallb Spec.validPackageName packages
                 then packages else []).
  { pose proof (SanitizePackages_valid packages) as H.
    destruct (fixer.SanitizePackages packages),
             (forallb Spec.validPackageName packages); try reflexivity.
    - now destruct H as [_ H]; specialize (H eq_refl).
    - now destruct H as [H _]; specialize (H eq_refl). }
  rewrite Hp.
  destruct (GoStrings.Contains lower "ubuntu" || GoStrings.Contains lower "debian").
  { now apply generateDebian_commandFor. }
  destruct (GoStrings.Contains lower "centos"
            || GoStrings.Contains lower "red hat"
            || GoStrings.Contains lower "redhat"
            || GoStrings.Contains lower "rhel") eqn:Hrhel.
  { simpl. apply generateRHEL_commandFor. }
  rewrite orb_false_l.
  destruct (GoStrings.Contains lower "amazon").
  { apply generateAmazon_commandFor. }
  now apply generateDebian_commandFor.
Qed.

(** Counterexample to C6 as specified: on a name that the regex matches
    and that is longer than 256 bytes the code returns the full-system
    update. *)
Lemma GenerateFixCommand_long_name :
  forallb fixer.packageNameRe [Examples.longName] = true
  /\ fixer.GenerateFixCommand Examples.asciiOnly "Ubuntu" [Examples.longName]
     = "apt-get update && apt-get upgrade -y"
  /\ Spec.claimedFixCommand (GoStrings.ToLower Examples.asciiOnly "Ubuntu")
       [Examples.longName]
     = "apt-get update && apt-get install -y --only-upgrade '"
         +:+ Examples.longName +:+ "'"
  /\ fixer.GenerateFixCommand Examples.asciiOnly "Ubuntu" [Examples.longName]
     <> Spec.claimedFixCommand
          (GoStrings.ToLower Examples.asciiOnly "Ubuntu")
          [Examples.longName].
Proof.
  split; [vm_compute; reflexivity|].
  split; [vm_compute; reflexivity|].
  split; [vm_compute; reflexivity|].
  vm_compute. discriminate.
Qed.

(** ** Host targets *)

Lemma forallb_ext {A} (p q : A -> bool) l :
  (forall x, p x = q x) -> forallb p l = forallb q l.
Proof.
  intros H. induction l as [|x l IH]; simpl; [reflexivity|].
  now rewrite H, IH.
Qed.

Lemma isAlnum_fqdnChar c : fixer.isAlnum c = true -> fixer.fqdnChar c = true.
Proof. unfold fixer.fqdnChar. now intros ->. Qed.

Lemma len_String c s : GoStrings.len (String c s) = GoStrings.len s + 1.
Proof. unfold GoStrings.len. simpl String.length. lia. Qed.

Lemma len_nonneg s : 0 <= GoStrings.len s.
Proof. unfold GoStrings.len. lia. Qed.

(** The group of [fqdnRe] after [n] characters of the repetition: all
    characters are of the class, the last is a letter or a digit, and the
    repetition stays within its bound. *)
Lemma fqdnGroup_spec r : forall n,
  fixer.fqdnGroup r n
  = forallb fixer.fqdnChar (String.list_ascii_of_string r)
    && Spec.isAlnumOpt (Spec.lastByte r)
    && (n + GoStrings.len r - 1 <=? 251).
Proof.
  induction r as [|c r IH]; intros n; [reflexivity|].
  destruct r as [|d r'].
  - simpl. change (GoStrings.len (String c "")) with 1.
    replace (n + 1 - 1) with n by lia.
    destruct (fixer.isAlnum c) eqn:E; [|now rewrite andb_false_r].
    now rewrite (isAlnum_fqdnChar c E).
  - change (fixer.fqdnGroup (String c (String d r')) n)
      with (fixer.fqdnChar c && fixer.fqdnGroup (String d r') (n + 1)).
    rewrite IH. rewrite (len_String c).
    change (Spec.lastByte (String c (String d r')))
      with (Spec.lastByte (String d r')).
    cbn [forallb String.list_ascii_of_string].
    replace (n + 1 + GoStrings.len (String d r') - 1)
      with (n + (GoStrings.len (String d r') + 1) - 1) by lia.
    now rewrite !andb_assoc.
Qed.

Lemma fqdnRe_spec s :
  GoStrings.len s <= 253 ->
  fixer.fqdnRe s
  = forallb fixer.fqdnChar (String.list_ascii_of_string s)
    && Spec.isAlnumOpt (Spec.firstByte s)
    && Spec.isAlnumOpt (Spec.lastByte s).
Proof.
  intros Hlen. destruct s as [|c r]; [reflexivity|].
  destruct r as [|d r'].
  - simpl. destruct (fixer.isAlnum c) eqn:E; [|now rewrite andb_false_r].
    now rewrite (isAlnum_fqdnChar c E).
  - change (fixer.fqdnRe (String c (String d r')))
      with (fixer.isAlnum c && fixer.fqdnGroup (String d r') 0).
    rewrite fqdnGroup_spec. rewrite len_String in Hlen.
    destruct (Z.leb_spec (0 + GoStrings.len (String d r') - 1) 251);
      [|lia].
    rewrite andb_true_r.
    change (Spec.lastByte (String c (String d r')))
      with (Spec.lastByte (String d r')).
    cbn [forallb String.list_ascii_of_string Spec.firstByte Spec.isAlnumOpt].
    destruct (fixer.isAlnum c) eqn:E.
    + rewrite (isAlnum_fqdnChar c E). cbn [andb]. now rewrite andb_true_r.
    + cbn [andb]. now rewrite !andb_false_r.
Qed.

Lemma isValidFQDN_amended s : fixer.isValidFQDN s = Spec.amendedDNSName s.
Proof.
  unfold fixer.isValidFQDN, Spec.amendedDNSName.
  destruct (Z.ltb_spec 253 (GoStrings.len s)),
           (Z.leb_spec (GoStrings.len s) 253); try lia; try reflexivity.
  rewrite fqdnRe_spec by lia. rewrite andb_true_l.
  destruct (forallb fixer.fqdnChar _ && _ && _); simpl; [|reflexivity].
  apply forallb_ext. intros label. unfold Spec.labelLengthOK.
  pose proof (len_nonneg label).
  destruct (Z.eqb_spec (GoStrings.len label) 0),
           (Z.ltb_spec 63 (GoStrings.len label)),
           (Z.leb_spec 1 (GoStrings.len label)),
           (Z.leb_spec (GoStrings.len label) 63); simpl; try lia;
    reflexivity.
Qed.

(** C7, as amended: a host target is accepted if and only if it parses as
    an IP address or is a name of at most 253 bytes made of letters, digits,
    dots and hyphens that begins and ends with a letter or a digit and
    whose labels have 1 to 63 bytes each; a rejected target makes both
    executors return the error without spawning a subprocess. *)
Theorem ValidateHostTarget_amended
    (parseIPv6 : string -> bool) (GetPath : string)
    (runProcess : fixer.Cmd -> string * string * option error) :
  (forall target,
      fixer.ValidateHostTarget parseIPv6 target = None <->
      GoNet.ParseIP parseIPv6 target = true
      \/ Spec.amendedDNSName target = true)
  /\ (forall hostIP port command spawned err,
      fixer.ValidateHostTarget parseIPv6 hostIP = Some err ->
      fixer.ExecuteViaAgent parseIPv6 GetPath runProcess hostIP port command
        spawned
      = (inl (ErrorWrap "invalid host" err), spawned))
  /\ (forall hostIP user command spawned err,
      fixer.ValidateHostTarget parseIPv6 hostIP = Some err ->
      fixer.ExecuteViaSSH parseIPv6 runProcess hostIP user command spawned
      = (inl (ErrorWrap "invalid host" err), spawned)).
Proof.
  split; [|split].
  - intros target. unfold fixer.ValidateHostTarget.
    rewrite isValidFQDN_amended.
    destruct (String.eqb_spec target "") as [->|Hne].
    + split; [discriminate|]. intros [H|H]; discriminate.
    + destruct (GoNet.ParseIP parseIPv6 target); [tauto|].
      destruct (Spec.amendedDNSName target); [tauto|].
      split; [discriminate|]. intros [H|H]; discriminate.
  - intros hostIP port command spawned err H.
    unfold fixer.ExecuteViaAgent. now rewrite H.
  - intros hostIP user command spawned err H.
    unfold fixer.ExecuteViaSSH. now rewrite H.
Qed.

Lemma ValidateHostTarget_amended_witness :
  fixer.ExecuteViaAgent Examples.noIPv6 "zabbix_get" Examples.runOK
    "host;rm -rf /" "" "apt-get update" []
  = (inl (ErrorWrap "invalid host"
            (ErrorQuoted "invalid host target (not a valid IP or hostname)"
               "host;rm -rf /")), [])
  /\ fixer.ExecuteViaSSH Examples.noIPv6 Examples.runOK
       "host;rm -rf /" "root" "apt-get update" []
     = (inl (ErrorWrap "invalid host"
               (ErrorQuoted
                  "invalid host target (not a valid IP or hostname)"
                  "host;rm -rf /")), []).
Proof.
  destruct (ValidateHostTarget_amended Examples.noIPv6 "zabbix_get"
              Examples.runOK) as (_ & Hagent & Hssh).
  split; [apply Hagent | apply Hssh]; reflexivity.
Defined.

(** Counterexample to C7 as specified, in both directions: a name with a
    label that begins with a hyphen is accepted, and a name with an
    underscore, which meets the three conditions specified, is
    rejected. *)
Lemma ValidateHostTarget_hyphen_label :
  fixer.ValidateHostTarget Examples.noIPv6 "a.-b" = None
  /\ GoNet.ParseIP Examples.noIPv6 "a.-b" = false
  /\ Spec.claimedDNSName "a.-b" = false
  /\ Spec.claimedDNSName "foo_bar" = true
  /\ GoNet.ParseIP Examples.noIPv6 "foo_bar" = false
  /\ fixer.ValidateHostTarget Examples.noIPv6 "foo_bar"
     = Some (ErrorQuoted "invalid host target (not a valid IP or hostname)"
               "foo_bar").
Proof. repeat split. Qed.

(** Neither string reaches the IPv6 parser. *)
Lemma ParseIP_counterexamples_any_IPv6 (parseIPv6 : string -> bool) :
  GoNet.ParseIP parseIPv6 "a.-b" = false
  /\ GoNet.ParseIP parseIPv6 "foo_bar" = false.
Proof. split; reflexivity. Qed.

(** ** The tests of the repository, replayed on the model

    The cases of aggregator_test.go, osutil_test.go, hostmatrix_test.go,
    sanitize_test.go and executor_test.go. *)

Local Abbreviation nl := Examples.newline.
Local Abbreviation tab := (String "009"%char EmptyString).
Local Abbreviation only := Examples.asciiOnly.
Local Abbreviation hostScore id score :=
  (HostEntry.mk id "" "" "" "" score "" [] []).
Local Abbreviation stats hs :=
  (GetStatistics Examples.amd64 (addAll NewAggregator hs)).

Example TestAppendUnique :
  map (fun sv => length (appendUnique (fst sv) (snd sv)))
      [([], "a"); (["a"], "b"); (["a"; "b"], "a"); ([], "")]
  = [1; 2; 2; 1]%nat.
Proof. reflexivity. Qed.

Example TestAppendUniqueSlice :
  map (fun ds => length (appendUniqueSlice (fst ds) (snd ds)))
      [([], []); ([], ["a"; "b"]); (["a"], []);
       (["a"; "b"], ["b"; "c"]); (["a"], ["b"; "c"])]
  = [0; 2; 1; 3; 3]%nat.
Proof. vm_compute. reflexivity. Qed.

Example TestAggregator_score_takes_max :
  let p score := PackageVuln.mk "openssl" "1.1.1" "" score "" [] [] in
  let h id score := HostEntry.mk id "" "" "" "" score "" [p score] [] in
  let a := addAll NewAggregator [h "1" 5; h "2" 9; h "1" 5]%float in
  (map_to_list (packages a)).*2
  = [PackageEntry.mk "openssl" "1.1.1" "" 9 "" ["1"; "2"] [""] []].
Proof. vm_compute. reflexivity. Qed.

Example TestAggregator_sort_descending :
  let p name score := PackageVuln.mk name "1" "" score "" [] [] in
  let h := HostEntry.mk "1" "" "" "" "" 3 ""
             [p "a" 3; p "b" 9; p "c" 6]%float [] in
  let a := addAll NewAggregator [h] in
  map PackageEntry.Score
      (ScanResults.Packages
         (GetResultsFrom a (map_to_list (packages a)).*2 []))
  = [9; 6; 3]%float.
Proof. vm_compute. reflexivity. Qed.

Example TestAggregator_AffectedHostNames :
  let p score := PackageVuln.mk "openssl" "1.1.1" "" score "" [] [] in
  let h id name score :=
    HostEntry.mk id "" name "" "" score "" [p score] [] in
  let a := addAll NewAggregator
             [h "1" "Web Server 1" 5; h "2" "DB Server" 7]%float in
  map PackageEntry.AffectedHostNames (map_to_list (packages a)).*2
  = [["Web Server 1"; "DB Server"]].
Proof. vm_compute. reflexivity. Qed.

Example TestAggregator_GetStatistics :
  let b id score cves := BulletinSummary.mk id "" score cves "" [] [] in
  let p name version score := PackageVuln.mk name version "" score "" [] [] in
  let a := addAll NewAggregator
    [HostEntry.mk "1" "" "" "" "" 7.5 "" [p "nginx" "1.18" 7.5]
       [b "B1" 7.5 ["CVE-2021-1234"; "CVE-2021-5678"]];
     HostEntry.mk "2" "" "" "" "" 5 "" [p "openssl" "1.1" 5]
       [b "B2" 5 ["CVE-2021-5678"; "CVE-2021-9999"]];
     HostEntry.mk "3" "" "" "" "" 0 "" [] []]%float in
  GetStatistics Examples.amd64 a
  = Some (Statistics.mk 3 2 2 2 3 7.5 (12.5 / 3) 0 5
            [1; 0; 0; 0; 0; 1; 0; 1; 0; 0; 0]).
Proof. vm_compute. reflexivity. Qed.

Example TestAggregator_median_odd :
  option_map (fun s => (Statistics.MedianCVSS s, Statistics.MinCVSS s))
    (stats [hostScore "1" 9; hostScore "2" 3; hostScore "3" 5]%float)
  = Some (5, 3)%float.
Proof. vm_compute. reflexivity. Qed.

Example TestAggregator_median_even :
  option_map Statistics.MedianCVSS
    (stats [hostScore "1" 8; hostScore "2" 2; hostScore "3" 6;
            hostScore "4" 4]%float)
  = Some 5%float.
Proof. vm_compute. reflexivity. Qed.

Example TestAggregator_zero_scores :
  option_map (fun s => (Statistics.MedianCVSS s, Statistics.MinCVSS s))
    (stats [hostScore "1" 0; hostScore "2" 0]%float)
  = Some (0, 0)%float.
Proof. vm_compute. reflexivity. Qed.

(** Scores 0, 0, 3.5, 7.9 and 10. *)
Example TestAggregator_histogram :
  option_map Statistics.Histogram
    (stats [hostScore "1" 0; hostScore "2" 0; hostScore "3" 3.5;
            hostScore "4" 0x1.f99999999999ap+2; hostScore "5" 10]%float)
  = Some [2; 0; 0; 1; 0; 0; 0; 1; 0; 0; 1].
Proof. vm_compute. reflexivity. Qed.

Example TestAggregator_min_includes_zero :
  option_map (fun s => (Statistics.MedianCVSS s, Statistics.MinCVSS s))
    (stats [hostScore "1" 0; hostScore "2" 3; hostScore "3" 9]%float)
  = Some (3, 0)%float.
Proof. vm_compute. reflexivity. Qed.

Example TestAggregator_Reset :
  option_map (fun s => (Statistics.TotalHosts s, Statistics.TotalPackages s))
    (GetStatistics Examples.amd64 (Reset Examples.state))
  = Some (0, 0).
Proof. vm_compute. reflexivity. Qed.

Example TestParsePackageString :
  map ParsePackageString ["nginx 1.18.0 amd64"; "openssl 1.1.1k"; "bash"; ""]
  = [("nginx", "1.18.0", "amd64"); ("openssl", "1.1.1k", "");
     ("bash", "", ""); ("", "", "")].
Proof. reflexivity. Qed.

Example TestNormalizeOSName :
  map (NormalizeOSName only)
      ["Ubuntu 20.04"; "ubuntu"; "Debian GNU/Linux"; "CentOS Linux";
       "Red Hat Enterprise Linux"; "RHEL 8"; "Amazon Linux";
       "Oracle Linux Server"; "SUSE Linux Enterprise"; "Fedora 35";
       "Alpine Linux"; "unknown-os"]
  = ["ubuntu"; "ubuntu"; "debian"; "centos"; "redhat"; "redhat"; "amazon";
     "oraclelinux"; "suse"; "fedora"; "alpine"; "unknown-os"].
Proof. vm_compute. reflexivity. Qed.

Example TestExtractOSVersion :
  map ExtractOSVersion ["20.04"; "20.04 LTS"; "7.9.2009"; ""]
  = ["20.04"; "20.04"; "7.9.2009"; ""].
Proof. reflexivity. Qed.

Example TestParseOSInfo :
  map (parseOSInfo only)
      ["Ubuntu 20.04.3 LTS";
       "Red Hat Enterprise Linux Server release 7.9";
       "Debian GNU/Linux 11 (bullseye)"; ""; "Alpine"]
  = [("ubuntu", "20.04.3");
     ("red hat enterprise linux server release", "7.9");
     ("debian gnu/linux", "11"); ("", ""); ("alpine", "")].
Proof. vm_compute. reflexivity. Qed.

Example TestParsePackageList :
  map (fun s => length (parsePackageList s))
      [""; "nginx 1.18.0 amd64";
       "nginx 1.18.0 amd64" +:+ nl +:+ "openssl 1.1.1k amd64" +:+ nl
         +:+ "bash 5.1 amd64";
       "nginx 1.18.0 amd64" +:+ nl +:+ nl +:+ nl
         +:+ "openssl 1.1.1k amd64" +:+ nl;
       "  " +:+ nl +:+ tab +:+ nl +:+ "  nginx 1.18.0 amd64  " +:+ nl
         +:+ "  "]
  = [0; 1; 3; 2; 1]%nat.
Proof. vm_compute. reflexivity. Qed.

Example TestValidateHostData :
  let pkgs n := map (fun i => "pkg" +:+ String (ascii_of_nat (65 + i)) "")
                    (seq 0 n) in
  map (fun c => String.eqb (validateHostData (fst c) (snd c)) "")
      [("20.04", pkgs 10%nat); ("0.0", pkgs 10%nat); ("20.04", pkgs 5%nat);
       ("20.04", pkgs 4%nat); ("20.04", pkgs 6%nat);
       ("20.04", pkgs 6%nat ++ ["report.py 1.0 noarch"]); ("20.04", [])]
  = [true; false; false; false; true; false; false].
Proof. vm_compute. reflexivity. Qed.

(** The cases without an IPv6 address, which belongs to the parser taken
    as given. *)
Example TestValidateHostTarget :
  map (fun t => bool_decide
                  (fixer.ValidateHostTarget Examples.noIPv6 t = None))
      ["192.168.1.1"; "web.example.com"; "myhost";
       "db-01.prod.example.com"; "192.168.1.1; rm -rf /";
       "host;rm -rf /"; ""; "host..example.com"; ".example.com";
       "-example.com"]
  = [true; true; true; true; false; false; false; false; false; false].
Proof. vm_compute. reflexivity. Qed.

Example TestValidatePackageName :
  map (fun n => bool_decide (fixer.ValidatePackageName n = None))
      ["nginx"; "libc6:amd64"; "kernel-devel"; "python3.11"; "pkg~beta1";
       "g++"; "$(whoami)"; "nginx openssl"; ""; "nginx;rm"]
  = [true; true; true; true; true; true; false; false; false; false].
Proof. vm_compute. reflexivity. Qed.

Example TestValidateSSHUser :
  map (fun u => bool_decide (fixer.ValidateSSHUser u = None))
      ["root"; "zabbix_user"; "user-name"; "_service"; "root; whoami";
       "1user"; ""]
  = [true; true; true; true; false; false; false].
Proof. vm_compute. reflexivity. Qed.

Example TestSanitizePackages :
  fixer.SanitizePackages ["nginx"; "openssl"; "libc6:amd64"] = None
  /\ fixer.SanitizePackages [] = None
  /\ fixer.SanitizePackages ["nginx"; "$(bad)"; "openssl"]
     = Some (ErrorQuoted "invalid package name" "$(bad)").
Proof. repeat split. Qed.

Example TestGenerateFixCommand :
  map (fun c => fixer.GenerateFixCommand only (fst c) (snd c))
      [("Ubuntu 20.04", ["nginx"]); ("Debian GNU/Linux", ["openssl"]);
       ("CentOS Linux 7", ["httpd"]); ("RHEL 8", ["httpd"]);
       ("Amazon Linux 2", ["httpd"]); ("Arch Linux", ["nginx"])]
  = ["apt-get update && apt-get install -y --only-upgrade 'nginx'";
     "apt-get update && apt-get install -y --only-upgrade 'openssl'";
     "yum update -y 'httpd'"; "yum update -y 'httpd'";
     "yum update -y 'httpd'";
     "apt-get update && apt-get install -y --only-upgrade 'nginx'"].
Proof. vm_compute. reflexivity. Qed.

Example TestGenerateFixCommands :
  fixer.generateDebianFixCommand [] = "apt-get update && apt-get upgrade -y"
  /\ fixer.generateDebianFixCommand ["nginx"; "openssl"]
     = "apt-get update && apt-get install -y --only-upgrade 'nginx' 'openssl'"
  /\ fixer.generateRHELFixCommand [] = "yum update -y"
  /\ fixer.generateRHELFixCommand ["httpd"] = "yum update -y 'httpd'"
  /\ fixer.generateAmazonFixCommand [] = "yum update -y"
  /\ fixer.generateAmazonFixCommand ["curl"] = "yum update -y 'curl'".
Proof. repeat split. Qed.

(* ===================================================================== *)
(** * Part II, continued: the rest of the scanner and the fixer           *)
(* ===================================================================== *)

(** ** The filters *)

Section Filter.
Context {A : Type} (p : A -> bool).

Lemma fold_filter_append (l acc : list A) :
  fold_left (fun filtered x => if p x then filtered ++ [x] else filtered)
    l acc
  = acc ++ List.filter p l.
Proof.
  revert acc; induction l as [|x l IH]; intros acc; simpl.
  - now rewrite app_nil_r.
  - rewrite IH. destruct (p x); [|reflexivity].
    now rewrite <- app_assoc.
Qed.
End Filter.

Lemma FilterByMinCVSS_filter packages minScore :
  FilterByMinCVSS packages minScore
  = List.filter (fun pkg => GoFloat.ge (PackageVuln.Score pkg) minScore)
      packages.
Proof. unfold FilterByMinCVSS. now rewrite fold_filter_append. Qed.

Lemma FilterBulletinsByMinCVSS_filter bulletins minScore :
  FilterBulletinsByMinCVSS bulletins minScore
  = List.filter (fun b => GoFloat.ge (BulletinSummary.Score b) minScore)
      bulletins.
Proof. unfold FilterBulletinsByMinCVSS. now rewrite fold_filter_append. Qed.

Lemma ge_notNaN x m :
  GoFloat.ge x m = true ->
  GoFloat.isNaN x = false /\ GoFloat.isNaN m = false.
Proof.
  unfold GoFloat.ge. intros H.
  apply leb_rank in H as (a & b & Ha & Hb & _).
  split; apply notNaN_rank; eauto.
Qed.

Lemma filter_sublist {A} (p : A -> bool) (l : list A) :
  sublist (List.filter p l) l.
Proof.
  induction l as [|x l IH]; simpl; [constructor|].
  destruct (p x); now constructor.
Qed.

(** X1: [FilterByMinCVSS] keeps exactly the packages whose score is at
    least [minScore], in the order of the input; none of the packages
    kept has a NaN score. *)
Theorem FilterByMinCVSS_keeps packages minScore :
  sublist (FilterByMinCVSS packages minScore) packages
  /\ (forall pkg,
        In pkg (FilterByMinCVSS packages minScore) <->
        In pkg packages
        /\ GoFloat.ge (PackageVuln.Score pkg) minScore = true)
  /\ Forall (fun pkg => GoFloat.isNaN (PackageVuln.Score pkg) = false)
       (FilterByMinCVSS packages minScore).
Proof.
  rewrite FilterByMinCVSS_filter. split; [apply filter_sublist|]. split.
  - intros pkg. apply filter_In.
  - apply List.Forall_forall. intros pkg [_ H]%filter_In.
    now apply ge_notNaN in H.
Qed.

(** X2: with a NaN threshold [FilterByMinCVSS] and
    [FilterBulletinsByMinCVSS] keep nothing, whatever the scores. *)
Theorem filters_NaN_threshold packages bulletins minScore :
  GoFloat.isNaN minScore = true ->
  FilterByMinCVSS packages minScore = []
  /\ FilterBulletinsByMinCVSS bulletins minScore = [].
Proof.
  intros Hnan.
  assert (Hno : forall x, GoFloat.ge x minScore = false).
  { intros x. destruct (GoFloat.ge x minScore) eqn:E; [|reflexivity].
    apply ge_notNaN in E as [_ E]. congruence. }
  rewrite FilterByMinCVSS_filter, FilterBulletinsByMinCVSS_filter.
  split.
  - induction packages as [|p l IH]; simpl; [reflexivity|].
    now rewrite Hno.
  - induction bulletins as [|b l IH]; simpl; [reflexivity|].
    now rewrite Hno.
Qed.

Lemma filters_NaN_threshold_witness :
  FilterByMinCVSS [Examples.pkg "openssl" 9] PrimFloat.nan = []
  /\ FilterBulletinsByMinCVSS [Examples.bulletin "USN-1" 9] PrimFloat.nan
     = [].
Proof. apply filters_NaN_threshold. reflexivity. Defined.

(** X3: filtering twice is filtering once at the higher threshold: after
    a filter at [m1], a filter at [m2 >= m1] gives what the filter at
    [m2] gives on the original packages. *)
Theorem FilterByMinCVSS_compose packages m1 m2 :
  GoFloat.le m1 m2 = true ->
  FilterByMinCVSS (FilterByMinCVSS packages m1) m2
  = FilterByMinCVSS packages m2.
Proof.
  intros Hle. rewrite !FilterByMinCVSS_filter, filter_filter.
  apply filter_ext. intros pkg. unfold GoFloat.ge, GoFloat.le in *.
  destruct (PrimFloat.leb m2 (PackageVuln.Score pkg)) eqn:E.
  - now rewrite (leb_trans _ _ _ Hle E).
  - apply andb_false_r.
Qed.

Lemma FilterByMinCVSS_compose_witness :
  FilterByMinCVSS
    (FilterByMinCVSS [Examples.pkg "a" 3; Examples.pkg "b" 7] 2) 5
  = FilterByMinCVSS [Examples.pkg "a" 3; Examples.pkg "b" 7] 5.
Proof. apply FilterByMinCVSS_compose. reflexivity. Defined.

(** X4: [FilterBulletinsByMinCVSS] keeps exactly the bulletins whose
    score is at least [minScore], never returns more than it was given,
    and filtering its result again at the same threshold changes
    nothing. *)
Theorem FilterBulletinsByMinCVSS_keeps bulletins minScore :
  (forall b,
     In b (FilterBulletinsByMinCVSS bulletins minScore) <->
     In b bulletins /\ GoFloat.ge (BulletinSummary.Score b) minScore = true)
  /\ GoSlice.len (FilterBulletinsByMinCVSS bulletins minScore)
     <= GoSlice.len bulletins
  /\ FilterBulletinsByMinCVSS
       (FilterBulletinsByMinCVSS bulletins minScore) minScore
     = FilterBulletinsByMinCVSS bulletins minScore.
Proof.
  rewrite !FilterBulletinsByMinCVSS_filter. split; [|split].
  - intros b. apply filter_In.
  - unfold GoSlice.len. apply inj_le, List.filter_length_le.
  - rewrite filter_filter. apply filter_ext. intros b.
    now destruct (GoFloat.ge _ _).
Qed.

(** ** The summary fields of [GetResults] *)

(** A running maximum: where it ends, seen from where it started. *)
Lemma running_max {X} (f : X -> float) l : forall m0 m,
  fold_left (fun m x => if GoFloat.gt (f x) m then f x else m) l m0 = m ->
  (m = m0 \/ (In m (map f l) /\ PrimFloat.ltb m0 m = true))
  /\ (forall x, In x l -> GoFloat.gt (f x) m = false).
Proof.
  induction l as [|x l IH]; intros m0 m; simpl.
  { intros <-. split; [now left | tauto]. }
  destruct (GoFloat.gt (f x) m0) eqn:Hlt; unfold GoFloat.gt in Hlt;
    intros Hfold.
  - destruct (IH _ _ Hfold) as [Hm Hub]. split.
    + right. destruct Hm as [->|[Hin Hgt]]; [split; [now left | exact Hlt]|].
      split; [now right | eapply ltb_trans; eauto].
    + intros y [<-|Hy]; [|now apply Hub]. unfold GoFloat.gt.
      destruct Hm as [->|[_ Hgt]]; [apply ltb_irrefl | now apply ltb_asym].
  - destruct (IH _ _ Hfold) as [Hm Hub]. split.
    + destruct Hm as [->|[Hin Hgt]]; [now left | right; auto].
    + intros y [<-|Hy]; [|now apply Hub]. unfold GoFloat.gt.
      destruct Hm as [->|[_ Hgt]]; [exact Hlt | eapply ltb_raise; eauto].
Qed.

Lemma fold_count {X} (p : X -> bool) l n :
  fold_left (fun n x => if p x then n + 1 else n) l n
  = n + Spec.countIf p l.
Proof.
  revert n. induction l as [|x l IH]; intros n.
  - unfold Spec.countIf; simpl; lia.
  - simpl fold_left. rewrite IH, countIf_cons. destruct (p x); lia.
Qed.

Lemma countIf_bounds {X} (p : X -> bool) l :
  0 <= Spec.countIf p l <= GoSlice.len l.
Proof.
  unfold Spec.countIf, GoSlice.len.
  pose proof (List.filter_length_le p l). lia.
Qed.

Lemma fold_length {X} (l : list X) n :
  fold_left (fun n _ => n + 1) l n = n + GoSlice.len l.
Proof.
  revert n. induction l as [|x l IH]; intros n; unfold GoSlice.len in *;
    simpl fold_left; [simpl; lia|].
  rewrite IH. simpl length. lia.
Qed.

Lemma mapRange_length {V} (m : gmap string V) order :
  mapRange m order -> length order = size m.
Proof.
  unfold mapRange. intros H. apply Permutation_length in H.
  now rewrite H, length_fmap, length_map_to_list.
Qed.

(** X6: in every result of [GetResults], [HostsScanned] is the number of
    hosts added, [HostsWithVulns] the number of those with a positive
    score (so it lies between 0 and [HostsScanned]),
    [VulnerablePackages] the number of package aggregates, which is the
    length of [Packages]; [MaxCVSS] is never NaN and never negative, no
    host has a score above it, and it is 0 or the score of a host. *)
Theorem GetResults_summary (a : Aggregator) (r : ScanResults.t) :
  GetResults a r ->
  ScanResults.HostsScanned r = GoSlice.len (hosts a)
  /\ ScanResults.HostsWithVulns r
     = Spec.countIf
         (fun h => GoFloat.gt (HostEntry.Score h) PrimFloat.zero) (hosts a)
  /\ 0 <= ScanResults.HostsWithVulns r <= ScanResults.HostsScanned r
  /\ ScanResults.VulnerablePackages r = Z.of_nat (size (packages a))
  /\ ScanResults.VulnerablePackages r
     = GoSlice.len (ScanResults.Packages r)
  /\ GoSlice.len (ScanResults.Bulletins r) = Z.of_nat (size (bulletins a))
  /\ GoFloat.isNaN (ScanResults.MaxCVSS r) = false
  /\ GoFloat.le PrimFloat.zero (ScanResults.MaxCVSS r) = true
  /\ (forall h, In h (hosts a) ->
        GoFloat.gt (HostEntry.Score h) (ScanResults.MaxCVSS r) = false)
  /\ (ScanResults.MaxCVSS r = PrimFloat.zero
      \/ exists h, In h (hosts a)
                   /\ HostEntry.Score h = ScanResults.MaxCVSS r).
Proof.
  intros (ps & bs & Hps & Hbs & ->). unfold GetResultsFrom; simpl.
  rewrite !fold_left_snoc; simpl.
  rewrite fold_count, fold_length, Z.add_0_l, Z.add_0_l.
  pose proof (countIf_bounds
                (fun h => GoFloat.gt (HostEntry.Score h) PrimFloat.zero)
                (hosts a)) as Hc.
  destruct (running_max HostEntry.Score (hosts a) PrimFloat.zero _
              eq_refl) as [Hm Hub].
  split; [reflexivity|]. split; [reflexivity|]. split; [exact Hc|].
  split; [unfold GoSlice.len; now rewrite (mapRange_length _ _ Hps)|].
  split.
  { unfold GoSlice.len. f_equal. apply Permutation_length. symmetry.
    apply insertionSort_perm. }
  split.
  { unfold GoSlice.len. f_equal.
    rewrite <- (mapRange_length _ _ Hbs).
    apply Permutation_length, insertionSort_perm. }
  split; [|split; [|split; [exact Hub|]]].
  - destruct Hm as [->|[_ Hgt]]; [reflexivity|].
    apply ltb_rank in Hgt as (x & y & _ & Hy & _).
    apply notNaN_rank; eauto.
  - destruct Hm as [->|[_ Hgt]]; [reflexivity|].
    unfold GoFloat.le. now apply ltb_leb.
  - destruct Hm as [->|[Hin _]]; [now left|]. right.
    apply in_map_iff in Hin as (h & Hh & Hin). eauto.
Qed.

Lemma GetResults_summary_witness :
  ScanResults.HostsScanned
    (GetResultsFrom Examples.state
       (map_to_list (packages Examples.state)).*2
       (map_to_list (bulletins Examples.state)).*2)
  = GoSlice.len (hosts Examples.state).
Proof.
  refine (proj1 (GetResults_summary Examples.state _ _)).
  eexists _, _. split; [|split; [|reflexivity]];
    unfold mapRange; reflexivity.
Defined.

(** ** [appendUniqueSlice] and [appendUniqueCVEs] *)

(** The loop with the set [existing] is the loop that scans [dst]. *)
Lemma appendUniqueSlice_loop src : forall dst (existing : gset string),
  (forall x, x ∈ existing <-> In x dst) ->
  fst (fold_left
         (fun (st : list string * gset string) v =>
            let (dst, existing) := st in
            if decide (v ∈ existing) then (dst, existing)
            else (dst ++ [v], {[ v ]} ∪ existing))
         src (dst, existing))
  = fold_left appendUnique src dst.
Proof.
  induction src as [|v src IH]; intros dst existing Hex; simpl;
    [reflexivity|].
  unfold appendUnique at 2.
  destruct (decide (v ∈ existing)) as [Hin|Hnin].
  - apply Hex in Hin. apply appendUnique_scan_In in Hin as ->.
    now apply IH.
  - destruct (appendUnique_scan dst v) eqn:E.
    + apply appendUnique_scan_In, Hex in E. contradiction.
    + apply IH. intros x. rewrite elem_of_union, elem_of_singleton, in_app_iff.
      rewrite Hex. simpl. intuition.
Qed.

Lemma appendUniqueSlice_fold dst src :
  appendUniqueSlice dst src = fold_left appendUnique src dst.
Proof.
  apply appendUniqueSlice_loop. intros x.
  rewrite elem_of_list_to_set. apply list_elem_of_In.
Qed.

Lemma appendUniqueCVEs_fold dst src :
  appendUniqueCVEs dst src = fold_left appendUnique src dst.
Proof.
  apply appendUniqueSlice_loop. intros x.
  rewrite elem_of_list_to_set. apply list_elem_of_In.
Qed.

Lemma fold_appendUnique_added src dst :
  exists added,
    fold_left appendUnique src dst = dst ++ added
    /\ List.NoDup added
    /\ (forall x, In x added <-> In x src /\ ~ In x dst).
Proof.
  exists (List.filter (fun y => negb (appendUnique_scan dst y))
            (Spec.firstSeen src)).
  split; [apply fold_appendUnique|]. split.
  - apply List.NoDup_filter, firstSeen_NoDup.
  - intros x. rewrite filter_In, firstSeen_In, negb_true_iff.
    rewrite <- (appendUnique_scan_In dst x).
    destruct (appendUnique_scan dst x); intuition congruence.
Qed.

Lemma NoDup_app_disjoint {A} (l1 l2 : list A) :
  List.NoDup l1 -> List.NoDup l2 -> (forall x, In x l2 -> ~ In x l1) ->
  List.NoDup (l1 ++ l2).
Proof.
  intros H1 H2 Hd. induction H1 as [|x l1 Hx H1 IH]; simpl; [exact H2|].
  constructor.
  - rewrite in_app_iff. intros [H|H]; [contradiction|].
    apply (Hd x H). now left.
  - apply IH. intros y Hy Hin. apply (Hd y Hy). now right.
Qed.

(** X5: [appendUniqueSlice dst src] is [dst] followed by the values of
    [src] that are not in [dst], each once; so it holds exactly the
    values of both, it has no duplicates when [dst] has none, and
    appending [src] a second time changes nothing. *)
Theorem appendUniqueSlice_extends dst src :
  (exists added,
     appendUniqueSlice dst src = dst ++ added
     /\ List.NoDup added
     /\ (forall x, In x added <-> In x src /\ ~ In x dst))
  /\ (List.NoDup dst -> List.NoDup (appendUniqueSlice dst src))
  /\ appendUniqueSlice (appendUniqueSlice dst src) src
     = appendUniqueSlice dst src.
Proof.
  rewrite !appendUniqueSlice_fold.
  destruct (fold_appendUnique_added src dst) as (added & Heq & Hnd & Hin).
  split; [eauto|]. split.
  - intros Hdst. rewrite Heq. apply NoDup_app_disjoint; auto.
    intros x Hx. now apply Hin in Hx.
  - destruct (fold_appendUnique_added src (fold_left appendUnique src dst))
      as (added' & Heq' & _ & Hin').
    rewrite Heq'. destruct added' as [|x added']; [apply app_nil_r|].
    exfalso. destruct (proj1 (Hin' x) (or_introl eq_refl)) as [Hs Hn].
    apply Hn. rewrite Heq, in_app_iff.
    destruct (in_dec String.string_dec x dst) as [Hd|Hd]; [now left|].
    right. now apply Hin.
Qed.

(** ** Adding a host entry again *)

Section Absorb.
Context {F E : Type} (key : F -> string) (merge : option E -> F -> E).
Variable absorbs : E -> F -> Prop.
Hypothesis absorbs_merge : forall o f, absorbs (merge o f) f.
Hypothesis absorbs_later : forall e f g,
  absorbs e f -> absorbs (merge (Some e) g) f.
Hypothesis absorbs_fixed : forall e f, absorbs e f -> merge (Some e) f = e.

Local Abbreviation step :=
  (fun (m : gmap string E) (f : F) =>
     <[ key f := merge (m !! key f) f ]> m).
Local Abbreviation mergeAll :=
  (fold_left (fun (o : option E) (f : F) => Some (merge o f))).

Lemma mergeAll_absorbs fs : forall o e,
  mergeAll fs o = Some e ->
  (forall f, In f fs -> absorbs e f)
  /\ (forall f e0, o = Some e0 -> absorbs e0 f -> absorbs e f).
Proof.
  induction fs as [|g fs IH]; intros o e; simpl.
  - intros ->. split; [tauto|]. now intros f e0 [= ->].
  - intros H. apply IH in H as [Hin Hkeep]. split.
    + intros f [<-|Hf]; [|now apply Hin].
      apply (Hkeep _ _ eq_refl), absorbs_merge.
    + intros f e0 -> Hf. apply (Hkeep _ _ eq_refl), absorbs_later, Hf.
Qed.

Lemma mergeAll_fixed fs e :
  (forall f, In f fs -> absorbs e f) -> mergeAll fs (Some e) = Some e.
Proof.
  induction fs as [|g fs IH]; intros H; simpl; [reflexivity|].
  rewrite absorbs_fixed by (apply H; now left).
  apply IH. intros f Hf. apply H. now right.
Qed.

(** Folding the same findings into the map a second time changes
    nothing. *)
Lemma fold_merge_again fs (m : gmap string E) :
  fold_left step fs (fold_left step fs m) = fold_left step fs m.
Proof.
  apply map_eq. intros k.
  rewrite (fold_merge_lookup key merge fs (fold_left step fs m)).
  rewrite (fold_merge_lookup key merge fs m).
  destruct (List.filter (fun f => String.eqb (key f) k) fs) as [|g gs];
    [reflexivity|].
  destruct (mergeAll (g :: gs) (m !! k)) as [e|] eqn:Hm.
  - apply mergeAll_fixed. intros f Hf.
    now apply (mergeAll_absorbs _ _ _ Hm).
  - simpl in Hm.
    destruct (mergeAll_Some merge gs (merge (m !! k) g)) as [e He].
    congruence.
Qed.
End Absorb.

Lemma appendUnique_In l y x : In x (appendUnique l y) <-> In x l \/ x = y.
Proof.
  unfold appendUnique. destruct (appendUnique_scan l y) eqn:E.
  - apply appendUnique_scan_In in E. split; [tauto|].
    intros [H| ->]; auto.
  - rewrite in_app_iff. simpl. intuition.
Qed.

Lemma appendUniqueSlice_In dst src x :
  In x (appendUniqueSlice dst src) <-> In x dst \/ In x src.
Proof.
  rewrite appendUniqueSlice_fold.
  destruct (fold_appendUnique_added src dst) as (added & -> & _ & Hin).
  rewrite in_app_iff, Hin.
  destruct (in_dec String.string_dec x dst); tauto.
Qed.

Lemma appendUniqueSlice_incl dst src :
  (forall x, In x src -> In x dst) -> appendUniqueSlice dst src = dst.
Proof.
  intros Hincl. rewrite appendUniqueSlice_fold.
  destruct (fold_appendUnique_added src dst) as (added & -> & _ & Hin).
  destruct added as [|x added]; [apply app_nil_r|].
  destruct (proj1 (Hin x) (or_introl eq_refl)) as [Hs Hn].
  now apply Hincl in Hs.
Qed.

Lemma raised_absorbs s t :
  GoFloat.gt s (if GoFloat.gt s t then s else t) = false.
Proof.
  destruct (GoFloat.gt s t) eqn:E; [apply ltb_irrefl | exact E].
Qed.

Lemma raised_keeps s t u :
  GoFloat.gt s t = false ->
  GoFloat.gt s (if GoFloat.gt u t then u else t) = false.
Proof.
  intros H. destruct (GoFloat.gt u t) eqn:E; [|exact H].
  unfold GoFloat.gt in *. eapply ltb_raise; eauto.
Qed.

Lemma mergePackage_absorbs H N o pkg :
  Spec.absorbsPackage H N (mergePackage H N o pkg) pkg.
Proof.
  unfold Spec.absorbsPackage, mergePackage; simpl.
  rewrite !appendUnique_In.
  split; [auto|]. split; [auto|]. split.
  - intros b Hb. apply appendUniqueSlice_In. auto.
  - apply raised_absorbs.
Qed.

Lemma mergePackage_later H N e pkg pkg' :
  Spec.absorbsPackage H N e pkg ->
  Spec.absorbsPackage H N (mergePackage H N (Some e) pkg') pkg.
Proof.
  unfold Spec.absorbsPackage, mergePackage; simpl.
  intros (H1 & H2 & H3 & H4). rewrite !appendUnique_In.
  split; [auto|]. split; [auto|]. split.
  - intros b Hb. apply appendUniqueSlice_In. auto.
  - now apply raised_keeps.
Qed.

Lemma mergePackage_fixed H N e pkg :
  Spec.absorbsPackage H N e pkg -> mergePackage H N (Some e) pkg = e.
Proof.
  unfold Spec.absorbsPackage, mergePackage; simpl.
  intros (H1 & H2 & H3 & H4).
  rewrite (appendUnique_present _ _ H1), (appendUnique_present _ _ H2).
  rewrite (appendUniqueSlice_incl _ _ H3), H4. now destruct e.
Qed.

Lemma mergeBulletin_absorbs H N o b :
  Spec.absorbsBulletin H N (mergeBulletin H N o b) b.
Proof.
  unfold Spec.absorbsBulletin, mergeBulletin; simpl.
  rewrite !appendUnique_In.
  split; [auto|]. split; [auto|]. split.
  - intros p Hp. apply appendUniqueSlice_In. auto.
  - apply raised_absorbs.
Qed.

Lemma mergeBulletin_later H N e b b' :
  Spec.absorbsBulletin H N e b ->
  Spec.absorbsBulletin H N (mergeBulletin H N (Some e) b') b.
Proof.
  unfold Spec.absorbsBulletin, mergeBulletin; simpl.
  intros (H1 & H2 & H3 & H4). rewrite !appendUnique_In.
  split; [auto|]. split; [auto|]. split.
  - intros p Hp. apply appendUniqueSlice_In. auto.
  - now apply raised_keeps.
Qed.

Lemma mergeBulletin_fixed H N e b :
  Spec.absorbsBulletin H N e b -> mergeBulletin H N (Some e) b = e.
Proof.
  unfold Spec.absorbsBulletin, mergeBulletin; simpl.
  intros (H1 & H2 & H3 & H4).
  rewrite (appendUnique_present _ _ H1), (appendUnique_present _ _ H2).
  rewrite (appendUniqueSlice_incl _ _ H3), H4. now destruct e.
Qed.

(** X7: adding a host entry a second time leaves every package and
    bulletin aggregate as it was after the first time; only the list of
    hosts grows, by the entry once more. *)
Theorem AddHost_again (a : Aggregator) (entry : HostEntry.t) :
  packages (AddHost (AddHost a entry) entry) = packages (AddHost a entry)
  /\ bulletins (AddHost (AddHost a entry) entry)
     = bulletins (AddHost a entry)
  /\ hosts (AddHost (AddHost a entry) entry) = hosts a ++ [entry; entry].
Proof.
  unfold AddHost; simpl. split; [|split].
  - apply (fold_merge_again packageKey
             (mergePackage (HostEntry.HostID entry) (HostEntry.Name entry))
             (Spec.absorbsPackage (HostEntry.HostID entry)
                (HostEntry.Name entry))).
    + apply mergePackage_absorbs.
    + apply mergePackage_later.
    + apply mergePackage_fixed.
  - apply (fold_merge_again BulletinSummary.ID
             (mergeBulletin (HostEntry.HostID entry) (HostEntry.Name entry))
             (Spec.absorbsBulletin (HostEntry.HostID entry)
                (HostEntry.Name entry))).
    + apply mergeBulletin_absorbs.
    + apply mergeBulletin_later.
    + apply mergeBulletin_fixed.
  - now rewrite <- app_assoc.
Qed.

(** ** From an audit result to findings (extract.go) *)

(** A map that holds [g k] under every key of [keys] and nothing else
    is enumerated as the values [g k]. *)
Lemma map_values_perm {V} (m : gmap string V) (keys : list string)
    (g : string -> V) :
  List.NoDup keys ->
  (forall k, In k keys -> m !! k = Some (g k)) ->
  (forall k, ~ In k keys -> m !! k = None) ->
  (map_to_list m).*2 ≡ₚ map g keys.
Proof.
  intros Hnd Hin Hout.
  assert (Hfst : (map (fun k => (k, g k)) keys).*1 = keys).
  { rewrite <- list_fmap_compose. apply list_fmap_id. }
  assert (Heq : m = list_to_map (map (fun k => (k, g k)) keys)).
  { apply map_eq. intros k.
    destruct (in_dec String.string_dec k keys) as [Hk|Hk].
    - rewrite (Hin k Hk). symmetry. apply elem_of_list_to_map.
      + rewrite Hfst. now apply NoDup_ListNoDup.
      + apply list_elem_of_In, in_map_iff. eauto.
    - rewrite (Hout k Hk). symmetry.
      apply not_elem_of_list_to_map. rewrite Hfst.
      now rewrite list_elem_of_In. }
  rewrite Heq, map_to_list_to_map.
  - rewrite <- list_fmap_compose. reflexivity.
  - rewrite Hfst. now apply NoDup_ListNoDup.
Qed.

Lemma fold_left_snoc_map {A B} (f : A -> B) l acc :
  fold_left (fun acc x => acc ++ [f x]) l acc = acc ++ map f l.
Proof.
  revert acc; induction l as [|x l IH]; intros acc; simpl.
  - now rewrite app_nil_r.
  - now rewrite IH, <- app_assoc.
Qed.

Local Abbreviation nonEmpty := (fun id : string => negb (String.eqb id "")).

(** The aggregate of a package string after more of its
    vulnerabilities. *)
Lemma groupPackage_more fs : forall agg,
  fold_left (fun o v => Some (groupPackage o v)) fs (Some agg)
  = Some (pkgAgg.mk (pkgAgg.name agg) (pkgAgg.version agg)
            (pkgAgg.arch agg)
            (Spec.raisedBy (pkgAgg.maxScore agg) (map cvssScore fs))
            (pkgAgg.fix_ agg)
            (pkgAgg.bulletins agg
               ++ List.filter nonEmpty
                    (map vulners.Vulnerability.BulletinID fs))
            (pkgAgg.cves agg
               ++ flat_map vulners.Vulnerability.CVEList fs)).
Proof.
  induction fs as [|v fs IH]; intros agg; simpl.
  - rewrite !app_nil_r. now destruct agg.
  - unfold groupPackage at 2.
    destruct (ParsePackageString (vulners.Vulnerability.Package v))
      as [[name version] arch].
    rewrite IH. simpl. f_equal. f_equal.
    + destruct (negb _); simpl; [now rewrite <- app_assoc | reflexivity].
    + now rewrite <- app_assoc.
Qed.

Lemma groupPackage_all key vs v fs :
  Spec.vulnsOfPackage key vs = v :: fs ->
  fold_left (fun o v => Some (groupPackage o v)) (v :: fs) None
  = Some (pkgAgg.mk
            (PackageVuln.Name (Spec.packageVulnFor key vs))
            (PackageVuln.Version (Spec.packageVulnFor key vs))
            (PackageVuln.Arch (Spec.packageVulnFor key vs))
            (PackageVuln.Score (Spec.packageVulnFor key vs))
            (PackageVuln.Fix (Spec.packageVulnFor key vs))
            (PackageVuln.Bulletins (Spec.packageVulnFor key vs))
            (PackageVuln.CVEs (Spec.packageVulnFor key vs))).
Proof.
  intros Hfs.
  assert (Hk : vulners.Vulnerability.Package v = key).
  { assert (Hin : In v (Spec.vulnsOfPackage key vs))
      by (rewrite Hfs; now left).
    apply filter_In in Hin as [_ Hin]. now apply String.eqb_eq in Hin. }
  unfold Spec.packageVulnFor. rewrite Hfs. simpl fold_left.
  rewrite groupPackage_more. unfold groupPackage. rewrite Hk.
  destruct (ParsePackageString key) as [[name version] arch]. simpl.
  f_equal. f_equal. now destruct (negb _).
Qed.

Lemma filter_nil_not_In {A} (p : A -> bool) l :
  List.filter p l = [] -> forall x, In x l -> p x = false.
Proof.
  intros H x Hx. destruct (p x) eqn:E; [|reflexivity].
  assert (Hin : In x (List.filter p l)) by (apply filter_In; auto).
  rewrite H in Hin. destruct Hin.
Qed.

(** The map built by the first loop of [extractVulnPackages]. *)
Lemma pkgMap_lookup vs k :
  fold_left addVulnPackage vs ∅ !! k
  = match Spec.vulnsOfPackage k vs with
    | [] => None
    | _ :: _ =>
        Some (pkgAgg.mk
                (PackageVuln.Name (Spec.packageVulnFor k vs))
                (PackageVuln.Version (Spec.packageVulnFor k vs))
                (PackageVuln.Arch (Spec.packageVulnFor k vs))
                (PackageVuln.Score (Spec.packageVulnFor k vs))
                (PackageVuln.Fix (Spec.packageVulnFor k vs))
                (PackageVuln.Bulletins (Spec.packageVulnFor k vs))
                (PackageVuln.CVEs (Spec.packageVulnFor k vs)))
    end.
Proof.
  unfold addVulnPackage.
  rewrite (fold_merge_lookup vulners.Vulnerability.Package groupPackage).
  rewrite lookup_empty.
  change (List.filter _ vs) with (Spec.vulnsOfPackage k vs).
  destruct (Spec.vulnsOfPackage k vs) as [|v fs] eqn:Hfs; [reflexivity|].
  now apply groupPackage_all.
Qed.

Lemma vulnsOfPackage_nonempty k vs :
  In k (Spec.packageStrings vs) <-> Spec.vulnsOfPackage k vs <> [].
Proof.
  unfold Spec.packageStrings, Spec.vulnsOfPackage.
  rewrite firstSeen_In, in_map_iff. split.
  - intros (v & <- & Hv) H.
    pose proof (filter_nil_not_In _ _ H v Hv) as E. simpl in E.
    now rewrite String.eqb_refl in E.
  - destruct (List.filter _ vs) as [|v fs] eqn:E; [congruence|]. intros _.
    assert (Hin : In v (List.filter
                          (fun v => String.eqb
                                      (vulners.Vulnerability.Package v) k)
                          vs)) by (rewrite E; now left).
    apply filter_In in Hin as [Hin Hk]. apply String.eqb_eq in Hk. eauto.
Qed.

(** What [extractVulnPackages] returns, up to the order of the map. *)
Lemma extractVulnPackages_closed result vulns :
  extractVulnPackages (Some result) vulns ->
  vulns ≡ₚ map (fun key => Spec.packageVulnFor key
                             (vulners.AuditResult.Vulnerabilities result))
             (Spec.packageStrings
                (vulners.AuditResult.Vulnerabilities result)).
Proof.
  unfold extractVulnPackages.
  set (vs := vulners.AuditResult.Vulnerabilities result).
  destruct (GoSlice.len vs =? 0) eqn:Hlen.
  - intros ->. destruct vs; [reflexivity | discriminate].
  - intros (range & Hrange & ->). unfold extractVulnPackagesFrom.
    rewrite fold_left_snoc_map. simpl. unfold mapRange in Hrange.
    rewrite Hrange.
    rewrite (map_values_perm _ (Spec.packageStrings vs)
               (fun k => match fold_left addVulnPackage vs ∅ !! k with
                         | Some agg => agg
                         | None => pkgAgg.mk "" "" "" PrimFloat.zero "" [] []
                         end)).
    + rewrite map_map. apply Permutation_refl'. apply map_ext_in.
      intros k Hk. rewrite pkgMap_lookup.
      apply vulnsOfPackage_nonempty in Hk.
      destruct (Spec.vulnsOfPackage k vs); [congruence|].
      unfold packageVulnOf; simpl. now destruct (Spec.packageVulnFor k vs).
    + apply firstSeen_NoDup.
    + intros k Hk. rewrite pkgMap_lookup.
      apply vulnsOfPackage_nonempty in Hk.
      destruct (Spec.vulnsOfPackage k vs); [congruence | reflexivity].
    + intros k Hk. rewrite pkgMap_lookup.
      destruct (Spec.vulnsOfPackage k vs) eqn:E; [reflexivity|].
      exfalso. apply Hk, vulnsOfPackage_nonempty. congruence.
Qed.

Lemma raisedBy_spec scores m0 :
  (Spec.raisedBy m0 scores = m0
   \/ (In (Spec.raisedBy m0 scores) scores
       /\ PrimFloat.ltb m0 (Spec.raisedBy m0 scores) = true))
  /\ (forall s, In s scores ->
        GoFloat.gt s (Spec.raisedBy m0 scores) = false).
Proof.
  destruct (running_max (fun s : float => s) scores m0 _ eq_refl)
    as [Hm Hub].
  rewrite map_id in Hm. split; assumption.
Qed.

Lemma raisedBy_zero scores :
  GoFloat.isNaN (Spec.raisedBy PrimFloat.zero scores) = false
  /\ GoFloat.le PrimFloat.zero (Spec.raisedBy PrimFloat.zero scores) = true.
Proof.
  destruct (raisedBy_spec scores PrimFloat.zero) as [[->|[_ Hgt]] _].
  - split; reflexivity.
  - split; [|now apply ltb_leb].
    apply ltb_rank in Hgt as (x & y & _ & Hy & _).
    apply notNaN_rank; eauto.
Qed.

Lemma packageVulnFor_score key vs :
  PackageVuln.Score (Spec.packageVulnFor key vs)
  = Spec.raisedBy PrimFloat.zero
      (map cvssScore (Spec.vulnsOfPackage key vs)).
Proof.
  unfold Spec.packageVulnFor.
  now destruct (ParsePackageString key) as [[name version] arch].
Qed.

Lemma filter_all {A} (p : A -> bool) l :
  Forall (fun x => p x = true) l -> List.filter p l = l.
Proof.
  induction 1 as [|x l Hx _ IH]; simpl; [reflexivity|].
  now rewrite Hx, IH.
Qed.

(** X8: every package [extractVulnPackages] reports has a score that is
    a number (not NaN) and at least 0, whatever the scores of the audit
    result are; so [FilterByMinCVSS] at a threshold of 0 or less drops
    none of them. *)
Theorem extractVulnPackages_scores result vulns :
  extractVulnPackages (Some result) vulns ->
  Forall (fun pkg =>
            GoFloat.isNaN (PackageVuln.Score pkg) = false
            /\ GoFloat.le PrimFloat.zero (PackageVuln.Score pkg) = true)
         vulns
  /\ (forall minScore,
        GoFloat.le minScore PrimFloat.zero = true ->
        FilterByMinCVSS vulns minScore = vulns).
Proof.
  intros H%extractVulnPackages_closed.
  assert (Hall : Forall (fun pkg =>
            GoFloat.isNaN (PackageVuln.Score pkg) = false
            /\ GoFloat.le PrimFloat.zero (PackageVuln.Score pkg) = true)
         vulns).
  { eapply Permutation_Forall; [symmetry; exact H|].
    apply List.Forall_forall. intros pkg (key & <- & _)%in_map_iff.
    rewrite packageVulnFor_score. apply raisedBy_zero. }
  split; [exact Hall|]. intros minScore Hmin.
  rewrite FilterByMinCVSS_filter. apply filter_all.
  eapply List.Forall_impl; [|exact Hall]. intros pkg [_ Hle]. simpl in *.
  unfold GoFloat.ge, GoFloat.le in *. eapply leb_trans; eauto.
Qed.

Lemma extractVulnPackages_scores_witness :
  Forall (fun pkg =>
            GoFloat.isNaN (PackageVuln.Score pkg) = false
            /\ GoFloat.le PrimFloat.zero (PackageVuln.Score pkg) = true)
         Examples.auditPackages.
Proof.
  refine (proj1 (extractVulnPackages_scores Examples.audit _ _)).
  unfold extractVulnPackages.
  change (GoSlice.len (vulners.AuditResult.Vulnerabilities Examples.audit)
          =? 0) with false.
  eexists. split; [unfold mapRange; reflexivity | reflexivity].
Defined.

(** X9: [extractVulnPackages] reports one package per distinct package
    string of the audit result: its name, version and architecture are
    parsed from the string, its score is the greatest of 0 and the CVSS
    scores of its vulnerabilities (so 0 when none has a score above 0),
    its fix is that of the first of them, and its bulletins and CVEs are
    those of all of them in the order of the result, duplicates
    included. *)
Theorem extractVulnPackages_groups result vulns :
  extractVulnPackages (Some result) vulns ->
  vulns ≡ₚ map (fun key => Spec.packageVulnFor key
                             (vulners.AuditResult.Vulnerabilities result))
             (Spec.packageStrings
                (vulners.AuditResult.Vulnerabilities result))
  /\ GoSlice.len vulns
     = GoSlice.len (Spec.packageStrings
                      (vulners.AuditResult.Vulnerabilities result))
  /\ Forall (fun pkg =>
               exists v,
                 In v (vulners.AuditResult.Vulnerabilities result)
                 /\ (PackageVuln.Name pkg, PackageVuln.Version pkg,
                     PackageVuln.Arch pkg)
                    = ParsePackageString (vulners.Vulnerability.Package v))
            vulns.
Proof.
  intros H%extractVulnPackages_closed. split; [exact H|]. split.
  - unfold GoSlice.len. f_equal. apply Permutation_length in H.
    now rewrite H, length_map.
  - eapply Permutation_Forall; [symmetry; exact H|].
    apply List.Forall_forall. intros pkg (key & <- & Hk)%in_map_iff.
    unfold Spec.packageStrings in Hk.
    apply firstSeen_In, in_map_iff in Hk as (v & <- & Hv).
    exists v. split; [exact Hv|]. unfold Spec.packageVulnFor.
    now destruct (ParsePackageString _) as [[name version] arch].
Qed.

Lemma extractVulnPackages_groups_witness :
  GoSlice.len Examples.auditPackages = 3.
Proof.
  refine (proj1 (proj2 (extractVulnPackages_groups Examples.audit _ _))).
  unfold extractVulnPackages.
  change (GoSlice.len (vulners.AuditResult.Vulnerabilities Examples.audit)
          =? 0) with false.
  eexists. split; [unfold mapRange; reflexivity | reflexivity].
Defined.

(** The bulletins: the vulnerabilities without a bulletin ID are
    skipped, the others are grouped as the packages are. *)
Lemma fold_addVulnBulletin vs : forall bMap,
  fold_left addVulnBulletin vs bMap
  = fold_left
      (fun (m : gmap string bulletinAgg.t) v =>
         <[ vulners.Vulnerability.BulletinID v
            := groupBulletin (m !! vulners.Vulnerability.BulletinID v) v ]>
           m)
      (List.filter
         (fun v => nonEmpty (vulners.Vulnerability.BulletinID v)) vs)
      bMap.
Proof.
  induction vs as [|v vs IH]; intros bMap; simpl; [reflexivity|].
  rewrite IH. unfold addVulnBulletin at 1.
  now destruct (String.eqb (vulners.Vulnerability.BulletinID v) "").
Qed.

Lemma raisedBy_app m0 l1 l2 :
  Spec.raisedBy m0 (l1 ++ l2) = Spec.raisedBy (Spec.raisedBy m0 l1) l2.
Proof. apply fold_left_app. Qed.

Lemma groupBulletin_more fs : forall agg,
  fold_left (fun o v => Some (groupBulletin o v)) fs (Some agg)
  = Some (bulletinAgg.mk (bulletinAgg.id agg)
            (Spec.raisedBy (bulletinAgg.maxScore agg) (Spec.scoresGiven fs))
            (fold_left appendUnique
               (flat_map vulners.Vulnerability.CVEList fs)
               (bulletinAgg.cves agg))
            (bulletinAgg.fix_ agg)
            (bulletinAgg.affectedPkg agg
               ++ map vulners.Vulnerability.Package fs)).
Proof.
  induction fs as [|v fs IH]; intros agg.
  - simpl. rewrite app_nil_r. now destruct agg.
  - simpl fold_left. rewrite IH. unfold groupBulletin; simpl.
    rewrite appendUniqueCVEs_fold, fold_left_app, <- app_assoc.
    unfold Spec.scoresGiven; simpl. fold (Spec.scoresGiven fs).
    rewrite raisedBy_app.
    now destruct (vulners.Vulnerability.CVSS v).
Qed.

Lemma vulnsOfBulletin_ID id vs v :
  In v (Spec.vulnsOfBulletin id vs) -> vulners.Vulnerability.BulletinID v = id.
Proof. intros [_ H]%filter_In. now apply String.eqb_eq in H. Qed.

Lemma bMap_lookup vs k :
  fold_left addVulnBulletin vs ∅ !! k
  = if String.eqb k "" then None
    else match Spec.vulnsOfBulletin k vs with
         | [] => None
         | _ :: _ =>
             let b := Spec.bulletinSummaryFor k vs in
             Some (bulletinAgg.mk (BulletinSummary.ID b)
                     (BulletinSummary.Score b) (BulletinSummary.CVEs b)
                     (BulletinSummary.Fix b) (BulletinSummary.AffectedPkg b))
         end.
Proof.
  rewrite fold_addVulnBulletin.
  rewrite (fold_merge_lookup vulners.Vulnerability.BulletinID groupBulletin).
  rewrite lookup_empty, filter_filter.
  destruct (String.eqb_spec k "") as [->|Hk].
  - replace (List.filter _ vs) with (@nil vulners.Vulnerability.t);
      [reflexivity|].
    symmetry. induction vs as [|v vs IH]; simpl; [reflexivity|].
    rewrite <- IH.
    now destruct (String.eqb (vulners.Vulnerability.BulletinID v) "").
  - replace (List.filter _ vs) with (Spec.vulnsOfBulletin k vs).
    2:{ apply filter_ext. intros v.
        destruct (String.eqb_spec (vulners.Vulnerability.BulletinID v) k)
          as [->|Hne]; [|symmetry; apply andb_false_r].
        apply String.eqb_neq in Hk. now rewrite Hk. }
    unfold Spec.bulletinSummaryFor.
    destruct (Spec.vulnsOfBulletin k vs) as [|v fs] eqn:Hfs; [reflexivity|].
    assert (Hv : vulners.Vulnerability.BulletinID v = k).
    { apply (vulnsOfBulletin_ID k vs). rewrite Hfs. now left. }
    simpl fold_left. rewrite groupBulletin_more.
    unfold groupBulletin; simpl. now rewrite Hv.
Qed.

Lemma bulletinIDs_spec k vs :
  In k (Spec.bulletinIDs vs) <->
  k <> "" /\ Spec.vulnsOfBulletin k vs <> [].
Proof.
  unfold Spec.bulletinIDs, Spec.vulnsOfBulletin.
  rewrite firstSeen_In, filter_In, in_map_iff, negb_true_iff,
    String.eqb_neq. split.
  - intros [(v & <- & Hv) Hne]. split; [exact Hne|]. intros H.
    pose proof (filter_nil_not_In _ _ H v Hv) as E. simpl in E.
    now rewrite String.eqb_refl in E.
  - intros [Hne H]. split; [|exact Hne].
    destruct (List.filter _ vs) as [|v fs] eqn:E; [congruence|].
    assert (Hin : In v (List.filter
                          (fun v => String.eqb
                                      (vulners.Vulnerability.BulletinID v) k)
                          vs)) by (rewrite E; now left).
    apply filter_In in Hin as [Hin Hk]. apply String.eqb_eq in Hk. eauto.
Qed.

Lemma extractBulletins_closed result bulletins :
  extractBulletins (Some result) bulletins ->
  bulletins
  ≡ₚ map (fun id => Spec.bulletinSummaryFor id
                      (vulners.AuditResult.Vulnerabilities result))
       (Spec.bulletinIDs (vulners.AuditResult.Vulnerabilities result)).
Proof.
  unfold extractBulletins.
  set (vs := vulners.AuditResult.Vulnerabilities result).
  destruct (GoSlice.len vs =? 0) eqn:Hlen.
  - intros ->. destruct vs; [reflexivity | discriminate].
  - intros (range & Hrange & ->). unfold extractBulletinsFrom.
    rewrite fold_left_snoc_map. simpl. unfold mapRange in Hrange.
    rewrite Hrange.
    rewrite (map_values_perm _ (Spec.bulletinIDs vs)
               (fun k => match fold_left addVulnBulletin vs ∅ !! k with
                         | Some agg => agg
                         | None => bulletinAgg.mk "" PrimFloat.zero [] "" []
                         end)).
    + rewrite map_map. apply Permutation_refl'. apply map_ext_in.
      intros k [Hne Hk]%bulletinIDs_spec. rewrite bMap_lookup.
      apply String.eqb_neq in Hne. rewrite Hne.
      unfold Spec.bulletinSummaryFor.
      destruct (Spec.vulnsOfBulletin k vs); [congruence | reflexivity].
    + apply firstSeen_NoDup.
    + intros k [Hne Hk]%bulletinIDs_spec. rewrite bMap_lookup.
      apply String.eqb_neq in Hne. rewrite Hne.
      destruct (Spec.vulnsOfBulletin k vs); [congruence | reflexivity].
    + intros k Hk. rewrite bMap_lookup.
      destruct (String.eqb_spec k "") as [->|Hne]; [reflexivity|].
      destruct (Spec.vulnsOfBulletin k vs) eqn:E; [reflexivity|].
      exfalso. apply Hk, bulletinIDs_spec. split; congruence.
Qed.

Lemma bulletinSummaryFor_fields id vs :
  BulletinSummary.ID (Spec.bulletinSummaryFor id vs) = id
  /\ BulletinSummary.Type_ (Spec.bulletinSummaryFor id vs) = ""
  /\ BulletinSummary.AffectedHosts (Spec.bulletinSummaryFor id vs) = []
  /\ BulletinSummary.AffectedPkg (Spec.bulletinSummaryFor id vs)
     = map vulners.Vulnerability.Package (Spec.vulnsOfBulletin id vs).
Proof.
  unfold Spec.bulletinSummaryFor.
  destruct (Spec.vulnsOfBulletin id vs); simpl; auto.
Qed.

(** X10: [extractBulletins] reports one bulletin per distinct bulletin
    ID of the audit result, the empty ID left out: no two of its
    bulletins share an ID, none has an empty ID, each lists the package
    strings of all the vulnerabilities of its ID in the order of the
    result, and the type and the affected hosts are left empty. *)
Theorem extractBulletins_groups result bulletins :
  extractBulletins (Some result) bulletins ->
  bulletins
  ≡ₚ map (fun id => Spec.bulletinSummaryFor id
                      (vulners.AuditResult.Vulnerabilities result))
       (Spec.bulletinIDs (vulners.AuditResult.Vulnerabilities result))
  /\ List.NoDup (map BulletinSummary.ID bulletins)
  /\ Forall (fun b =>
               BulletinSummary.ID b <> ""
               /\ BulletinSummary.Type_ b = ""
               /\ BulletinSummary.AffectedHosts b = []
               /\ BulletinSummary.AffectedPkg b
                  = map vulners.Vulnerability.Package
                      (Spec.vulnsOfBulletin (BulletinSummary.ID b)
                         (vulners.AuditResult.Vulnerabilities result)))
            bulletins.
Proof.
  intros H%extractBulletins_closed. split; [exact H|]. split.
  - eapply Permutation_NoDup.
    + symmetry. apply Permutation_map. exact H.
    + rewrite map_map.
      erewrite map_ext; [rewrite map_id; apply firstSeen_NoDup|].
      intros id. apply bulletinSummaryFor_fields.
  - eapply Permutation_Forall; [symmetry; exact H|].
    apply List.Forall_forall. intros b (id & <- & Hid)%in_map_iff.
    destruct (bulletinSummaryFor_fields id
                (vulners.AuditResult.Vulnerabilities result))
      as (-> & H2 & H3 & H4).
    apply bulletinIDs_spec in Hid as [Hne _]. auto.
Qed.

Lemma extractBulletins_groups_witness :
  List.NoDup (map BulletinSummary.ID Examples.auditBulletins).
Proof.
  refine (proj1 (proj2 (extractBulletins_groups Examples.audit _ _))).
  unfold extractBulletins.
  change (GoSlice.len (vulners.AuditResult.Vulnerabilities Examples.audit)
          =? 0) with false.
  eexists. split; [unfold mapRange; reflexivity | reflexivity].
Defined.

(** ** Fetching the hosts (hostmatrix.go) *)

Section FetchFacts.
Variable unicodeToLower : string -> string.
Variable GetHostItemsCtx : string -> string -> error + list zabbix.Item.t.
Variable GetHostsWithTemplateCtx : string -> error + list zabbix.Host.t.

Local Abbreviation fetchHostData' :=
  (fetchHostData unicodeToLower GetHostItemsCtx).
Local Abbreviation FetchHosts' :=
  (FetchHosts unicodeToLower GetHostItemsCtx GetHostsWithTemplateCtx).

Lemma fetchHostData_host host data :
  fetchHostData' host = inr (Some data) -> HostData.Host data = host.
Proof.
  unfold fetchHostData.
  destruct (GetHostItemsCtx _ "system.sw.os") as [err|osItems];
    [discriminate|].
  destruct (match firstValue osItems with
            | Some value => parseOSInfo unicodeToLower value
            | None => ("", "")
            end) as [osName osVersion].
  destruct (String.eqb osName ""); [discriminate|].
  destruct (GetHostItemsCtx _ "system.sw.packages") as [err|pkgItems];
    [discriminate|].
  destruct (GoSlice.len _ =? 0); [discriminate|].
  destruct (negb _); [discriminate|].
  now intros [= <-].
Qed.

(** The loop of [FetchHosts] over the hosts. *)
Lemma fetch_loop hosts : forall acc,
  exists data,
    fold_left
      (fun hostData host =>
         match fetchHostData' host with
         | inl _ => hostData
         | inr None => hostData
         | inr (Some data) => hostData ++ [data]
         end) hosts acc
    = acc ++ data
    /\ sublist (map HostData.Host data) hosts
    /\ Forall (fun d => fetchHostData' (HostData.Host d) = inr (Some d))
         data.
Proof.
  induction hosts as [|host hosts IH]; intros acc; simpl.
  - exists []. rewrite app_nil_r. repeat split; constructor.
  - destruct (fetchHostData' host) as [err|[d|]] eqn:E.
    + destruct (IH acc) as (data & -> & Hsub & Hall).
      exists data. repeat split; auto. now constructor.
    + destruct (IH (acc ++ [d])) as (data & -> & Hsub & Hall).
      exists (d :: data). rewrite <- app_assoc. simpl.
      pose proof (fetchHostData_host _ _ E) as Hd.
      repeat split.
      * rewrite Hd. now constructor.
      * constructor; [now rewrite Hd | exact Hall].
    + destruct (IH acc) as (data & -> & Hsub & Hall).
      exists data. repeat split; auto. now constructor.
Qed.

(** X14: [FetchHosts] fails only when the listing of the hosts fails;
    a failure to read the items of a host just leaves that host out.
    The hosts it returns are hosts of the listing, in the order of the
    listing, each with the data [fetchHostData] gives for it; with a
    positive limit there are at most that many of them, and with a list
    of host IDs all of them are on the list. *)
Theorem FetchHosts_selects (OSReportTemplate : string)
    (HostIDs : list string) (Limit : Z) :
  match GetHostsWithTemplateCtx OSReportTemplate with
  | inl err =>
      FetchHosts' OSReportTemplate HostIDs Limit
      = inl (ErrorWrap "failed to get hosts" err)
  | inr listed =>
      exists data,
        FetchHosts' OSReportTemplate HostIDs Limit = inr data
        /\ sublist (map HostData.Host data) listed
        /\ Forall (fun d => fetchHostData' (HostData.Host d) = inr (Some d))
             data
        /\ (0 < Limit -> GoSlice.len data <= Limit)
        /\ (HostIDs <> [] ->
            Forall (fun d =>
                      In (zabbix.Host.HostID (HostData.Host d)) HostIDs)
                   data)
  end.
Proof.
  unfold FetchHosts.
  destruct (GetHostsWithTemplateCtx OSReportTemplate) as [err|listed];
    [reflexivity|].
  set (chosen :=
         if 0 <? GoSlice.len HostIDs
         then List.filter
                (fun h => bool_decide
                            (zabbix.Host.HostID h
                               ∈ (list_to_set HostIDs : gset string)))
                listed
         else listed).
  set (limited :=
         if (0 <? Limit) && (Limit <? GoSlice.len chosen)
         then take (Z.to_nat Limit) chosen else chosen).
  destruct (fetch_loop limited []) as (data & Hdata & Hsub & Hall).
  exists data. split; [now rewrite Hdata|].
  assert (Hlim : sublist limited chosen).
  { unfold limited. destruct (_ && _); [apply sublist_take | reflexivity]. }
  assert (Hch : sublist chosen listed).
  { unfold chosen. destruct (0 <? _); [apply filter_sublist | reflexivity]. }
  split; [|split; [exact Hall|split]].
  - etransitivity; [exact Hsub|]. etransitivity; eassumption.
  - intros Hpos. apply sublist_length in Hsub.
    rewrite length_map in Hsub.
    assert (Hl : GoSlice.len limited <= Limit).
    { unfold limited, GoSlice.len in *.
      destruct (0 <? Limit) eqn:E1; [|lia]. simpl.
      destruct (Limit <? Z.of_nat (length chosen)) eqn:E2.
      - rewrite length_take. lia.
      - lia. }
    unfold GoSlice.len in *. lia.
  - intros Hids.
    assert (E : (0 <? GoSlice.len HostIDs) = true).
    { destruct HostIDs; [congruence|]. reflexivity. }
    unfold chosen in Hch, Hlim. rewrite E in *.
    apply List.Forall_forall. intros d Hd.
    assert (Hin : In (HostData.Host d) limited).
    { apply list_elem_of_In. eapply elem_of_sublist; [|exact Hsub].
      apply list_elem_of_In, in_map, Hd. }
    apply list_elem_of_In in Hin.
    eapply elem_of_sublist in Hin; [|exact Hlim].
    apply list_elem_of_In, filter_In in Hin as [_ Hin].
    apply bool_decide_eq_true, elem_of_list_to_set in Hin.
    now apply list_elem_of_In.
Qed.
End FetchFacts.

(** ** Scanning (scanner.go) *)

Lemma prefix_byte c s :
  String.prefix (String c EmptyString) s
  = match s with
    | String d _ => Ascii.eqb c d
    | EmptyString => false
    end.
Proof.
  destruct s as [|d r]; simpl; [reflexivity|].
  destruct (Ascii.ascii_dec c d) as [->|Hne].
  - rewrite Ascii.eqb_refl. now destruct r.
  - apply Ascii.eqb_neq in Hne. now rewrite Hne.
Qed.

(** After [ReplaceAll(s, old, "")] no [old] is left. *)
Lemma ReplaceAll_removes s old :
  GoStrings.Contains (GoStrings.ReplaceAll s old "")
    (String old EmptyString) = false.
Proof.
  induction s as [|c r IH]; [reflexivity|].
  simpl GoStrings.ReplaceAll. destruct (Ascii.eqb c old) eqn:E.
  - exact IH.
  - cbn [GoStrings.Contains]. rewrite prefix_byte, IH.
    rewrite Ascii.eqb_sym, E. reflexivity.
Qed.

Lemma Permutation_filter' {A} (p : A -> bool) l l' :
  l ≡ₚ l' -> List.filter p l ≡ₚ List.filter p l'.
Proof.
  induction 1 as [|x l l' _ IH|x y l|l1 l2 l3 _ IH1 _ IH2]; simpl.
  - reflexivity.
  - destruct (p x); [now constructor | exact IH].
  - destruct (p x), (p y); try reflexivity. apply perm_swap.
  - etransitivity; eassumption.
Qed.

Lemma fold_addOutcome outcomes : forall a,
  fold_left addOutcome outcomes a = addAll a (Spec.entriesOf outcomes).
Proof.
  induction outcomes as [|[err|entry] outcomes IH]; intros a; simpl;
    [reflexivity | apply IH | apply IH].
Qed.

Lemma entriesOf_length outcomes :
  (length (Spec.entriesOf outcomes) <= length outcomes)%nat.
Proof.
  induction outcomes as [|[err|entry] outcomes IH]; simpl; lia.
Qed.

(** Scores of the aggregates of hosts whose findings all pass [Q]. *)
Lemma addAll_package_scores (Q : float -> Prop) entries k p :
  Forall (fun entry =>
            Forall (fun pkg => Q (PackageVuln.Score pkg))
                   (HostEntry.Packages entry)) entries ->
  packages (addAll NewAggregator entries) !! k = Some p ->
  Q (PackageEntry.Score p).
Proof.
  intros Hall Hk. rewrite addAll_packages in Hk.
  apply (mergeAll_maximum _ PackageEntry.Score Spec.pkgScore
           pkgMerge_score_new pkgMerge_score) in Hk.
  destruct Hk as [Hin _].
  apply in_map_iff in Hin as (f & <- & Hf).
  unfold Spec.pkgFindings in Hf. apply filter_In in Hf as [Hf _].
  apply in_flat_map in Hf as (entry & He & Hf).
  unfold Spec.pkgFindingsOf in Hf. apply in_map_iff in Hf as (pkg & <- & Hp).
  rewrite List.Forall_forall in Hall. specialize (Hall _ He).
  rewrite List.Forall_forall in Hall. exact (Hall _ Hp).
Qed.

Lemma addAll_bulletin_scores (Q : float -> Prop) entries k b :
  Forall (fun entry =>
            Forall (fun bul => Q (BulletinSummary.Score bul))
                   (HostEntry.Bulletins entry)) entries ->
  bulletins (addAll NewAggregator entries) !! k = Some b ->
  Q (BulletinEntry.Score b).
Proof.
  intros Hall Hk. rewrite addAll_bulletins in Hk.
  apply (mergeAll_maximum _ BulletinEntry.Score Spec.bulScore
           bulMerge_score_new bulMerge_score) in Hk.
  destruct Hk as [Hin _].
  apply in_map_iff in Hin as (f & <- & Hf).
  unfold Spec.bulFindings in Hf. apply filter_In in Hf as [Hf _].
  apply in_flat_map in Hf as (entry & He & Hf).
  unfold Spec.bulFindingsOf in Hf. apply in_map_iff in Hf as (bul & <- & Hp).
  rewrite List.Forall_forall in Hall. specialize (Hall _ He).
  rewrite List.Forall_forall in Hall. exact (Hall _ Hp).
Qed.

Section ScanHostFacts.
Variable LinuxAudit :
  string -> string -> list string -> error + option vulners.AuditResult.t.
Variable MinCVSS : float.

Local Abbreviation scanHost' := (scanHost LinuxAudit MinCVSS).

(** X11: the entry [scanHost] returns for a host carries the ID, the
    technical name and the visible name of the host and the score of the
    audit result; every package and bulletin in it has a score of at
    least [MinCVSS]; its cumulative fix holds no comma; and when
    [MinCVSS] is 0 or less no package of the audit result is missing. *)
Theorem scanHost_entry (hostData : HostData.t) (entry : HostEntry.t) :
  scanHost' hostData (inr entry) ->
  exists result,
    LinuxAudit (HostData.OSName hostData) (HostData.OSVersion hostData)
      (HostData.Packages hostData) = inr (Some result)
    /\ HostEntry.HostID entry = zabbix.Host.HostID (HostData.Host hostData)
    /\ HostEntry.Name entry = zabbix.Host.Name (HostData.Host hostData)
    /\ HostEntry.Host entry = zabbix.Host.Host (HostData.Host hostData)
    /\ HostEntry.Score entry = vulners.AuditResult.CVSSScore result
    /\ Forall (fun pkg => GoFloat.ge (PackageVuln.Score pkg) MinCVSS = true)
         (HostEntry.Packages entry)
    /\ Forall (fun b => GoFloat.ge (BulletinSummary.Score b) MinCVSS = true)
         (HostEntry.Bulletins entry)
    /\ GoStrings.Contains (HostEntry.CumulativeFix entry) "," = false
    /\ (GoFloat.le MinCVSS PrimFloat.zero = true ->
        HostEntry.Packages entry
        ≡ₚ map (fun key =>
                  Spec.packageVulnFor key
                    (vulners.AuditResult.Vulnerabilities result))
             (Spec.packageStrings
                (vulners.AuditResult.Vulnerabilities result))).
Proof.
  unfold scanHost.
  destruct (LinuxAudit _ _ _) as [err|[result|]]; [discriminate| |tauto].
  intros (vulnPackages & bulletins & Hp & Hb & [= ->]).
  exists result. unfold hostEntryOf; simpl.
  split; [reflexivity|]. split; [reflexivity|]. split; [reflexivity|].
  split; [reflexivity|]. split; [reflexivity|]. split; [|split; [|split]].
  - rewrite (FilterByMinCVSS_filter vulnPackages MinCVSS). apply List.Forall_forall.
    now intros pkg [_ H]%filter_In.
  - rewrite FilterBulletinsByMinCVSS_filter. apply List.Forall_forall.
    now intros b [_ H]%filter_In.
  - apply ReplaceAll_removes.
  - intros Hmin. pose proof (extractVulnPackages_closed _ _ Hp) as Hc.
    assert (Hall : FilterByMinCVSS vulnPackages MinCVSS = vulnPackages).
    { rewrite FilterByMinCVSS_filter. apply filter_all.
      eapply Permutation_Forall; [symmetry; exact Hc|].
      apply List.Forall_forall. intros pkg (key & <- & _)%in_map_iff.
      rewrite packageVulnFor_score.
      destruct (raisedBy_zero
                  (map cvssScore
                     (Spec.vulnsOfPackage key
                        (vulners.AuditResult.Vulnerabilities result))))
        as [_ Hle].
      unfold GoFloat.ge, GoFloat.le in *. eapply leb_trans; eauto. }
    rewrite Hall. exact Hc.
Qed.

Lemma entriesOf_scanned done outcomes entry :
  Forall2 scanHost' done outcomes ->
  In entry (Spec.entriesOf outcomes) ->
  exists hostData, In hostData done /\ scanHost' hostData (inr entry).
Proof.
  induction 1 as [|hd out done outcomes Hs _ IH]; simpl; [tauto|].
  rewrite in_app_iff. intros [Hin|Hin].
  - destruct out as [err|e]; [destruct Hin|].
    destruct Hin as [<-|[]]. exists hd. split; [now left | exact Hs].
  - destruct (IH Hin) as (hostData & Hd & Hsc). exists hostData.
    split; [now right | exact Hsc].
Qed.

(** The entries come from the hosts whose audit succeeded, one for one
    and in the same order. *)
Lemma entriesOf_audited done outcomes :
  Forall2 scanHost' done outcomes ->
  Forall2 (fun hostData entry => scanHost' hostData (inr entry))
    (List.filter (Spec.auditSucceeds LinuxAudit) done)
    (Spec.entriesOf outcomes).
Proof.
  induction 1 as [|hd out done outcomes Hs _ IH]; simpl; [constructor|].
  pose proof Hs as Hout. unfold scanHost in Hout.
  unfold Spec.auditSucceeds at 1.
  destruct (LinuxAudit _ _ _) as [err|[result|]]; [| |destruct Hout].
  - rewrite Hout. exact IH.
  - destruct Hout as (vulnPackages & bulletins & _ & _ & Hout).
    rewrite Hout in *. simpl. constructor; [exact Hs | exact IH].
Qed.

Lemma Forall2_In_l {X Y} (P : X -> Y -> Prop) xs ys x :
  Forall2 P xs ys -> In x xs -> exists y, In y ys /\ P x y.
Proof.
  induction 1 as [|x0 y0 xs ys Hxy _ IH]; simpl; [tauto|].
  intros [<-|Hin]; [eauto|].
  destruct (IH Hin) as (y & Hy & Hp). eauto.
Qed.

Lemma scanHost_atLeastMin hostData entry :
  scanHost' hostData (inr entry) ->
  Forall (fun pkg => GoFloat.ge (PackageVuln.Score pkg) MinCVSS = true)
    (HostEntry.Packages entry)
  /\ Forall (fun b => GoFloat.ge (BulletinSummary.Score b) MinCVSS = true)
       (HostEntry.Bulletins entry).
Proof.
  unfold scanHost.
  destruct (LinuxAudit _ _ _) as [err|[result|]]; [discriminate| |tauto].
  intros (vulnPackages & bulletins & Hp & Hb & [= ->]).
  unfold hostEntryOf; simpl. split.
  - rewrite FilterByMinCVSS_filter. apply List.Forall_forall.
    now intros pkg [_ H]%filter_In.
  - rewrite FilterBulletinsByMinCVSS_filter. apply List.Forall_forall.
    now intros b [_ H]%filter_In.
Qed.

End ScanHostFacts.

Section ScanFacts.
Variable unicodeToLower : string -> string.
Variable GetHostItemsCtx : string -> string -> error + list zabbix.Item.t.
Variable GetHostsWithTemplateCtx : string -> error + list zabbix.Host.t.
Variable LinuxAudit :
  string -> string -> list string -> error + option vulners.AuditResult.t.
Variable OSReportTemplate : string.
Variable MinCVSS : float.

Local Abbreviation scanHost' := (scanHost LinuxAudit MinCVSS).
Local Abbreviation Scan' :=
  (Scan unicodeToLower GetHostItemsCtx GetHostsWithTemplateCtx LinuxAudit
     OSReportTemplate MinCVSS).

(** X12: no package and no bulletin in the results of a scan has a score
    below [MinCVSS]: the aggregates are built from findings that passed
    the filters, and the score of an aggregate is the score of one of
    them. *)
Theorem Scan_min_score (a a' : Aggregator) (HostIDs : list string)
    (Limit : Z) (results : ScanResults.t) :
  Scan' a HostIDs Limit (inr results) a' ->
  Forall (fun p => GoFloat.ge (PackageEntry.Score p) MinCVSS = true)
    (ScanResults.Packages results)
  /\ Forall (fun b => GoFloat.ge (BulletinEntry.Score b) MinCVSS = true)
       (ScanResults.Bulletins results).
Proof.
  unfold Scan. destruct (FetchHosts _ _ _ _ _ _) as [err|fetched].
  { intros [[=] _]. }
  destruct (GoSlice.len fetched =? 0).
  { intros [[= ->] _]. split; constructor. }
  intros (done & outcomes & r & _ & Hsc & -> & Hres & [= ->]).
  rewrite fold_addOutcome in Hres.
  change (Reset a) with NewAggregator in Hres.
  assert (Hall : Forall (fun entry =>
            Forall (fun pkg => GoFloat.ge (PackageVuln.Score pkg) MinCVSS = true)
                   (HostEntry.Packages entry)
            /\ Forall (fun b => GoFloat.ge (BulletinSummary.Score b) MinCVSS = true)
                 (HostEntry.Bulletins entry)) (Spec.entriesOf outcomes)).
  { apply List.Forall_forall. intros entry He.
    destruct (entriesOf_scanned _ _ _ _ _ Hsc He) as (hd & _ & Hs).
    now apply scanHost_atLeastMin in Hs. }
  destruct Hres as (ps & bs & Hps & Hbs & ->).
  unfold GetResultsFrom; simpl. rewrite !fold_left_snoc; simpl. split.
  - eapply Permutation_Forall; [symmetry; apply insertionSort_perm|].
    refine (mapRange_Forall _ _ _ _ Hps). intros k p Hk.
    apply (addAll_package_scores (fun s => GoFloat.ge s MinCVSS = true) _ _ _) in Hk; [exact Hk|].
    eapply List.Forall_impl; [|exact Hall]. now intros entry [H _].
  - eapply Permutation_Forall; [symmetry; apply insertionSort_perm|].
    refine (mapRange_Forall _ _ _ _ Hbs). intros k b Hk.
    apply (addAll_bulletin_scores (fun s => GoFloat.ge s MinCVSS = true) _ _ _) in Hk; [exact Hk|].
    eapply List.Forall_impl; [|exact Hall]. now intros entry [_ H].
Qed.

(** X13: a scan fails only when the listing of the hosts fails, and
    then leaves the aggregator as it was.  Otherwise its results count
    at most the hosts fetched; when there is none, the aggregator keeps
    what it held.  When there are hosts, the aggregator is reset first:
    afterwards it is what a fresh aggregator becomes by adding its host
    entries, so its packages and bulletins are built from these entries
    alone.  The host entries are exactly those of the fetched hosts whose
    audit succeeded, one entry for each of them, in the order in which
    the scans finished: every entry is the entry of such a host, every
    such host has its entry, and the number of entries, which the
    results report as [HostsScanned], is the number of these hosts.  A
    host whose audit fails is left out. *)
Theorem Scan_hosts (a a' : Aggregator) (HostIDs : list string) (Limit : Z)
    (out : error + ScanResults.t) :
  Scan' a HostIDs Limit out a' ->
  match out with
  | inl err =>
      exists err',
        GetHostsWithTemplateCtx OSReportTemplate = inl err' /\ a' = a
  | inr results =>
      exists fetched,
        FetchHosts unicodeToLower GetHostItemsCtx GetHostsWithTemplateCtx
          OSReportTemplate HostIDs Limit = inr fetched
        /\ 0 <= ScanResults.HostsScanned results <= GoSlice.len fetched
        /\ (fetched = [] -> a' = a)
        /\ (fetched <> [] ->
            ScanResults.HostsScanned results = GoSlice.len (hosts a')
            /\ ScanResults.Hosts results = hosts a'
            /\ Forall (fun entry =>
                         exists hostData,
                           In hostData fetched
                           /\ scanHost' hostData (inr entry))
                      (hosts a')
            /\ a' = addAll NewAggregator (hosts a')
            /\ (exists scanned,
                  scanned ≡ₚ List.filter (Spec.auditSucceeds LinuxAudit)
                                fetched
                  /\ Forall2 (fun hostData entry =>
                                scanHost' hostData (inr entry))
                       scanned (hosts a'))
            /\ Forall (fun hostData =>
                         Spec.auditSucceeds LinuxAudit hostData = true ->
                         exists entry,
                           In entry (hosts a')
                           /\ scanHost' hostData (inr entry))
                      fetched
            /\ ScanResults.HostsScanned results
               = Spec.countIf (Spec.auditSucceeds LinuxAudit) fetched
            /\ GetResults a' results)
  end.
Proof.
  unfold Scan.
  destruct (FetchHosts _ _ _ _ _ _) as [err|fetched] eqn:Hfetch.
  { intros [-> ->]. unfold FetchHosts in Hfetch.
    destruct (GetHostsWithTemplateCtx OSReportTemplate) as [err'|listed];
      [eauto | discriminate]. }
  destruct (GoSlice.len fetched =? 0) eqn:Hlen.
  { intros [-> ->]. exists fetched. split; [reflexivity|]. simpl.
    destruct fetched; [|discriminate]. repeat split; (lia || congruence). }
  intros (done & outcomes & r & Hperm & Hsc & -> & Hres & ->).
  exists fetched. split; [reflexivity|].
  rewrite fold_addOutcome. change (Reset a) with NewAggregator.
  rewrite fold_addOutcome in Hres. change (Reset a) with NewAggregator in Hres.
  destruct Hres as (ps & bs & Hps & Hbs & ->). unfold GetResultsFrom; simpl.
  rewrite addAll_hosts; simpl.
  pose proof (entriesOf_length outcomes) as Hle.
  pose proof (Forall2_length _ _ _ Hsc) as Hl2.
  pose proof (Permutation_length Hperm) as Hpl.
  pose proof (entriesOf_audited _ _ _ _ Hsc) as Hex.
  assert (Hfp : List.filter (Spec.auditSucceeds LinuxAudit) done
                ≡ₚ List.filter (Spec.auditSucceeds LinuxAudit) fetched)
    by now apply Permutation_filter'.
  split; [unfold GoSlice.len; lia|]. split.
  { intros ->. discriminate. }
  intros _. split; [reflexivity|]. split; [reflexivity|].
  split; [|split; [reflexivity|split; [|split; [|split]]]].
  - apply List.Forall_forall. intros entry He.
    destruct (entriesOf_scanned _ _ _ _ _ Hsc He) as (hd & Hd & Hs).
    exists hd. split; [|exact Hs].
    eapply Permutation_in; eassumption.
  - eexists. split; [exact Hfp | exact Hex].
  - apply List.Forall_forall. intros hd Hd Hok.
    apply (Forall2_In_l _ _ _ hd Hex).
    eapply Permutation_in; [symmetry; exact Hfp|].
    apply filter_In. now split.
  - unfold Spec.countIf, GoSlice.len. f_equal.
    rewrite <- (Permutation_length Hfp).
    symmetry. exact (Forall2_length _ _ _ Hex).
  - exists ps, bs. split; [exact Hps|]. split; [exact Hbs|].
    unfold GetResultsFrom; simpl. now rewrite addAll_hosts.
Qed.
End ScanFacts.

Lemma scanHost_entry_witness :
  exists result,
    Examples.linuxAudit "ubuntu" "20.04.3"
      (HostData.Packages Examples.monitorData) = inr (Some result)
    /\ HostEntry.HostID Examples.auditEntry = "1".
Proof.
  destruct (scanHost_entry Examples.linuxAudit 5 Examples.monitorData
              Examples.auditEntry) as (result & H1 & H2 & _).
  - unfold scanHost. cbn [Examples.linuxAudit].
    exists Examples.auditPackages, Examples.auditBulletins.
    split; [|split; [|reflexivity]].
    + unfold extractVulnPackages.
      change (GoSlice.len
                (vulners.AuditResult.Vulnerabilities Examples.audit) =? 0)
        with false.
      eexists. split; [unfold mapRange; reflexivity | reflexivity].
    + unfold extractBulletins.
      change (GoSlice.len
                (vulners.AuditResult.Vulnerabilities Examples.audit) =? 0)
        with false.
      eexists. split; [unfold mapRange; reflexivity | reflexivity].
  - exists result. split; [exact H1 | exact H2].
Defined.

Ltac scan_example :=
  unfold Scan;
  change (FetchHosts Examples.asciiOnly Examples.monitorItems
            Examples.monitorHosts "OS-Report" [] 0)
    with (@inr error _ [Examples.monitorData]);
  cbv beta iota;
  change (GoSlice.len [Examples.monitorData] =? 0) with false;
  cbv beta iota;
  exists [Examples.monitorData], [inr Examples.auditEntry],
    Examples.scanResults;
  split; [reflexivity|];
  split;
    [constructor; [|constructor];
     unfold scanHost; cbn [Examples.linuxAudit];
     exists Examples.auditPackages, Examples.auditBulletins;
     split; [|split; [|reflexivity]];
     [unfold extractVulnPackages | unfold extractBulletins];
     change (GoSlice.len
               (vulners.AuditResult.Vulnerabilities Examples.audit) =? 0)
       with false;
     eexists; (split; [unfold mapRange; reflexivity | reflexivity])|];
  split; [reflexivity|];
  split; [|reflexivity];
  eexists _, _; split; [|split; [|reflexivity]];
  unfold mapRange; reflexivity.

Lemma Scan_min_score_witness :
  Forall (fun p => GoFloat.ge (PackageEntry.Score p) 5 = true)
    (ScanResults.Packages Examples.scanResults).
Proof.
  refine (proj1 (Scan_min_score Examples.asciiOnly Examples.monitorItems
                   Examples.monitorHosts Examples.linuxAudit "OS-Report" 5
                   NewAggregator Examples.scanned [] 0
                   Examples.scanResults _)).
  scan_example.
Defined.

Lemma Scan_hosts_witness :
  exists fetched,
    FetchHosts Examples.asciiOnly Examples.monitorItems
      Examples.monitorHosts "OS-Report" [] 0 = inr fetched
    /\ 0 <= ScanResults.HostsScanned Examples.scanResults
       <= GoSlice.len fetched
    /\ fetched <> []
    /\ Examples.scanned = addAll NewAggregator (hosts Examples.scanned)
    /\ ScanResults.HostsScanned Examples.scanResults
       = Spec.countIf (Spec.auditSucceeds Examples.linuxAudit) fetched.
Proof.
  destruct (Scan_hosts Examples.asciiOnly Examples.monitorItems
              Examples.monitorHosts Examples.linuxAudit "OS-Report" 5
              NewAggregator Examples.scanned [] 0
              (inr Examples.scanResults)) as (fetched & H1 & H2 & _ & H4).
  - scan_example.
  - assert (Hne : fetched <> []).
    { intros ->. revert H1.
      change (FetchHosts Examples.asciiOnly Examples.monitorItems
                Examples.monitorHosts "OS-Report" [] 0)
        with (@inr error _ [Examples.monitorData]).
      discriminate. }
    destruct (H4 Hne) as (_ & _ & _ & Hreset & _ & _ & Hcount & _).
    exists fetched. split; [exact H1|]. split; [exact H2|].
    split; [exact Hne|]. split; [exact Hreset | exact Hcount].
Defined.

(** ** The address of a host (fixer.go) *)

Lemma firstAddress_Some pick useIP ifaces address port :
  fixer.firstAddress pick useIP ifaces = Some (address, port) ->
  address <> ""
  /\ exists iface,
       In iface ifaces /\ pick iface = true
       /\ port = zabbix.HostInterface.Port iface
       /\ address
          = (if useIP iface
                && negb (String.eqb (zabbix.HostInterface.IP iface) "")
             then zabbix.HostInterface.IP iface
             else zabbix.HostInterface.DNS iface).
Proof.
  induction ifaces as [|iface ifaces IH]; simpl; [discriminate|].
  destruct (pick iface) eqn:Hp.
  - destruct (useIP iface
              && negb (String.eqb (zabbix.HostInterface.IP iface) ""))
      eqn:Hip.
    + intros [= <- <-]. pose proof Hip as Hif.
      apply andb_prop in Hip as [_ Hip].
      apply negb_true_iff, String.eqb_neq in Hip. split; [exact Hip|].
      exists iface. rewrite Hp, Hif. auto.
    + destruct (String.eqb (zabbix.HostInterface.DNS iface) "") eqn:Hdns;
        simpl.
      * intros H. destruct (IH H) as (Hne & i & Hi & Hrest).
        split; [exact Hne|]. exists i. auto.
      * intros [= <- <-]. apply String.eqb_neq in Hdns.
        split; [exact Hdns|]. exists iface. rewrite Hp, Hip. auto.
  - intros H. destruct (IH H) as (Hne & i & Hi & Hrest).
    split; [exact Hne|]. exists i. auto.
Qed.

Lemma firstAddress_None pick useIP ifaces :
  fixer.firstAddress pick useIP ifaces = None <->
  Forall (fun iface =>
            pick iface = true ->
            (useIP iface
             && negb (String.eqb (zabbix.HostInterface.IP iface) "")) = false
            /\ zabbix.HostInterface.DNS iface = "")
         ifaces.
Proof.
  induction ifaces as [|iface ifaces IH]; simpl.
  - split; [constructor | reflexivity].
  - rewrite List.Forall_cons_iff, <- IH.
    destruct (pick iface) eqn:Hp; [|intuition discriminate].
    destruct (useIP iface
              && negb (String.eqb (zabbix.HostInterface.IP iface) ""))
      eqn:Hip; [intuition discriminate|].
    destruct (String.eqb_spec (zabbix.HostInterface.DNS iface) "")
      as [Hd|Hd]; simpl.
    + intuition.
    + split; [discriminate|]. intros [H _]. now destruct (H eq_refl).
Qed.

Local Abbreviation isMainAgent :=
  (fun iface =>
     String.eqb (zabbix.HostInterface.Main iface) "1"
     && String.eqb (zabbix.HostInterface.Type_ iface) "1").
Local Abbreviation isMain :=
  (fun iface => String.eqb (zabbix.HostInterface.Main iface) "1").
Local Abbreviation usesIP :=
  (fun iface => String.eqb (zabbix.HostInterface.UseIP iface) "1").

(** X16: [getHostAddress] returns the empty address exactly when no
    interface of the host has an IP address or a DNS name, and then the
    port is empty too; an address it returns is never empty otherwise: it
    is the IP address or the DNS name of one of the interfaces, and the
    port is the port of that interface. *)
Theorem getHostAddress_found (host : zabbix.Host.t) :
  (fst (fixer.getHostAddress host) = "" <->
   Forall (fun iface =>
             zabbix.HostInterface.IP iface = ""
             /\ zabbix.HostInterface.DNS iface = "")
          (zabbix.Host.Interfaces host))
  /\ (fst (fixer.getHostAddress host) = "" ->
      snd (fixer.getHostAddress host) = "")
  /\ (fst (fixer.getHostAddress host) <> "" ->
      exists iface,
        In iface (zabbix.Host.Interfaces host)
        /\ snd (fixer.getHostAddress host) = zabbix.HostInterface.Port iface
        /\ (fst (fixer.getHostAddress host) = zabbix.HostInterface.IP iface
            \/ fst (fixer.getHostAddress host)
               = zabbix.HostInterface.DNS iface)).
Proof.
  unfold fixer.getHostAddress.
  set (ifaces := zabbix.Host.Interfaces host).
  assert (Hsome : forall pick useIP address port,
            fixer.firstAddress pick useIP ifaces = Some (address, port) ->
            address <> ""
            /\ ~ Forall (fun iface =>
                           zabbix.HostInterface.IP iface = ""
                           /\ zabbix.HostInterface.DNS iface = "") ifaces
            /\ exists iface,
                 In iface ifaces
                 /\ port = zabbix.HostInterface.Port iface
                 /\ (address = zabbix.HostInterface.IP iface
                     \/ address = zabbix.HostInterface.DNS iface)).
  { intros pick useIP address port H.
    apply firstAddress_Some in H as (Hne & iface & Hin & _ & Hport & Ha).
    split; [exact Hne|]. split.
    - intros Hall. rewrite List.Forall_forall in Hall.
      destruct (Hall _ Hin) as [Hip Hdns].
      destruct (useIP iface && _); congruence.
    - exists iface. split; [exact Hin|]. split; [exact Hport|].
      destruct (useIP iface && _); auto. }
  destruct (fixer.firstAddress isMainAgent usesIP ifaces)
    as [[address port]|] eqn:H1.
  { destruct (Hsome _ _ _ _ H1) as (Hne & Hnot & Hex). simpl.
    split; [tauto|]. split; [tauto | auto]. }
  destruct (fixer.firstAddress isMain usesIP ifaces)
    as [[address port]|] eqn:H2.
  { destruct (Hsome _ _ _ _ H2) as (Hne & Hnot & Hex). simpl.
    split; [tauto|]. split; [tauto | auto]. }
  destruct (fixer.firstAddress (fun _ => true) (fun _ => true) ifaces)
    as [[address port]|] eqn:H3.
  { destruct (Hsome _ _ _ _ H3) as (Hne & Hnot & Hex). simpl.
    split; [tauto|]. split; [tauto | auto]. }
  simpl. split; [|split; [reflexivity | congruence]].
  split; [|reflexivity]. intros _.
  apply firstAddress_None in H3.
  eapply List.Forall_impl; [|exact H3]. intros iface H.
  destruct (H eq_refl) as [Hip Hdns]. split; [|exact Hdns].
  simpl in Hip. apply negb_false_iff in Hip. now apply String.eqb_eq.
Qed.

(** X17: when the host has a main agent interface (main "1", type "1")
    with a DNS name, or with an IP address that it is set to use, the
    address [getHostAddress] returns is that of a main agent interface,
    with its port: the IP address if the interface uses it and has one,
    the DNS name otherwise. *)
Theorem getHostAddress_prefers_agent (host : zabbix.Host.t)
    (iface : zabbix.HostInterface.t) :
  In iface (zabbix.Host.Interfaces host) ->
  zabbix.HostInterface.Main iface = "1" ->
  zabbix.HostInterface.Type_ iface = "1" ->
  zabbix.HostInterface.DNS iface <> ""
  \/ (zabbix.HostInterface.UseIP iface = "1"
      /\ zabbix.HostInterface.IP iface <> "") ->
  exists chosen,
    In chosen (zabbix.Host.Interfaces host)
    /\ zabbix.HostInterface.Main chosen = "1"
    /\ zabbix.HostInterface.Type_ chosen = "1"
    /\ fixer.getHostAddress host
       = (if usesIP chosen
             && negb (String.eqb (zabbix.HostInterface.IP chosen) "")
          then zabbix.HostInterface.IP chosen
          else zabbix.HostInterface.DNS chosen,
          zabbix.HostInterface.Port chosen)
    /\ fst (fixer.getHostAddress host) <> "".
Proof.
  intros Hin Hmain Htype Husable. unfold fixer.getHostAddress.
  destruct (fixer.firstAddress isMainAgent usesIP
              (zabbix.Host.Interfaces host)) as [[address port]|] eqn:H1.
  - apply firstAddress_Some in H1
      as (Hne & chosen & Hc & Hpick & -> & ->).
    apply andb_prop in Hpick as [Hm Ht].
    apply String.eqb_eq in Hm, Ht.
    exists chosen. repeat split; auto.
  - exfalso. apply firstAddress_None in H1.
    rewrite List.Forall_forall in H1.
    destruct (H1 iface Hin) as [Hip Hdns].
    { now rewrite Hmain, Htype. }
    destruct Husable as [Hd|[Hu Hi]]; [contradiction|].
    rewrite Hu in Hip. apply String.eqb_neq in Hi. simpl in Hip.
    now rewrite Hi in Hip.
Qed.

Lemma getHostAddress_prefers_agent_witness :
  exists chosen,
    zabbix.HostInterface.Type_ chosen = "1"
    /\ fixer.getHostAddress Examples.twoInterfaces
       = ("10.0.0.1", zabbix.HostInterface.Port chosen).
Proof.
  destruct (getHostAddress_prefers_agent Examples.twoInterfaces
              Examples.agentInterface)
    as (chosen & _ & _ & Ht & Ha & _).
  - right. now left.
  - reflexivity.
  - reflexivity.
  - right. split; [reflexivity | discriminate].
  - exists chosen. split; [exact Ht|]. rewrite Ha.
    change (fixer.getHostAddress Examples.twoInterfaces)
      with ("10.0.0.1", "10050") in Ha.
    destruct (usesIP chosen && _) in Ha |- *; now injection Ha as <- <-.
Defined.

(** ** Discovery data, written by the scanner and read by the fixer *)

Lemma Split_nonempty s sep : GoStrings.Split s sep <> [].
Proof.
  destruct s as [|c r]; simpl; [discriminate|].
  destruct (Ascii.eqb c sep); [discriminate|].
  destruct (GoStrings.Split r sep); discriminate.
Qed.

Lemma Split_without s sep :
  Spec.without sep s -> GoStrings.Split s sep = [s].
Proof.
  unfold Spec.without. induction s as [|c r IH]; simpl; [reflexivity|].
  intros H. apply List.Forall_cons_iff in H as [Hc Hr].
  rewrite Hc, (IH Hr). reflexivity.
Qed.

Lemma Split_app s sep rest :
  Spec.without sep s ->
  GoStrings.Split (s +:+ String sep rest) sep
  = s :: GoStrings.Split rest sep.
Proof.
  unfold Spec.without. induction s as [|c r IH]; simpl.
  - intros _. now rewrite Ascii.eqb_refl.
  - intros H. apply List.Forall_cons_iff in H as [Hc Hr].
    rewrite Hc, (IH Hr). reflexivity.
Qed.

(** Splitting what [Join] put together gives the elements back. *)
Lemma Split_Join elems sep :
  elems <> [] -> Forall (Spec.without sep) elems ->
  GoStrings.Split (GoStrings.Join elems (String sep EmptyString)) sep
  = elems.
Proof.
  unfold GoStrings.Join. induction elems as [|x xs IH]; [congruence|].
  intros _ H. apply List.Forall_cons_iff in H as [Hx Hxs].
  destruct xs as [|y ys]; simpl.
  - now apply Split_without.
  - change (String sep EmptyString +:+ ?t) with (String sep t).
    rewrite Split_app by exact Hx. f_equal. apply IH; [discriminate|].
    exact Hxs.
Qed.

Lemma Join_empty elems sep :
  GoStrings.Join elems (String sep EmptyString) = "" ->
  elems = [] \/ elems = [""].
Proof.
  unfold GoStrings.Join. destruct elems as [|x [|y ys]]; simpl.
  - now left.
  - intros ->. now right.
  - destruct x; discriminate.
Qed.

Lemma appendUniqueStr_appendUnique slice s :
  fixer.appendUniqueStr slice s = appendUnique slice s.
Proof.
  assert (H : existsb (fun v => String.eqb v s) slice
              = appendUnique_scan slice s).
  { induction slice as [|v slice IH]; simpl; [reflexivity|].
    rewrite IH. now destruct (String.eqb v s). }
  unfold fixer.appendUniqueStr, appendUnique. now rewrite H.
Qed.

(** A loop that appends the name of some of its elements. *)
Lemma fold_appendUnique_omap {A} (sel : A -> option string) l :
  forall acc,
    fold_left (fun acc x => match sel x with
                            | Some name => appendUnique acc name
                            | None => acc
                            end) l acc
    = fold_left appendUnique (omap sel l) acc.
Proof.
  induction l as [|x l IH]; intros acc; simpl; [reflexivity|].
  rewrite IH. now destruct (sel x).
Qed.

Section LLDFacts.
Variable archInt : float -> Z.
Variable formatScore : float -> string.

Lemma packageLLDEntry_hosts pkg :
  packageLLDEntry archInt formatScore pkg !! "{#P.HOSTS}"
  = Some (zabbix.VString
            (GoStrings.Join (PackageEntry.AffectedHosts pkg) ",")).
Proof. reflexivity. Qed.

Lemma packageLLDEntry_name pkg :
  packageLLDEntry archInt formatScore pkg !! "{#P.NAME}"
  = Some (zabbix.VString (PackageEntry.Name pkg)).
Proof. reflexivity. Qed.

Lemma bulletinLLDEntry_id b :
  bulletinLLDEntry archInt formatScore b !! "{#B.ID}"
  = Some (zabbix.VString (BulletinEntry.ID b)).
Proof. reflexivity. Qed.

Lemma bulletinLLDEntry_hosts b :
  bulletinLLDEntry archInt formatScore b !! "{#B.HOSTS}"
  = Some (zabbix.VString
            (GoStrings.Join (BulletinEntry.AffectedHosts b) ",")).
Proof. reflexivity. Qed.

Lemma bulletinLLDEntry_pkgs b :
  bulletinLLDEntry archInt formatScore b !! "{#B.PKGS}"
  = Some (zabbix.VString
            (GoStrings.Join (BulletinEntry.AffectedPkgs b) ",")).
Proof. reflexivity. Qed.
End LLDFacts.

(** The name an entry of the packages discovery contributes for a
    host, as the loop of [getVulnerablePackages] reads it. *)
Local Abbreviation nameFor hostID :=
  (fun entry : gmap string zabbix.value =>
     let (hostsStr, _) := zabbix.asString (entry !! "{#P.HOSTS}") in
     if String.eqb hostsStr "" then None
     else if negb (existsb (fun hid => String.eqb hid hostID)
                     (GoStrings.Split hostsStr ","%char))
     then None
     else
       let (name, ok) := zabbix.asString (entry !! "{#P.NAME}") in
       if ok && negb (String.eqb name "") then Some name else None).

Lemma packagesOfHost_fold Data hostID :
  fixer.packagesOfHost Data hostID
  = fold_left appendUnique (omap (nameFor hostID) Data) [].
Proof.
  unfold fixer.packagesOfHost. rewrite <- fold_appendUnique_omap.
  generalize (@nil string).
  induction Data as [|entry Data IH]; intros acc; simpl; [reflexivity|].
  rewrite <- IH. f_equal.
  destruct (zabbix.asString (entry !! "{#P.HOSTS}")) as [hostsStr ok].
  destruct (String.eqb hostsStr ""); [reflexivity|].
  destruct (negb _); [reflexivity|].
  destruct (zabbix.asString (entry !! "{#P.NAME}")) as [name ok'].
  destruct (ok' && _); [apply appendUniqueStr_appendUnique | reflexivity].
Qed.

Lemma asString_Some v s :
  zabbix.asString v = (s, true) -> v = Some (zabbix.VString s).
Proof. destruct v as [[]|]; simpl; congruence. Qed.

Lemma asString_nonempty v s ok :
  zabbix.asString v = (s, ok) -> s <> "" -> v = Some (zabbix.VString s).
Proof. destruct v as [[]|]; simpl; congruence. Qed.

Lemma existsb_eqb_In hostID l :
  existsb (fun hid => String.eqb hid hostID) l = true <-> In hostID l.
Proof.
  rewrite existsb_exists. split.
  - intros (x & Hx & E). apply String.eqb_eq in E. now subst.
  - intros H. exists hostID. split; [exact H | apply String.eqb_refl].
Qed.

(** X18: the packages [getVulnerablePackages] finds for a host in the
    decoded discovery data are listed once each, none with an empty
    name, and each is the [{#P.NAME}] of an entry whose [{#P.HOSTS}]
    names the host between commas. *)
Theorem packagesOfHost_names (Data : zabbix.LLDData) (hostID : string) :
  List.NoDup (fixer.packagesOfHost Data hostID)
  /\ Forall (fun name =>
               name <> ""
               /\ exists entry hostsStr,
                    In entry Data
                    /\ entry !! "{#P.NAME}" = Some (zabbix.VString name)
                    /\ entry !! "{#P.HOSTS}"
                       = Some (zabbix.VString hostsStr)
                    /\ In hostID (GoStrings.Split hostsStr ","%char))
            (fixer.packagesOfHost Data hostID).
Proof.
  rewrite packagesOfHost_fold, fold_appendUnique_nil.
  split; [apply firstSeen_NoDup|].
  apply List.Forall_forall. intros name Hn.
  apply firstSeen_In, list_elem_of_In, list_elem_of_omap in Hn
    as (entry & He & Hsel).
  apply list_elem_of_In in He.
  destruct (zabbix.asString (entry !! "{#P.HOSTS}")) as [hostsStr ok]
    eqn:Hh.
  destruct (String.eqb_spec hostsStr "") as [|Hne]; [discriminate|].
  destruct (existsb _ _) eqn:Hfound; simpl in Hsel; [|discriminate].
  destruct (zabbix.asString (entry !! "{#P.NAME}")) as [name' ok'] eqn:Hnm.
  destruct ok'; simpl in Hsel; [|discriminate].
  destruct (String.eqb_spec name' "") as [|Hne']; simpl in Hsel;
    [discriminate|].
  injection Hsel as <-. split; [exact Hne'|].
  exists entry, hostsStr. split; [exact He|].
  split; [now apply asString_Some|].
  split; [now apply (asString_nonempty _ _ ok)|].
  now apply existsb_eqb_In.
Qed.

Section RoundTrip.
Variable archInt : float -> Z.
Variable formatScore : float -> string.

Lemma GeneratePackagesLLD_map packages :
  GeneratePackagesLLD archInt formatScore packages
  = map (packageLLDEntry archInt formatScore) packages.
Proof. unfold GeneratePackagesLLD. now rewrite fold_left_snoc_map. Qed.

Lemma GenerateBulletinsLLD_map bulletins :
  GenerateBulletinsLLD archInt formatScore bulletins
  = map (bulletinLLDEntry archInt formatScore) bulletins.
Proof. unfold GenerateBulletinsLLD. now rewrite fold_left_snoc_map. Qed.

(** What the fixer reads in an entry that agrees with the one the
    scanner wrote for [pkg]. *)
Lemma nameFor_generated hostID entry pkg :
  hostID <> "" ->
  Forall (Spec.without ","%char) (PackageEntry.AffectedHosts pkg) ->
  Spec.agreeOn ["{#P.HOSTS}"; "{#P.NAME}"] entry
    (packageLLDEntry archInt formatScore pkg) ->
  nameFor hostID entry
  = if Spec.affects hostID pkg && negb (String.eqb (PackageEntry.Name pkg) "")
    then Some (PackageEntry.Name pkg) else None.
Proof.
  intros Hid Hhosts Hagree. unfold Spec.agreeOn in Hagree.
  apply List.Forall_cons_iff in Hagree as [Hh Hagree].
  apply List.Forall_cons_iff in Hagree as [Hn _].
  rewrite packageLLDEntry_hosts in Hh. rewrite packageLLDEntry_name in Hn.
  rewrite Hh, Hn. simpl zabbix.asString. cbv beta iota.
  unfold Spec.affects.
  destruct (String.eqb_spec
              (GoStrings.Join (PackageEntry.AffectedHosts pkg) ",") "")
    as [Hj|Hj].
  - apply Join_empty in Hj as [->| ->]; simpl; [reflexivity|].
    destruct hostID; [congruence | reflexivity].
  - rewrite Split_Join; [|intros E; apply Hj; now rewrite E | exact Hhosts].
    destruct (existsb _ _); reflexivity.
Qed.

(** X19: what the scanner writes, the fixer reads back.  On discovery
    data that agrees under [{#P.HOSTS}] and [{#P.NAME}] with what
    [GeneratePackagesLLD] produced for [packages], the packages
    [getVulnerablePackages] finds for a host are the names, other than
    the empty one, of the packages that list the host, each once, in the
    order of [packages]; provided that no host ID holds a comma. *)
Theorem packagesOfHost_roundtrip (packages : list PackageEntry.t)
    (Data : zabbix.LLDData) (hostID : string) :
  hostID <> "" ->
  Forall (fun pkg =>
            Forall (Spec.without ","%char) (PackageEntry.AffectedHosts pkg))
         packages ->
  Forall2 (Spec.agreeOn ["{#P.HOSTS}"; "{#P.NAME}"]) Data
    (GeneratePackagesLLD archInt formatScore packages) ->
  fixer.packagesOfHost Data hostID
  = Spec.firstSeen
      (List.filter (fun name => negb (String.eqb name ""))
         (map PackageEntry.Name
            (List.filter (Spec.affects hostID) packages))).
Proof.
  intros Hid Hhosts Hagree. rewrite packagesOfHost_fold.
  rewrite fold_appendUnique_nil. f_equal.
  rewrite GeneratePackagesLLD_map in Hagree.
  revert Data Hagree.
  induction packages as [|pkg packages IH]; intros Data Hagree.
  - inversion Hagree. reflexivity.
  - simpl in Hagree. inversion Hagree as [|entry e Data' l He Hrest]; subst.
    apply List.Forall_cons_iff in Hhosts as [Hp Hps].
    cbn [omap list_omap]. 
    rewrite (nameFor_generated hostID entry pkg Hid Hp He).
    rewrite (IH Hps _ Hrest). simpl.
    destruct (Spec.affects hostID pkg); simpl; [|reflexivity].
    now destruct (negb _).
Qed.
End RoundTrip.

Lemma packagesOfHost_roundtrip_witness :
  fixer.packagesOfHost
    (GeneratePackagesLLD Examples.amd64 Examples.oneDecimal
       Examples.fleetPackages) "2"
  = Spec.firstSeen
      (List.filter (fun name => negb (String.eqb name ""))
         (map PackageEntry.Name
            (List.filter (Spec.affects "2") Examples.fleetPackages))).
Proof.
  apply (packagesOfHost_roundtrip Examples.amd64 Examples.oneDecimal).
  - discriminate.
  - repeat constructor.
  - apply Forall_Forall2_diag, List.Forall_forall.
    intros entry _. repeat constructor.
Defined.

(** The names [getBulletinInfo] collects from package strings that all
    have a field. *)
Lemma bulletinPkgs_fields raws : forall pkgs,
  Forall (fun raw => GoStrings.Fields raw <> []) raws ->
  fixer.bulletinPkgs raws pkgs
  = Some (fold_left appendUnique (map Spec.firstField raws) pkgs).
Proof.
  induction raws as [|raw raws IH]; intros pkgs H; simpl; [reflexivity|].
  apply List.Forall_cons_iff in H as [Hraw Hraws].
  unfold Spec.firstField, GoSlice.index. simpl.
  destruct (GoStrings.Fields raw) as [|name fields]; [congruence|]. simpl.
  rewrite appendUniqueStr_appendUnique. now apply IH.
Qed.

(** They panic on the first package string without a field. *)
Lemma bulletinPkgs_None raws : forall pkgs,
  fixer.bulletinPkgs raws pkgs = None <->
  Exists (fun raw => GoStrings.Fields raw = []) raws.
Proof.
  induction raws as [|raw raws IH]; intros pkgs; simpl.
  - split; [discriminate | intros H; inversion H].
  - rewrite Exists_cons. unfold GoSlice.index. simpl.
    destruct (GoStrings.Fields raw) as [|name fields]; simpl.
    + split; auto.
    + rewrite IH. split; [auto | intros [H|H]; [discriminate | exact H]].
Qed.

Lemma Fields_empty : GoStrings.Fields "" = [].
Proof. reflexivity. Qed.

Section BulletinRoundTrip.
Variable archInt : float -> Z.
Variable formatScore : float -> string.

Local Abbreviation keys := ["{#B.ID}"; "{#B.HOSTS}"; "{#B.PKGS}"].

(** X20: on discovery data that agrees under [{#B.ID}], [{#B.HOSTS}]
    and [{#B.PKGS}] with what [GenerateBulletinsLLD] produced for
    [bulletins], [getBulletinInfo] finds for a bulletin ID the affected
    hosts of the first bulletin with that ID and the names (first
    fields) of its affected packages, each once; and the "not found"
    error when there is none.  This holds when host IDs and package
    strings hold no comma, no host ID is empty and every package string
    has a field. *)
Theorem bulletinInfoOf_roundtrip (bulletins : list BulletinEntry.t)
    (Data : zabbix.LLDData) (bulletinID : string) :
  Forall (fun b =>
            Forall (fun h => h <> "" /\ Spec.without ","%char h)
                   (BulletinEntry.AffectedHosts b)
            /\ Forall (fun p => Spec.without ","%char p
                                /\ GoStrings.Fields p <> [])
                      (BulletinEntry.AffectedPkgs b))
         bulletins ->
  Forall2 (Spec.agreeOn keys) Data
    (GenerateBulletinsLLD archInt formatScore bulletins) ->
  fixer.bulletinInfoOf Data bulletinID
  = Some (match List.find
                  (fun b => String.eqb (BulletinEntry.ID b) bulletinID)
                  bulletins with
          | Some b =>
              inr (BulletinEntry.AffectedHosts b,
                   Spec.firstSeen
                     (map Spec.firstField (BulletinEntry.AffectedPkgs b)))
          | None =>
              inl (ErrorQuoted "bulletin not found in LLD data" bulletinID)
          end).
Proof.
  intros Hok Hagree. rewrite GenerateBulletinsLLD_map in Hagree.
  revert Data Hagree.
  induction bulletins as [|b bulletins IH]; intros Data Hagree.
  - inversion Hagree. reflexivity.
  - simpl in Hagree. inversion Hagree as [|entry e Data' l He Hrest]; subst.
    apply List.Forall_cons_iff in Hok as [[Hhosts Hpkgs] Hoks].
    unfold Spec.agreeOn in He.
    apply List.Forall_cons_iff in He as [Hid He].
    apply List.Forall_cons_iff in He as [Hh He].
    apply List.Forall_cons_iff in He as [Hp _].
    rewrite bulletinLLDEntry_id in Hid.
    rewrite bulletinLLDEntry_hosts in Hh.
    rewrite bulletinLLDEntry_pkgs in Hp.
    cbn [fixer.bulletinInfoOf List.find]. rewrite Hid, Hh, Hp.
    cbn [zabbix.asString].
    destruct (String.eqb (BulletinEntry.ID b) bulletinID);
      cbn [negb]; [|now apply IH].
    assert (Hhs : (if true
                      && negb (String.eqb
                                 (GoStrings.Join
                                    (BulletinEntry.AffectedHosts b) ",") "")
                   then GoStrings.Split
                          (GoStrings.Join (BulletinEntry.AffectedHosts b) ",")
                          ","%char
                   else []) = BulletinEntry.AffectedHosts b).
    { destruct (String.eqb_spec
                  (GoStrings.Join (BulletinEntry.AffectedHosts b) ",") "")
        as [Hj|Hj]; simpl.
      - apply Join_empty in Hj as [Hj|Hj]; [now rewrite Hj|].
        rewrite Hj in Hhosts.
        apply List.Forall_cons_iff in Hhosts as [[Hne _] _]. congruence.
      - apply Split_Join; [intros E; apply Hj; now rewrite E|].
        eapply List.Forall_impl; [|exact Hhosts]. now intros h [_ H]. }
    rewrite Hhs.
    destruct (String.eqb_spec
                (GoStrings.Join (BulletinEntry.AffectedPkgs b) ",") "")
      as [Hj|Hj]; simpl.
    + apply Join_empty in Hj as [Hj|Hj]; [now rewrite Hj|].
      rewrite Hj in Hpkgs.
      apply List.Forall_cons_iff in Hpkgs as [[_ Hf] _].
      now rewrite Fields_empty in Hf.
    + rewrite Split_Join;
        [|intros E; apply Hj; now rewrite E
         |eapply List.Forall_impl; [|exact Hpkgs]; now intros p [H _]].
      rewrite bulletinPkgs_fields
        by (eapply List.Forall_impl; [|exact Hpkgs]; now intros p [_ H]).
      now rewrite fold_appendUnique_nil.
Qed.
End BulletinRoundTrip.

Lemma bulletinInfoOf_roundtrip_witness :
  fixer.bulletinInfoOf
    (GenerateBulletinsLLD Examples.amd64 Examples.oneDecimal
       Examples.fleetBulletins) "USN-1"
  = Some (inr (["1"; "2"], ["openssl"; "libssl1.1"])).
Proof.
  rewrite (bulletinInfoOf_roundtrip Examples.amd64 Examples.oneDecimal
             Examples.fleetBulletins).
  - reflexivity.
  - repeat constructor; discriminate.
  - apply Forall_Forall2_diag, List.Forall_forall.
    intros entry _. repeat constructor.
Defined.

(** X21: [getBulletinInfo] panics on the decoded discovery data exactly
    when the first entry of the bulletin has a [{#B.PKGS}] string, not
    empty, in which some piece between commas has no field (it is empty
    or all white space): [strings.Fields(raw)[0]] is then out of range. *)
Theorem bulletinInfoOf_panics (Data : zabbix.LLDData) (bulletinID : string) :
  fixer.bulletinInfoOf Data bulletinID = None <->
  exists before entry after pkgsStr,
    Data = before ++ entry :: after
    /\ Forall (fun e =>
                 fst (zabbix.asString (e !! "{#B.ID}")) <> bulletinID)
         before
    /\ fst (zabbix.asString (entry !! "{#B.ID}")) = bulletinID
    /\ entry !! "{#B.PKGS}" = Some (zabbix.VString pkgsStr)
    /\ pkgsStr <> ""
    /\ Exists (fun raw => GoStrings.Fields raw = [])
         (GoStrings.Split pkgsStr ","%char).
Proof.
  induction Data as [|entry Data IH]; simpl.
  - split; [discriminate|].
    intros (before & e & after & s & H & _). now destruct before.
  - destruct (zabbix.asString (entry !! "{#B.ID}")) as [id ok] eqn:Hid.
    destruct (String.eqb_spec id bulletinID) as [Heq|Hne]; simpl.
    + destruct (zabbix.asString (entry !! "{#B.PKGS}")) as [pkgsStr okp]
        eqn:Hp.
      split.
      * destruct okp; simpl; [|discriminate].
        destruct (String.eqb_spec pkgsStr "") as [|Hs]; simpl;
          [discriminate|].
        destruct (fixer.bulletinPkgs _ _) eqn:Hb; [discriminate|].
        intros _. exists [], entry, Data, pkgsStr. simpl.
        rewrite Hid. simpl. apply bulletinPkgs_None in Hb.
        apply asString_Some in Hp. repeat split; auto.
      * intros (before & e & after & s & HD & Hbefore & He & Hs & Hne & Hex).
        destruct before as [|e0 before].
        -- simpl in HD. injection HD as <- <-. rewrite Hs in Hp.
           simpl in Hp. injection Hp as <- <-. simpl.
           apply String.eqb_neq in Hne. rewrite Hne. simpl.
           apply (bulletinPkgs_None _ []) in Hex. now rewrite Hex.
        -- simpl in HD. injection HD as <- _.
           apply List.Forall_cons_iff in Hbefore as [Hb _].
           rewrite Hid in Hb. simpl in Hb. contradiction.
    + rewrite IH. split.
      * intros (before & e & after & s & -> & Hbefore & Hrest).
        exists (entry :: before), e, after, s. split; [reflexivity|].
        split; [|exact Hrest]. constructor; [|exact Hbefore].
        now rewrite Hid.
      * intros (before & e & after & s & HD & Hbefore & He & Hrest).
        destruct before as [|e0 before].
        -- simpl in HD. injection HD as <- <-. rewrite Hid in He.
           simpl in He. contradiction.
        -- simpl in HD. injection HD as <- ->.
           apply List.Forall_cons_iff in Hbefore as [_ Hbefore].
           exists before, e, after, s. auto.
Qed.

(** ** Planning a fix (fixer.go) *)

Section PlanFacts.
Variable unicodeToLower : string -> string.
Variable Naming : fixer.NamingConfig.t.
Variable GetHostByNameCtx : string -> error + zabbix.Host.t.
Variable GetHostByIDCtx : string -> error + zabbix.Host.t.
Variable GetItemValueCtx : string -> string -> error + string.
Variable GetHostItemsCtx : string -> string -> error + list zabbix.Item.t.
Variable jsonUnmarshal : string -> error + zabbix.LLDData.

Local Abbreviation getVulnerablePackages' :=
  (fixer.getVulnerablePackages Naming GetItemValueCtx jsonUnmarshal).
Local Abbreviation getHostOS' := (fixer.getHostOS GetHostItemsCtx).
Local Abbreviation getBulletinInfo' :=
  (fixer.getBulletinInfo Naming GetItemValueCtx jsonUnmarshal).
Local Abbreviation planForHost' :=
  (fixer.planForHost unicodeToLower Naming GetHostByIDCtx GetItemValueCtx
     GetHostItemsCtx jsonUnmarshal).
Local Abbreviation planBulletinHost' :=
  (fixer.planBulletinHost unicodeToLower Naming GetHostByIDCtx
     GetItemValueCtx GetHostItemsCtx jsonUnmarshal).
Local Abbreviation planForBulletin' :=
  (fixer.planForBulletin unicodeToLower Naming GetHostByIDCtx
     GetItemValueCtx GetHostItemsCtx jsonUnmarshal).
Local Abbreviation Plan' :=
  (fixer.Plan unicodeToLower Naming GetHostByNameCtx GetHostByIDCtx
     GetItemValueCtx GetHostItemsCtx jsonUnmarshal).

(** What a host plan of a bulletin satisfies. *)
Local Abbreviation goodBulletinPlan affectedHostIDs affectedPkgs :=
  (fun hp : fixer.HostFixPlan.t =>
     In (fixer.HostFixPlan.HostID hp) affectedHostIDs
     /\ fixer.HostFixPlan.IP hp <> ""
     /\ fixer.HostFixPlan.Packages hp <> []
     /\ List.NoDup (fixer.HostFixPlan.Packages hp)
     /\ Forall (fun pkg =>
                  In pkg affectedPkgs
                  /\ In pkg (getVulnerablePackages'
                               (fixer.HostFixPlan.HostID hp)))
          (fixer.HostFixPlan.Packages hp)
     /\ fixer.HostFixPlan.Command hp
        = fixer.GenerateFixCommand unicodeToLower
            (getHostOS' (fixer.HostFixPlan.HostID hp))
            (fixer.HostFixPlan.Packages hp)).

(** The packages of the bulletin that are on the host. *)
Lemma bulletin_packages affectedPkgs allPackages :
  fold_left
    (fun packages pkg =>
       if decide (pkg ∈ (list_to_set affectedPkgs : gset string))
       then fixer.appendUniqueStr packages pkg else packages)
    allPackages []
  = Spec.firstSeen
      (List.filter
         (fun pkg => existsb (fun p => String.eqb p pkg) affectedPkgs)
         allPackages).
Proof.
  rewrite <- fold_appendUnique_nil. generalize (@nil string).
  induction allPackages as [|pkg l IH]; intros acc; simpl; [reflexivity|].
  destruct (decide (pkg ∈ (list_to_set affectedPkgs : gset string)))
    as [Hin|Hnin].
  - apply elem_of_list_to_set, list_elem_of_In, existsb_eqb_In in Hin.
    rewrite Hin. simpl. rewrite appendUniqueStr_appendUnique. apply IH.
  - rewrite elem_of_list_to_set, list_elem_of_In, <- existsb_eqb_In in Hnin.
    apply not_true_is_false in Hnin. rewrite Hnin. apply IH.
Qed.

Lemma planBulletinHost_step affectedHostIDs affectedPkgs hosts hostID :
  In hostID affectedHostIDs ->
  Forall (goodBulletinPlan affectedHostIDs affectedPkgs) hosts ->
  exists added,
    planBulletinHost' affectedPkgs hosts hostID = hosts ++ added
    /\ sublist (map fixer.HostFixPlan.HostID added) [hostID]
    /\ Forall (goodBulletinPlan affectedHostIDs affectedPkgs)
         (hosts ++ added).
Proof.
  intros Hid Hgood. unfold fixer.planBulletinHost.
  assert (Hsame : exists added,
            hosts = hosts ++ added
            /\ sublist (map fixer.HostFixPlan.HostID added) [hostID]
            /\ Forall (goodBulletinPlan affectedHostIDs affectedPkgs)
                 (hosts ++ added)).
  { exists []. rewrite app_nil_r. repeat split; auto.
    apply sublist_nil_l. }
  destruct (GetHostByIDCtx hostID) as [err|host]; [exact Hsame|].
  rewrite bulletin_packages.
  set (packages := Spec.firstSeen _).
  destruct (GoSlice.len packages =? 0) eqn:Hlen; [exact Hsame|].
  destruct (fixer.getHostAddress host) as [ip agentPort].
  destruct (String.eqb_spec ip "") as [|Hip]; [exact Hsame|].
  eexists [_]. split; [reflexivity|]. split; [simpl; reflexivity|].
  apply Forall_app. split; [exact Hgood|]. constructor; [|constructor].
  simpl. split; [exact Hid|]. split; [exact Hip|]. split.
  { intros E. rewrite E in Hlen. discriminate. }
  split; [apply firstSeen_NoDup|]. split; [|reflexivity].
  apply List.Forall_forall. intros pkg Hp.
  apply firstSeen_In, filter_In in Hp as [Hall Hin].
  apply existsb_eqb_In in Hin. auto.
Qed.

Lemma planBulletin_loop affectedHostIDs affectedPkgs ids : forall hosts,
  (forall id, In id ids -> In id affectedHostIDs) ->
  Forall (goodBulletinPlan affectedHostIDs affectedPkgs) hosts ->
  exists added,
    fold_left (planBulletinHost' affectedPkgs) ids hosts = hosts ++ added
    /\ sublist (map fixer.HostFixPlan.HostID added) ids
    /\ Forall (goodBulletinPlan affectedHostIDs affectedPkgs)
         (hosts ++ added).
Proof.
  induction ids as [|id ids IH]; intros hosts Hids Hgood; simpl.
  - exists []. rewrite app_nil_r. repeat split; auto.
  - destruct (planBulletinHost_step affectedHostIDs affectedPkgs hosts id)
      as (added1 & -> & Hsub1 & Hgood1); [apply Hids; now left | exact Hgood|].
    destruct (IH (hosts ++ added1)) as (added2 & -> & Hsub2 & Hgood2);
      [intros i Hi; apply Hids; now right | exact Hgood1|].
    exists (added1 ++ added2). rewrite <- app_assoc. split; [reflexivity|].
    split; [|now rewrite app_assoc].
    rewrite map_app. change (id :: ids) with ([id] ++ ids).
    now apply sublist_app.
Qed.

(** X22: a plan for a bulletin holds only hosts that the bulletin's
    discovery entry lists, in the order of that entry, and only hosts
    with an address and with at least one package of the bulletin among
    those found for them; the packages of a host plan are distinct, are
    all packages of the bulletin found for the host, and the command is
    the one [GenerateFixCommand] gives for the OS of the host and these
    packages. *)
Theorem planForBulletin_hosts (bulletinID : string)
    (plan : fixer.FixPlan.t) :
  planForBulletin' bulletinID = Some (inr plan) ->
  exists affectedHostIDs affectedPkgs,
    getBulletinInfo' bulletinID = Some (inr (affectedHostIDs, affectedPkgs))
    /\ sublist (map fixer.HostFixPlan.HostID (fixer.FixPlan.Hosts plan))
         affectedHostIDs
    /\ Forall (goodBulletinPlan affectedHostIDs affectedPkgs)
         (fixer.FixPlan.Hosts plan)
    /\ fixer.FixPlan.Packages plan = [].
Proof.
  unfold fixer.planForBulletin.
  destruct (getBulletinInfo' bulletinID) as [[err|[ids pkgs]]|];
    [discriminate| |discriminate].
  intros [= <-]. exists ids, pkgs. split; [reflexivity|].
  destruct (planBulletin_loop ids pkgs ids []) as (added & -> & Hsub & Hgood);
    [auto | constructor|].
  simpl in *. auto.
Qed.

Lemma planForHost_plan hostID hp :
  planForHost' hostID = inr hp ->
  fixer.HostFixPlan.HostID hp = hostID
  /\ fixer.HostFixPlan.IP hp <> ""
  /\ fixer.HostFixPlan.Packages hp = getVulnerablePackages' hostID
  /\ fixer.HostFixPlan.Command hp
     = fixer.GenerateFixCommand unicodeToLower (getHostOS' hostID)
         (fixer.HostFixPlan.Packages hp)
  /\ exists host,
       GetHostByIDCtx hostID = inr host
       /\ fixer.HostFixPlan.Name hp = zabbix.Host.Name host
       /\ (fixer.HostFixPlan.IP hp, fixer.HostFixPlan.AgentPort hp)
          = fixer.getHostAddress host.
Proof.
  unfold fixer.planForHost.
  destruct (GetHostByIDCtx hostID) as [err|host]; [discriminate|].
  destruct (fixer.getHostAddress host) as [ip agentPort] eqn:Ha.
  destruct (String.eqb_spec ip "") as [|Hip]; [discriminate|].
  intros [= <-]. simpl.
  split; [reflexivity|]. split; [exact Hip|]. split; [reflexivity|].
  split; [reflexivity|]. exists host. rewrite Ha. auto.
Qed.

Lemma GenerateFixCommand_nil osName :
  fixer.GenerateFixCommand unicodeToLower osName []
  = "apt-get update && apt-get upgrade -y"
  \/ fixer.GenerateFixCommand unicodeToLower osName [] = "yum update -y".
Proof.
  unfold fixer.GenerateFixCommand. simpl.
  destruct (_ || _); [now left|].
  destruct (_ || _); [now right|].
  destruct (GoStrings.Contains _ _); [now right | now left].
Qed.

(** X27: [getVulnerablePackages] never fails: when the packages
    discovery item cannot be read, is empty or does not decode, it finds
    no package.  The plan for a host is then still made, with no package
    and with the command that updates the whole system. *)
Theorem planForHost_without_data (hostID : string) (host : zabbix.Host.t) :
  GetHostByIDCtx hostID = inr host ->
  fst (fixer.getHostAddress host) <> "" ->
  (exists err,
     GetItemValueCtx (fixer.NamingConfig.PackagesHost Naming)
       "vulners.packages_lld" = inl err)
  \/ GetItemValueCtx (fixer.NamingConfig.PackagesHost Naming)
       "vulners.packages_lld" = inr ""
  \/ (exists lldJSON err,
        GetItemValueCtx (fixer.NamingConfig.PackagesHost Naming)
          "vulners.packages_lld" = inr lldJSON
        /\ jsonUnmarshal lldJSON = inl err) ->
  getVulnerablePackages' hostID = []
  /\ exists hp,
       planForHost' hostID = inr hp
       /\ fixer.HostFixPlan.Packages hp = []
       /\ (fixer.HostFixPlan.Command hp
           = "apt-get update && apt-get upgrade -y"
           \/ fixer.HostFixPlan.Command hp = "yum update -y").
Proof.
  intros Hhost Haddr Hdata.
  assert (Hnone : getVulnerablePackages' hostID = []).
  { unfold fixer.getVulnerablePackages.
    destruct Hdata as [[err ->]|[->|(lldJSON & err & -> & Hj)]];
      [reflexivity | reflexivity|].
    destruct (String.eqb lldJSON ""); [reflexivity|]. now rewrite Hj. }
  split; [exact Hnone|].
  unfold fixer.planForHost. rewrite Hhost, Hnone.
  destruct (fixer.getHostAddress host) as [ip agentPort]. simpl in Haddr.
  apply String.eqb_neq in Haddr. rewrite Haddr.
  eexists. split; [reflexivity|]. split; [reflexivity|]. simpl.
  apply GenerateFixCommand_nil.
Qed.

(** X23: [Plan] refuses a host name that is one of the four virtual
    hosts, and options that name neither a host nor a bulletin.  With a
    host ID, a plan it returns has exactly one host, the one asked for,
    with a non-empty address, the packages found for it and the command
    [GenerateFixCommand] gives for them.  It can only panic in the
    bulletin mode. *)
Theorem Plan_modes (opts : fixer.FixOptions.t) :
  (fixer.FixOptions.HostName opts <> "" ->
   fixer.isVirtualHost Naming (fixer.FixOptions.HostName opts) = true ->
   exists err, Plan' opts = Some (inl err))
  /\ (fixer.FixOptions.HostName opts = "" ->
      fixer.FixOptions.HostID opts = "" ->
      fixer.FixOptions.BulletinID opts = "" ->
      exists err, Plan' opts = Some (inl err))
  /\ (fixer.FixOptions.HostID opts <> "" ->
      forall plan, Plan' opts = Some (inr plan) ->
      exists hp,
        plan = fixer.FixPlan.mk [hp] []
        /\ fixer.HostFixPlan.HostID hp = fixer.FixOptions.HostID opts
        /\ fixer.HostFixPlan.IP hp <> ""
        /\ fixer.HostFixPlan.Packages hp
           = getVulnerablePackages' (fixer.FixOptions.HostID opts)
        /\ fixer.HostFixPlan.Command hp
           = fixer.GenerateFixCommand unicodeToLower
               (getHostOS' (fixer.FixOptions.HostID opts))
               (fixer.HostFixPlan.Packages hp))
  /\ (Plan' opts = None ->
      planForBulletin' (fixer.FixOptions.BulletinID opts) = None).
Proof.
  unfold fixer.Plan. split; [|split; [|split]].
  - intros Hname Hvirtual. apply String.eqb_neq in Hname.
    rewrite Hname, Hvirtual. simpl. eauto.
  - intros -> -> ->. simpl. eauto.
  - intros Hid plan. apply String.eqb_neq in Hid. rewrite Hid.
    rewrite andb_false_r.
    destruct (negb _ && fixer.isVirtualHost _ _); [discriminate|].
    rewrite Hid. simpl.
    destruct (planForHost' (fixer.FixOptions.HostID opts)) as [err|hp] eqn:Hp;
      [discriminate|].
    intros [= <-]. exists hp.
    apply planForHost_plan in Hp as (H1 & H2 & H3 & H4 & _). auto.
  - destruct (negb _ && fixer.isVirtualHost _ _); [discriminate|].
    destruct (if negb _ && String.eqb (fixer.FixOptions.HostID opts) ""
              then _ else _) as [err|HostID]; [discriminate|].
    destruct (String.eqb HostID ""); simpl.
    + destruct (String.eqb (fixer.FixOptions.BulletinID opts) ""); simpl;
        [discriminate | auto].
    + destruct (planForHost' HostID); discriminate.
Qed.
End PlanFacts.

Lemma planForBulletin_hosts_witness :
  exists affectedHostIDs affectedPkgs,
    fixer.getBulletinInfo Examples.naming Examples.itemValue
      Examples.decode "USN-1"
    = Some (inr (affectedHostIDs, affectedPkgs))
    /\ sublist
         (map fixer.HostFixPlan.HostID
            (fixer.FixPlan.Hosts Examples.bulletinPlan))
         affectedHostIDs.
Proof.
  destruct (planForBulletin_hosts Examples.asciiOnly Examples.naming
              Examples.hostByID Examples.itemValue Examples.monitorItems
              Examples.decode "USN-1" Examples.bulletinPlan)
    as (ids & pkgs & H1 & H2 & _).
  - vm_compute. reflexivity.
  - exists ids, pkgs. split; [exact H1 | exact H2].
Defined.

Lemma Plan_modes_witness :
  (exists err,
     Examples.planner
       (fixer.FixOptions.mk "" "" "vulners.packages" false false "")
     = Some (inl err))
  /\ exists hp,
       Examples.hostPlan = fixer.FixPlan.mk [hp] []
       /\ fixer.HostFixPlan.HostID hp = "1".
Proof.
  split.
  - apply (proj1 (Plan_modes Examples.asciiOnly Examples.naming
                    Examples.hostByName Examples.hostByID Examples.itemValue
                    Examples.monitorItems Examples.decode
                    (fixer.FixOptions.mk "" "" "vulners.packages" false
                       false ""))).
    + discriminate.
    + reflexivity.
  - destruct (proj1 (proj2 (proj2
                (Plan_modes Examples.asciiOnly Examples.naming
                   Examples.hostByName Examples.hostByID Examples.itemValue
                   Examples.monitorItems Examples.decode
                   (fixer.FixOptions.mk "" "1" "" false false ""))))
              ltac:(discriminate) Examples.hostPlan)
      as (hp & H1 & H2 & _).
    + vm_compute. reflexivity.
    + exists hp. split; [exact H1 | exact H2].
Defined.

Lemma planForHost_without_data_witness :
  fixer.getVulnerablePackages Examples.naming Examples.itemValue
    (fun _ => inl (ErrorString "unexpected end of JSON input")) "1"
  = [].
Proof.
  refine (proj1 (planForHost_without_data Examples.asciiOnly Examples.naming
                   Examples.hostByID Examples.itemValue Examples.monitorItems
                   (fun _ => inl (ErrorString "unexpected end of JSON input"))
                   "1" Examples.twoInterfaces _ _ _)).
  - reflexivity.
  - discriminate.
  - right. right. eexists _, _. split; reflexivity.
Defined.

(** ** Running a fix (executor.go, fixer.go) *)

Section RetryFacts.
Variable ctxDone : Z -> option error.
Variable fn : fixer.Exec (error + string).

(** The loop only runs [fn]: what every run of [fn] keeps, it keeps. *)
Lemma retryLoop_spawns (Q : fixer.Cmd -> Prop) (k : nat) maxRetries :
  (forall s, exists new,
      snd (fn s) = s ++ new /\ (length new <= k)%nat /\ Forall Q new) ->
  forall n i lastErr s,
  exists new,
    snd (fixer.retryLoop ctxDone fn maxRetries n i lastErr s) = s ++ new
    /\ (length new <= k * n)%nat /\ Forall Q new.
Proof.
  intros Hfn. induction n as [|n IH]; intros i lastErr s; simpl.
  - exists []. rewrite app_nil_r. repeat split; [apply Nat.le_0_l | constructor].
  - unfold fixer.bind. destruct (Hfn s) as (new1 & H1 & Hl1 & HQ1).
    destruct (fn s) as [[err|output] s1]; simpl in *; subst s1.
    + assert (Hstop : forall r : error + string,
                exists new,
                  snd (fixer.ret r (s ++ new1)) = s ++ new
                  /\ (length new <= k * S n)%nat /\ Forall Q new).
      { intros r. exists new1. repeat split; [nia | exact HQ1]. }
      assert (Hgo : exists new,
                snd (fixer.retryLoop ctxDone fn maxRetries n (i + 1)
                       (Some err) (s ++ new1)) = s ++ new
                /\ (length new <= k * S n)%nat /\ Forall Q new).
      { destruct (IH (i + 1) (Some err) (s ++ new1))
          as (new2 & -> & Hl2 & HQ2).
        exists (new1 ++ new2). rewrite app_assoc.
        repeat split; [rewrite length_app; nia | now apply Forall_app]. }
      destruct (i <? maxRetries); [|exact Hgo].
      destruct (ctxDone i); [apply Hstop | exact Hgo].
    + exists new1. repeat split; [nia | exact HQ1].
Qed.

(** An output the loop returns is the output of a run of [fn], once the
    loop runs [fn] at all. *)
Lemma retryLoop_output maxRetries n : forall i lastErr s output,
  n <> O ->
  fst (fixer.retryLoop ctxDone fn maxRetries n i lastErr s) = inr output ->
  exists s', fst (fn s') = inr output.
Proof.
  induction n as [|n IH]; intros i lastErr s output Hn; [congruence|].
  simpl. unfold fixer.bind.
  destruct (fn s) as [[err|out] s1] eqn:Hfn.
  - assert (Hgo : fst (fixer.retryLoop ctxDone fn maxRetries n (i + 1)
                         (Some err) s1) = inr output ->
                  exists s', fst (fn s') = inr output).
    { destruct n as [|n']; [discriminate|]. now apply IH. }
    destruct (i <? maxRetries); [|exact Hgo].
    destruct (ctxDone i); [discriminate | exact Hgo].
  - simpl. intros [= <-]. exists s. now rewrite Hfn.
Qed.

(** X24: with a negative [maxRetries] [ExecuteWithRetry] never calls
    [fn] and reports success with an empty output.  Otherwise a first
    call that succeeds is the whole run; when it fails, retries are
    allowed and the context is done before the timer, the error returned
    is that of the context and [fn] is not called again; and an output
    returned with a nil error is the output of a call of [fn]. *)
Theorem ExecuteWithRetry_outcome (maxRetries : Z)
    (spawned : list fixer.Cmd) :
  (maxRetries < 0 ->
   fixer.ExecuteWithRetry ctxDone fn maxRetries spawned
   = (inr "", spawned))
  /\ (0 <= maxRetries ->
      forall output spawned',
        fn spawned = (inr output, spawned') ->
        fixer.ExecuteWithRetry ctxDone fn maxRetries spawned
        = (inr output, spawned'))
  /\ (0 < maxRetries ->
      forall err cerr spawned',
        fn spawned = (inl err, spawned') ->
        ctxDone 0 = Some cerr ->
        fixer.ExecuteWithRetry ctxDone fn maxRetries spawned
        = (inl cerr, spawned'))
  /\ (0 <= maxRetries ->
      forall output,
        fst (fixer.ExecuteWithRetry ctxDone fn maxRetries spawned)
        = inr output ->
        exists s, fst (fn s) = inr output).
Proof.
  unfold fixer.ExecuteWithRetry. split; [|split; [|split]].
  - intros Hneg. replace (Z.to_nat (maxRetries + 1)) with O by lia.
    reflexivity.
  - intros Hpos output spawned' Hfn.
    destruct (Z.to_nat (maxRetries + 1)) as [|n] eqn:E; [lia|].
    simpl. unfold fixer.bind. now rewrite Hfn.
  - intros Hpos err cerr spawned' Hfn Hctx.
    destruct (Z.to_nat (maxRetries + 1)) as [|n] eqn:E; [lia|].
    simpl. unfold fixer.bind. rewrite Hfn.
    apply Z.ltb_lt in Hpos. now rewrite Hpos, Hctx.
  - intros Hpos output. apply retryLoop_output. lia.
Qed.
End RetryFacts.

Lemma ExecuteWithRetry_outcome_witness :
  fixer.ExecuteWithRetry (fun _ => None)
    (fixer.ExecuteViaSSH Examples.noIPv6 Examples.runOK "10.0.0.1" "root"
       "uptime")
    (-1) []
  = (inr "", []).
Proof.
  apply (proj1 (ExecuteWithRetry_outcome (fun _ => None)
                  (fixer.ExecuteViaSSH Examples.noIPv6 Examples.runOK
                     "10.0.0.1" "root" "uptime") (-1) [])).
  lia.
Defined.

Lemma sshUserRe_shape user :
  fixer.sshUserRe user = true ->
  (exists c rest,
     user = String c rest
     /\ (GoStrings.inRange 97 122 c || GoStrings.inRange 65 90 c
         || GoStrings.isByte 95 c) = true)
  /\ Forall (fun c =>
               (fixer.isAlnum c || GoStrings.isByte 46 c
                || GoStrings.isByte 95 c || GoStrings.isByte 45 c) = true)
       (String.list_ascii_of_string user).
Proof.
  destruct user as [|c rest]; simpl; [discriminate|].
  intros [Hc Hrest]%andb_prop. split; [eauto|].
  constructor.
  - unfold fixer.isAlnum.
    destruct (GoStrings.inRange 97 122 c), (GoStrings.inRange 65 90 c);
      simpl in *; try reflexivity.
    rewrite Hc. now rewrite !orb_true_r.
  - apply List.Forall_forall. intros x Hx.
    rewrite forallb_forall in Hrest. now apply Hrest.
Qed.

(** X26: [ExecuteViaSSH] runs nothing and returns an error when the
    host target or the user fails validation.  Otherwise it runs exactly
    one subprocess, [ssh] in batch mode with the destination
    [user@host]; the user then has 1 to 64 bytes, all of them letters,
    digits, dots, underscores or hyphens, the first a letter or an
    underscore, so that the destination cannot be read as an option. *)
Theorem ExecuteViaSSH_destination (parseIPv6 : string -> bool)
    (runProcess : fixer.Cmd -> string * string * option error)
    (hostIP user command : string) (spawned : list fixer.Cmd) :
  (snd (fixer.ExecuteViaSSH parseIPv6 runProcess hostIP user command
          spawned) = spawned
   /\ (exists err,
         fst (fixer.ExecuteViaSSH parseIPv6 runProcess hostIP user command
                spawned) = inl err)
   /\ (fixer.ValidateHostTarget parseIPv6 hostIP <> None
       \/ fixer.ValidateSSHUser user <> None))
  \/ (snd (fixer.ExecuteViaSSH parseIPv6 runProcess hostIP user command
             spawned)
      = spawned ++ [Spec.sshCommand hostIP user command]
      /\ fixer.ValidateHostTarget parseIPv6 hostIP = None
      /\ 1 <= GoStrings.len user <= 64
      /\ (exists c rest,
            user = String c rest
            /\ (GoStrings.inRange 97 122 c || GoStrings.inRange 65 90 c
                || GoStrings.isByte 95 c) = true)
      /\ Forall (fun c =>
                   (fixer.isAlnum c || GoStrings.isByte 46 c
                    || GoStrings.isByte 95 c || GoStrings.isByte 45 c)
                   = true)
           (String.list_ascii_of_string user)).
Proof.
  unfold fixer.ExecuteViaSSH.
  destruct (fixer.ValidateHostTarget parseIPv6 hostIP) as [err|] eqn:Hh.
  { left. simpl. split; [reflexivity|]. split; [eauto|]. left. discriminate. }
  destruct (fixer.ValidateSSHUser user) as [err|] eqn:Hu.
  { left. simpl. split; [reflexivity|]. split; [eauto|]. right. discriminate. }
  right. unfold fixer.bind, fixer.Run.
  split.
  { destruct (runProcess _) as [[stdout stderr] [err|]]; reflexivity. }
  split; [reflexivity|].
  unfold fixer.ValidateSSHUser in Hu.
  destruct (String.eqb_spec user "") as [|Hne]; [discriminate|].
  destruct (64 <? GoStrings.len user) eqn:Hlen; [discriminate|].
  destruct (fixer.sshUserRe user) eqn:Hre; [|discriminate].
  apply Z.ltb_ge in Hlen. apply sshUserRe_shape in Hre as [Hfirst Hall].
  split; [|split; [exact Hfirst | exact Hall]].
  split; [|exact Hlen].
  destruct user; [congruence|]. unfold GoStrings.len. simpl. lia.
Qed.

Section ExecuteFacts.
Variable parseIPv6 : string -> bool.
Variable GetPath : string.
Variable runProcessAfter :
  list fixer.Cmd -> fixer.Cmd -> string * string * option error.
Variable ctxDone : Z -> option error.

Local Abbreviation executeOnHost' :=
  (fixer.executeOnHost parseIPv6 GetPath runProcessAfter ctxDone).
Local Abbreviation attemptCmd plan useSSH sshUser :=
  (if useSSH : bool
   then Spec.sshCommand (fixer.HostFixPlan.IP plan) sshUser
          (fixer.HostFixPlan.Command plan)
   else Spec.agentCommand GetPath (fixer.HostFixPlan.IP plan)
          (fixer.HostFixPlan.AgentPort plan)
          (fixer.HostFixPlan.Command plan)).
Local Abbreviation attempt plan useSSH sshUser :=
  (if useSSH : bool
   then fun spawned =>
          fixer.ExecuteViaSSH parseIPv6 (runProcessAfter spawned)
            (fixer.HostFixPlan.IP plan) sshUser
            (fixer.HostFixPlan.Command plan) spawned
   else fun spawned =>
          fixer.ExecuteViaAgent parseIPv6 GetPath (runProcessAfter spawned)
            (fixer.HostFixPlan.IP plan) (fixer.HostFixPlan.AgentPort plan)
            (fixer.HostFixPlan.Command plan) spawned).

(** One attempt runs at most one subprocess, and none for a target
    that fails validation. *)
Lemma attempt_spawns plan useSSH sshUser s :
  exists new,
    snd (attempt plan useSSH sshUser s) = s ++ new
    /\ (length new <= 1)%nat
    /\ Forall (fun cmd =>
                 cmd = attemptCmd plan useSSH sshUser
                 /\ fixer.ValidateHostTarget parseIPv6
                      (fixer.HostFixPlan.IP plan) = None) new.
Proof.
  destruct useSSH.
  - unfold fixer.ExecuteViaSSH.
    destruct (fixer.ValidateHostTarget _ _) as [err|];
      [exists []; simpl; rewrite app_nil_r; auto|].
    destruct (fixer.ValidateSSHUser _) as [err|];
      [exists []; simpl; rewrite app_nil_r; auto|].
    unfold fixer.bind, fixer.Run. eexists [_]. split.
    + destruct (runProcessAfter _ _) as [[stdout stderr] [err|]];
        reflexivity.
    + split; [simpl; lia|]. repeat constructor.
  - unfold fixer.ExecuteViaAgent.
    destruct (fixer.ValidateHostTarget _ _) as [err|];
      [exists []; simpl; rewrite app_nil_r; auto|].
    unfold fixer.bind, fixer.Run. eexists [_]. split.
    + destruct (runProcessAfter _ _) as [[stdout stderr] [err|]];
        reflexivity.
    + split; [simpl; lia|]. repeat constructor.
Qed.

Lemma attempt_refused plan useSSH sshUser s :
  fixer.ValidateHostTarget parseIPv6 (fixer.HostFixPlan.IP plan) <> None ->
  exists err, fst (attempt plan useSSH sshUser s) = inl err.
Proof.
  intros Hbad. destruct useSSH.
  - unfold fixer.ExecuteViaSSH.
    destruct (fixer.ValidateHostTarget _ _) as [err|]; [|congruence].
    simpl. eauto.
  - unfold fixer.ExecuteViaAgent.
    destruct (fixer.ValidateHostTarget _ _) as [err|]; [|congruence].
    simpl. eauto.
Qed.

(** X25: [executeOnHost] runs at most three subprocesses (an attempt and
    two retries), all of them the same command: [ssh] to the planned
    address, or [zabbix_get] to it on the planned port (10050 when the
    plan has none) with the planned command as [system.run] key.  It runs
    nothing for an address that fails validation, and then reports
    failure.  The result carries the host of the plan, and it reports
    success exactly when it carries no error. *)
Theorem executeOnHost_spawns (plan : fixer.HostFixPlan.t) (useSSH : bool)
    (sshUser : string) (spawned : list fixer.Cmd) :
  exists new,
    snd (executeOnHost' plan useSSH sshUser spawned) = spawned ++ new
    /\ (length new <= 3)%nat
    /\ Forall (fun cmd => cmd = attemptCmd plan useSSH sshUser) new
    /\ (fixer.ValidateHostTarget parseIPv6 (fixer.HostFixPlan.IP plan)
        <> None ->
        new = []
        /\ fixer.HostFixResult.Success
             (fst (executeOnHost' plan useSSH sshUser spawned)) = false)
    /\ fixer.HostFixResult.HostID
         (fst (executeOnHost' plan useSSH sshUser spawned))
       = fixer.HostFixPlan.HostID plan
    /\ fixer.HostFixResult.Name
         (fst (executeOnHost' plan useSSH sshUser spawned))
       = fixer.HostFixPlan.Name plan
    /\ (fixer.HostFixResult.Success
          (fst (executeOnHost' plan useSSH sshUser spawned)) = true <->
        fixer.HostFixResult.Error
          (fst (executeOnHost' plan useSSH sshUser spawned)) = None).
Proof.
  unfold fixer.executeOnHost, fixer.bind, fixer.ExecuteWithRetry.
  destruct (retryLoop_spawns ctxDone (attempt plan useSSH sshUser) _ 1 2
              (attempt_spawns plan useSSH sshUser)
              (Z.to_nat (2 + 1)) 0 None spawned)
    as (new & Hnew & Hlen & Hall).
  pose proof (retryLoop_output ctxDone (attempt plan useSSH sshUser) 2
                (Z.to_nat (2 + 1)) 0 None spawned) as Hout.
  destruct (fixer.retryLoop ctxDone _ 2 (Z.to_nat (2 + 1)) 0 None spawned)
    as [[err|output] spawned'] eqn:Hloop; cbn [fst snd] in *; subst spawned'.
  - exists new. split; [reflexivity|]. split; [exact Hlen|].
    split; [eapply List.Forall_impl; [|exact Hall]; now intros c [H _]|].
    split; [|repeat split; discriminate].
    intros Hbad. split; [|reflexivity].
    destruct new as [|c new]; [reflexivity|].
    apply List.Forall_cons_iff in Hall as [[_ Hok] _]. contradiction.
  - exists new. split; [reflexivity|]. split; [exact Hlen|].
    split; [eapply List.Forall_impl; [|exact Hall]; now intros c [H _]|].
    split; [|repeat split; reflexivity].
    intros Hbad. exfalso.
    destruct (Hout output ltac:(discriminate) eq_refl) as (s' & Hs').
    destruct (attempt_refused plan useSSH sshUser s' Hbad) as (e & He).
    destruct useSSH; rewrite He in Hs'; discriminate.
Qed.
End ExecuteFacts.

Lemma executeOnHost_spawns_witness :
  exists new,
    snd (fixer.executeOnHost Examples.noIPv6 "zabbix_get"
           (fun _ => Examples.runOK) (fun _ => None)
           (fixer.HostFixPlan.mk "1" "web" "-oProxyCommand=x" "" []
              "apt-get update")
           true "root" [])
    = [] ++ new
    /\ new = [].
Proof.
  destruct (executeOnHost_spawns Examples.noIPv6 "zabbix_get"
              (fun _ => Examples.runOK) (fun _ => None)
              (fixer.HostFixPlan.mk "1" "web" "-oProxyCommand=x" "" []
                 "apt-get update")
              true "root" [])
    as (new & H1 & _ & _ & H4 & _).
  exists new. split; [exact H1|]. apply H4. discriminate.
Defined.

(** ** OS names (osutil.go) *)

Lemma lowerByte_idempotent c :
  GoStrings.lowerByte (GoStrings.lowerByte c) = GoStrings.lowerByte c.
Proof. destruct c as [[] [] [] [] [] [] [] []]; reflexivity. Qed.

Lemma lowerByte_ascii c :
  (GoStrings.code (GoStrings.lowerByte c) <? 128)%N
  = (GoStrings.code c <? 128)%N.
Proof. destruct c as [[] [] [] [] [] [] [] []]; reflexivity. Qed.

Lemma mapBytes_lower_idempotent s :
  GoStrings.mapBytes GoStrings.lowerByte
    (GoStrings.mapBytes GoStrings.lowerByte s)
  = GoStrings.mapBytes GoStrings.lowerByte s.
Proof.
  induction s as [|c r IH]; simpl; [reflexivity|].
  now rewrite lowerByte_idempotent, IH.
Qed.

Lemma mapBytes_lower_ascii s :
  GoStrings.isASCII (GoStrings.mapBytes GoStrings.lowerByte s)
  = GoStrings.isASCII s.
Proof.
  unfold GoStrings.isASCII. induction s as [|c r IH]; simpl; [reflexivity|].
  now rewrite lowerByte_ascii, IH.
Qed.

(** The key words [NormalizeOSName] looks for in the lower-cased
    name. *)
Local Abbreviation classify :=
  (fun osName : string =>
     if GoStrings.Contains osName "ubuntu" then "ubuntu"
     else if GoStrings.Contains osName "debian" then "debian"
     else if GoStrings.Contains osName "centos" then "centos"
     else if GoStrings.Contains osName "red hat"
             || GoStrings.Contains osName "rhel" then "redhat"
     else if GoStrings.Contains osName "amazon" then "amazon"
     else if GoStrings.Contains osName "oracle" then "oraclelinux"
     else if GoStrings.Contains osName "suse" then "suse"
     else if GoStrings.Contains osName "fedora" then "fedora"
     else if GoStrings.Contains osName "alpine" then "alpine"
     else if GoStrings.Contains osName "arch" then "arch"
     else osName).

Lemma classify_cases l : In (classify l) Spec.knownOSNames \/ classify l = l.
Proof.
  cbv beta. unfold Spec.knownOSNames.
  repeat (destruct (GoStrings.Contains l _); [left; simpl; tauto|]).
  simpl. now right.
Qed.

Lemma knownOSNames_fixed k :
  In k Spec.knownOSNames ->
  classify k = k /\ GoStrings.isASCII k = true
  /\ GoStrings.mapBytes GoStrings.lowerByte k = k.
Proof.
  unfold Spec.knownOSNames. simpl.
  intros H. repeat (destruct H as [<-|H]; [repeat split|]). destruct H.
Qed.

Section OSNameFacts.
Variable unicodeToLower : string -> string.

Local Abbreviation NormalizeOSName' := (NormalizeOSName unicodeToLower).

Lemma NormalizeOSName_ascii osName :
  GoStrings.isASCII osName = true ->
  NormalizeOSName' osName
  = classify (GoStrings.mapBytes GoStrings.lowerByte osName).
Proof.
  intros H. unfold NormalizeOSName, GoStrings.ToLower. now rewrite H.
Qed.

(** X15: on a name of ASCII bytes [NormalizeOSName] gives one of the
    ten known names, or the name in lower case when it holds none of the
    key words; normalising the result again changes nothing. *)
Theorem NormalizeOSName_idempotent (osName : string) :
  GoStrings.isASCII osName = true ->
  (In (NormalizeOSName' osName) Spec.knownOSNames
   \/ NormalizeOSName' osName
      = GoStrings.mapBytes GoStrings.lowerByte osName)
  /\ NormalizeOSName' (NormalizeOSName' osName) = NormalizeOSName' osName.
Proof.
  intros Hascii. rewrite (NormalizeOSName_ascii _ Hascii).
  set (lower := GoStrings.mapBytes GoStrings.lowerByte osName).
  split; [apply classify_cases|].
  destruct (classify_cases lower) as [Hk|Hl].
  - destruct (knownOSNames_fixed _ Hk) as (Hc & Ha & Hm).
    rewrite (NormalizeOSName_ascii _ Ha), Hm. exact Hc.
  - rewrite Hl. unfold lower at 1.
    rewrite NormalizeOSName_ascii
      by (now rewrite mapBytes_lower_ascii).
    rewrite mapBytes_lower_idempotent. exact Hl.
Qed.
End OSNameFacts.

Lemma NormalizeOSName_idempotent_witness :
  NormalizeOSName Examples.asciiOnly
    (NormalizeOSName Examples.asciiOnly "Red Hat Enterprise Linux")
  = NormalizeOSName Examples.asciiOnly "Red Hat Enterprise Linux".
Proof.
  apply (NormalizeOSName_idempotent Examples.asciiOnly
           "Red Hat Enterprise Linux").
  reflexivity.
Defined.

(** ** The order in which hosts are added *)

Lemma pkgFindings_perm k entries entries' :
  entries ≡ₚ entries' ->
  Spec.pkgFindings k entries ≡ₚ Spec.pkgFindings k entries'.
Proof.
  intros H. unfold Spec.pkgFindings.
  apply Permutation_filter', Permutation_flat_map, H.
Qed.

Lemma NoDup_same_length (l l' : list string) :
  List.NoDup l -> List.NoDup l' -> (forall x, In x l <-> In x l') ->
  length l = length l'.
Proof.
  intros H H' Hiff. apply Permutation_length.
  now apply Stdlib.Sorting.Permutation.NoDup_Permutation.
Qed.

(** X28: which packages are reported, for which hosts, and how many
    hosts are counted does not depend on the order in which the hosts
    are added (the order in which the goroutines of a scan finish): for
    the same entries in another order, a package key has an aggregate in
    one aggregator exactly when it has one in the other, the two list
    the same hosts, and, when no finding of the key has a NaN score, the
    two scores compare equal. *)
Theorem addAll_order (entries entries' : list HostEntry.t) (k : string) :
  entries ≡ₚ entries' ->
  GoSlice.len (hosts (addAll NewAggregator entries))
  = GoSlice.len (hosts (addAll NewAggregator entries'))
  /\ match packages (addAll NewAggregator entries) !! k,
           packages (addAll NewAggregator entries') !! k with
     | Some p, Some p' =>
         (forall h, In h (PackageEntry.AffectedHosts p) <->
                    In h (PackageEntry.AffectedHosts p'))
         /\ GoSlice.len (PackageEntry.AffectedHosts p)
            = GoSlice.len (PackageEntry.AffectedHosts p')
         /\ (Forall (fun s => GoFloat.isNaN s = false)
               (map Spec.pkgScore (Spec.pkgFindings k entries)) ->
             GoFloat.le (PackageEntry.Score p) (PackageEntry.Score p') = true
             /\ GoFloat.le (PackageEntry.Score p') (PackageEntry.Score p)
                = true)
     | None, None => True
     | _, _ => False
     end.
Proof.
  intros Hperm. split.
  { rewrite !addAll_hosts. simpl. unfold GoSlice.len.
    now rewrite (Permutation_length Hperm). }
  pose proof (pkgFindings_perm k _ _ Hperm) as Hfs.
  rewrite !addAll_packages. simpl. rewrite lookup_empty.
  destruct (fold_left _ (Spec.pkgFindings k entries) None) as [p|] eqn:Hp;
    destruct (fold_left _ (Spec.pkgFindings k entries') None) as [p'|]
      eqn:Hp'.
  - pose proof (mergeAll_firstSeen _ PackageEntry.AffectedHosts
                  Spec.hostIDOf pkgMerge_hosts _ _ Hp) as Hh.
    pose proof (mergeAll_firstSeen _ PackageEntry.AffectedHosts
                  Spec.hostIDOf pkgMerge_hosts _ _ Hp') as Hh'.
    pose proof (mergeAll_maximum _ PackageEntry.Score Spec.pkgScore
                  pkgMerge_score_new pkgMerge_score _ _ Hp)
      as (Hin & _ & Hmax).
    pose proof (mergeAll_maximum _ PackageEntry.Score Spec.pkgScore
                  pkgMerge_score_new pkgMerge_score _ _ Hp')
      as (Hin' & _ & Hmax').
    assert (Hsame : forall h, In h (PackageEntry.AffectedHosts p) <->
                              In h (PackageEntry.AffectedHosts p')).
    { intros h. rewrite Hh, Hh', !firstSeen_In.
      split; apply Permutation_in; [|symmetry];
        now apply Permutation_map. }
    split; [exact Hsame|]. split.
    + unfold GoSlice.len. f_equal. apply NoDup_same_length; auto.
      * rewrite Hh. apply firstSeen_NoDup.
      * rewrite Hh'. apply firstSeen_NoDup.
    + intros Hnan.
      assert (Hscores : map Spec.pkgScore (Spec.pkgFindings k entries)
                        ≡ₚ map Spec.pkgScore (Spec.pkgFindings k entries'))
        by now apply Permutation_map.
      split.
      * apply Hmax'.
        -- eapply Permutation_Forall; eassumption.
        -- eapply Permutation_in; eassumption.
      * apply Hmax; [exact Hnan|].
        eapply Permutation_in; [symmetry|]; eassumption.
  - destruct (Spec.pkgFindings k entries') as [|f fs] eqn:E;
      [|simpl in Hp';
        destruct (mergeAll_Some
                    (fun o (f : Spec.pkgFinding) =>
                       mergePackage (Spec.hostIDOf f) (Spec.hostNameOf f) o
                         (snd f)) fs
                    (mergePackage (Spec.hostIDOf f) (Spec.hostNameOf f) None
                       (snd f))) as [e He]; congruence].
    symmetry in Hfs. apply Permutation_nil in Hfs. rewrite Hfs in Hp.
    discriminate.
  - destruct (Spec.pkgFindings k entries) as [|f fs] eqn:E;
      [|simpl in Hp;
        destruct (mergeAll_Some
                    (fun o (f : Spec.pkgFinding) =>
                       mergePackage (Spec.hostIDOf f) (Spec.hostNameOf f) o
                         (snd f)) fs
                    (mergePackage (Spec.hostIDOf f) (Spec.hostNameOf f) None
                       (snd f))) as [e He]; congruence].
    apply Permutation_nil in Hfs. rewrite Hfs in Hp'. discriminate.
  - exact I.
Qed.

Lemma addAll_order_witness :
  GoSlice.len (hosts (addAll NewAggregator [Examples.web; Examples.db]))
  = GoSlice.len (hosts (addAll NewAggregator [Examples.db; Examples.web])).
Proof.
  apply (addAll_order [Examples.web; Examples.db]
           [Examples.db; Examples.web] "openssl|1.0|amd64").
  apply perm_swap.
Defined.

(** ** Further unit tests of the repository, replayed *)

Example TestFilterByMinCVSS :
  let pkgs :=
    [PackageVuln.mk "a" "" "" 3 "" [] []; PackageVuln.mk "b" "" "" 7.5 "" [] [];
     PackageVuln.mk "c" "" "" 5 "" [] []; PackageVuln.mk "d" "" "" 9.5 "" [] []]
  in
  map GoSlice.len
    [FilterByMinCVSS [] 5; FilterByMinCVSS pkgs 1;
     FilterByMinCVSS pkgs 10; FilterByMinCVSS pkgs 5]
  = [0; 4; 0; 3].
Proof. vm_compute. reflexivity. Qed.

Example TestGeneratePackagesLLD :
  let entry :=
    packageLLDEntry Examples.amd64 Examples.oneDecimal
      (PackageEntry.mk "openssl" "1.1.1f" "amd64" 0x1.399999999999ap+3
         "apt-get install openssl=1.1.1k" ["10"; "20"; "30"]
         ["web1"; "web2"; "db1"] ["USN-5000-1"; "USN-5001-1"]) in
  GeneratePackagesLLD Examples.amd64 Examples.oneDecimal [] = []
  /\ map (fun key => entry !! key)
       ["{#P.NAME}"; "{#P.VERSION}"; "{#P.ARCH}"; "{#P.AFFECTED}";
        "{#P.HOSTS}"; "{#PKG.ID}"; "{#PKG.IMPACT}"; "{#PKG.URL}";
        "{#PKG.HOSTS}"; "{#PKG.FIX}"]
     = map Some
         [zabbix.VString "openssl"; zabbix.VString "1.1.1f";
          zabbix.VString "amd64"; zabbix.VInt 3; zabbix.VString "10,20,30";
          zabbix.VString "openssl 1.1.1f amd64"; zabbix.VInt 29;
          zabbix.VString "USN-5000-1";
          zabbix.VString
            ("web1" +:+ Examples.newline +:+ "web2" +:+ Examples.newline
             +:+ "db1");
          zabbix.VString "apt-get install openssl=1.1.1k"]
  /\ packageLLDEntry Examples.amd64 Examples.oneDecimal
       (PackageEntry.mk "curl" "" "" 0 "" [] [] []) !! "{#PKG.URL}"
     = Some (zabbix.VString "")
  /\ packageLLDEntry Examples.amd64 Examples.oneDecimal
       (PackageEntry.mk "curl" "" "" 5 "" [] [] []) !! "{#PKG.IMPACT}"
     = Some (zabbix.VInt 0).
Proof. vm_compute. repeat split. Qed.

Example TestLLDHostNamesNewlineSeparated :
  bulletinLLDEntry Examples.amd64 Examples.oneDecimal
    (BulletinEntry.mk "B1" "" 0 [] "" [] [] ["Alpha"; "Beta"])
    !! "{#BULLETIN.HOSTS}"
  = Some (zabbix.VString ("Alpha" +:+ Examples.newline +:+ "Beta"))
  /\ packageLLDEntry Examples.amd64 Examples.oneDecimal
       (PackageEntry.mk "curl" "" "" 0 "" [] ["OnlyHost"] [])
       !! "{#PKG.HOSTS}"
     = Some (zabbix.VString "OnlyHost")
  /\ packageLLDEntry Examples.amd64 Examples.oneDecimal
       (PackageEntry.mk "curl" "" "" 0 "" [] [] []) !! "{#PKG.HOSTS}"
     = Some (zabbix.VString "").
Proof. vm_compute. repeat split. Qed.

Example TestGetHostAddress :
  let iface type main useip ip dns port :=
    zabbix.HostInterface.mk "" ip dns port type main useip in
  map (fun ifaces =>
         fixer.getHostAddress (zabbix.Host.mk "" "" "" "" ifaces [] []))
    [[iface "1" "1" "1" "10.0.0.1" "web01.example.com" "10050"];
     [iface "1" "1" "0" "" "web01.example.com" "10050"];
     [iface "2" "1" "1" "10.0.0.2" "" "161"];
     [iface "2" "0" "1" "10.0.0.3" "" "161"];
     [iface "2" "1" "1" "10.0.0.2" "" "161";
      iface "1" "1" "1" "10.0.0.1" "" "10050"];
     [];
     [iface "2" "0" "0" "" "fallback.local" "161"]]
  = [("10.0.0.1", "10050"); ("web01.example.com", "10050");
     ("10.0.0.2", "161"); ("10.0.0.3", "161"); ("10.0.0.1", "10050");
     ("", ""); ("fallback.local", "161")].
Proof. vm_compute. reflexivity. Qed.

Example TestAppendUniqueStr :
  map (fun c => length (fixer.appendUniqueStr (fst c) (snd c)))
    [([], "nginx"); (["nginx"], "curl"); (["nginx"; "curl"], "nginx")]
  = [1; 2; 2]%nat.
Proof. vm_compute. reflexivity. Qed.

Example TestIsVirtualHost :
  map (fixer.isVirtualHost Examples.naming)
    ["vulners.hosts"; "vulners.packages"; "vulners.bulletins";
     "vulners.statistics"; "webserver01"; ""; "vulners"]
  = [true; true; true; true; false; false; false].
Proof. vm_compute. reflexivity. Qed.
